(** * OpenSystemMonitor: the hardware telemetry and mode-control core

    A shallow embedding of the Windows/ASUS part of [main.py]: the ATK ACPI
    device channel and its reply decoding, the performance-mode cache with
    its JSON file, the LibreHardwareMonitor and NVML sensor readers, the
    thermal aggregator [_get_thermal_stats] and the [POST /modes] route.

    Python integers are [Z], Python floats are IEEE binary64 primitive
    floats, [str] is [string] (ASCII), [Optional[T]] is [option T], byte
    buffers are [list byte].  Module-level globals and the outside world
    (driver, cache file) are threaded through a small state monad. *)

From Stdlib Require Import ZArith List Bool String Ascii Lia.
From Stdlib Require Import Floats SpecFloat.
From Stdlib.Strings Require Import Byte.
Import ListNotations.
Set Warnings "-register-all".
Local Open Scope string_scope.
Local Open Scope Z_scope.

(* ------------------------------------------------------------------ *)
(** ** [struct]: fixed-layout little-endian packing                     *)
(* ------------------------------------------------------------------ *)

Module Struct.

Definition byte_of_Z (z : Z) : byte :=
  match Byte.of_N (Z.to_N (z mod 256)) with
  | Some b => b
  | None => x00
  end.

Definition Z_of_byte (b : byte) : Z := Z.of_N (Byte.to_N b).

(** One ["<I"] field.  [struct.pack] raises [struct.error] outside
    [0, 2^32); every call site in [main.py] passes a module constant or
    a write code in [0..3], so the reduction modulo 2^32 is the identity
    wherever the program uses it. *)
Definition pack_u32 (v : Z) : list byte :=
  [ byte_of_Z v;
    byte_of_Z (Z.shiftr v 8);
    byte_of_Z (Z.shiftr v 16);
    byte_of_Z (Z.shiftr v 24) ].

(** [struct.pack("<IIII", a, b, c, d)] *)
Definition pack_IIII (a b c d : Z) : list byte :=
  pack_u32 a ++ pack_u32 b ++ pack_u32 c ++ pack_u32 d.

(** Unsigned little-endian value of a byte string. *)
Fixpoint le_unsigned (bs : list byte) : Z :=
  match bs with
  | [] => 0
  | b :: rest => Z_of_byte b + 256 * le_unsigned rest
  end.

(** Two's complement reading of a 32-bit pattern. *)
Definition to_signed32 (u : Z) : Z :=
  if u <? 2 ^ 31 then u else u - 2 ^ 32.

(** [struct.unpack_from("<i", buf, offset)[0]]; [None] stands for the
    [struct.error] raised when fewer than four bytes are left. *)
Definition unpack_from_i32 (buf : list byte) (offset : nat) : option Z :=
  let field := firstn 4 (skipn offset buf) in
  if (List.length field =? 4)%nat
  then Some (to_signed32 (le_unsigned field))
  else None.

(** [ctypes.create_string_buffer(n)] after the driver has written
    [written] into it: always exactly [n] bytes, zero padded. *)
Definition string_buffer (n : nat) (written : list byte) : list byte :=
  firstn n (written ++ repeat x00 n).

End Struct.

(* ------------------------------------------------------------------ *)
(** ** Python float arithmetic on binary64                              *)
(* ------------------------------------------------------------------ *)

Module PyFloat.

(** The double nearest to the rational [p / q] ([q > 0]), ties to even.
    The quotient is taken with 64 extra bits and a sticky bit, then
    rounded once by [binary_normalize]. *)
Definition of_ratio (p q : Z) : float :=
  let n := Z.abs p in
  if n =? 0 then SF2Prim (S754_zero false) else
  let sh := Z.max 0 (64 + Z.log2 q - Z.log2 n + 1) in
  let scaled := n * 2 ^ sh in
  let m := scaled / q in
  let sticky := if scaled mod q =? 0 then 0 else 1 in
  let m' := 2 * m + sticky in
  SF2Prim (binary_normalize prec emax (Z.sgn p * m') (- sh - 1) false).

(** [float(n)] for a Python int. *)
Definition of_int (n : Z) : float := of_ratio n 1.

(** [a / b] on Python ints (true division, correctly rounded);
    [None] is [ZeroDivisionError]. *)
Definition int_truediv (a b : Z) : option float :=
  if b =? 0 then None
  else Some (of_ratio (Z.sgn b * a) (Z.abs b)).

(** Nearest integer to [num / den] ([den > 0], [num >= 0]), ties to
    even. *)
Definition round_half_even (num den : Z) : Z :=
  let q := num / den in
  let r := num mod den in
  match 2 * r ?= den with
  | Lt => q
  | Gt => q + 1
  | Eq => if Z.even q then q else q + 1
  end.

(** [round(x, 1)]: the exact binary value is rounded to one decimal
    (ties to even) and the decimal is converted back to the nearest
    double; zeros, infinities and NaN are returned as they are. *)
Definition round1 (x : float) : float :=
  match Prim2SF x with
  | S754_finite s m e =>
      let num := Z.pos m * 10 * 2 ^ (Z.max e 0) in
      let den := 2 ^ (Z.max (- e) 0) in
      let n := round_half_even num den in
      if n =? 0 then SF2Prim (S754_zero s)
      else of_ratio (if s then - n else n) 10
  | _ => x
  end.

(** [x * k] for a float and a Python int. *)
Definition mul_int (x : float) (k : Z) : float :=
  PrimFloat.mul x (of_int k).

End PyFloat.

(* ------------------------------------------------------------------ *)
(** ** Python values, strings and dictionaries                          *)
(* ------------------------------------------------------------------ *)

Module Py.

(** What [json.load] can return and what the mode globals can hold. *)
Inductive value : Type :=
| PyNone
| PyBool (b : bool)
| PyInt (n : Z)
| PyFloat (x : float)
| PyStr (s : string)
| PyList (items : list value)
| PyDict (items : list (string * value)).

(** [v is not None] *)
Definition is_not_None (v : value) : bool :=
  match v with
  | PyNone => false
  | _ => true
  end.

Definition of_option_str (o : option string) : value :=
  match o with
  | Some s => PyStr s
  | None => PyNone
  end.

(** [str.lower()] on ASCII text. *)
Definition lower_char (c : ascii) : ascii :=
  let n := nat_of_ascii c in
  if ((65 <=? n) && (n <=? 90))%nat then ascii_of_nat (n + 32) else c.

Fixpoint lower (s : string) : string :=
  match s with
  | EmptyString => EmptyString
  | String c rest => String (lower_char c) (lower rest)
  end.

(** A dict literal as its items in source order; [d.get(k)]. *)
Fixpoint get {K V : Type} (eqb : K -> K -> bool) (d : list (K * V)) (k : K)
  : option V :=
  match d with
  | [] => None
  | (k', v) :: rest => if eqb k' k then Some v else get eqb rest k
  end.

(** [k in d] *)
Definition contains {K V : Type} (eqb : K -> K -> bool) (d : list (K * V))
  (k : K) : bool :=
  match get eqb d k with
  | Some _ => true
  | None => false
  end.

(** [d.get(k, default)] *)
Definition get_default {K V : Type} (eqb : K -> K -> bool)
  (d : list (K * V)) (k : K) (default : V) : V :=
  match get eqb d k with
  | Some v => v
  | None => default
  end.

(** [sep.join(parts)] *)
Fixpoint join (sep : string) (parts : list string) : string :=
  match parts with
  | [] => ""
  | [p] => p
  | p :: rest => p ++ sep ++ join sep rest
  end.

End Py.

Import Py.

(* ------------------------------------------------------------------ *)
(** ** The outside world and the process state                          *)
(* ------------------------------------------------------------------ *)

(** One exchange with [\\.\ATKACPI]: [CreateFileW] fails, or
    [DeviceIoControl] reports failure, or it succeeds having written
    [written] into the output buffer. *)
Inductive IoOutcome : Type :=
| OpenFailed
| TransferFailed
| TransferOk (written : list byte).

(** [mode_cache.json] on disk. *)
Inductive FileState : Type :=
| Missing
| Garbage
| Json (content : value).

(** A LibreHardwareMonitor sensor, sub-hardware and hardware node.
    [Update_raises] says that the node's [Update()] throws. *)
Record Sensor : Type := mkSensor {
  SensorType : string;
  Name : string;
  Value : option float
}.

Record SubNode : Type := mkSubNode {
  sub_Update_raises : bool;
  sub_Sensors : list Sensor
}.

Record HardwareNode : Type := mkHardware {
  HardwareType : string;
  Update_raises : bool;
  Sensors : list Sensor;
  SubHardware : list SubNode
}.

(** What becomes of [with open(path, "w") as f: json.dump(..., f)]: the
    record is written; or [open] raises and the file is not touched; or
    [open] succeeds, which empties the file, and the write then fails,
    leaving an empty or partial text that is not JSON. *)
Inductive SaveOutcome : Type :=
| SaveOk
| OpenFails
| WriteFails.

(** Everything the program reads but does not own.  The driver answers
    the [n]-th attempt to open the device, given the packet that would be
    sent, with an [IoOutcome]; nothing is assumed about it. *)
Record Env : Type := mkEnv {
  os_name : string;
  driver : nat -> list byte -> IoOutcome;
  fs_save : SaveOutcome;
  _LHM_COMPUTER : option (list HardwareNode);
  _NVML_AVAILABLE : bool;
  nvml_temperature : option Z;   (* [None]: the query raised *)
  nvml_fan_speed : option Z;     (* [None]: [NVMLError] *)
  psutil_cpu_temp : option float;
  psutil_cpu_fan : option Z
}.

(** The cache file can be written. *)
Definition fs_writable (env : Env) : bool :=
  match fs_save env with
  | SaveOk => true
  | OpenFails | WriteFails => false
  end.

(** What changes while the server runs: the device traffic so far, the
    cache file, and the two module globals. *)
Record State : Type := mkState {
  attempts : nat;
  transfers : list (list byte);
  cache_file : FileState;
  _cached_cpu_mode : value;
  _cached_gpu_mode : value
}.

Definition set_cached_cpu (v : value) (st : State) : State :=
  mkState (attempts st) (transfers st) (cache_file st) v (_cached_gpu_mode st).

Definition set_cached_gpu (v : value) (st : State) : State :=
  mkState (attempts st) (transfers st) (cache_file st) (_cached_cpu_mode st) v.

Definition set_cache_file (f : FileState) (st : State) : State :=
  mkState (attempts st) (transfers st) f (_cached_cpu_mode st)
    (_cached_gpu_mode st).

(** The state monad the embedded functions run in. *)
Definition M (A : Type) : Type := State -> A * State.

Definition ret {A : Type} (a : A) : M A := fun st => (a, st).

Definition bind {A B : Type} (c : M A) (k : A -> M B) : M B :=
  fun st => let (a, st') := c st in k a st'.

Definition gets {A : Type} (f : State -> A) : M A := fun st => (f st, st).

Definition modify (f : State -> State) : M unit := fun st => (tt, f st).

Declare Scope py_scope.
Delimit Scope py_scope with py.
Notation "x <- c ;; k" := (bind c (fun x => k))
  (at level 61, c at next level, right associativity) : py_scope.
Notation "c ;;; k" := (bind c (fun _ => k))
  (at level 61, right associativity) : py_scope.
Local Open Scope py_scope.

(** Unfolds the monad operations in a goal. *)
Ltac run_monad :=
  unfold bind, ret, gets, modify; cbn [fst snd].

(** An HTTP handler returns its response model, or raises
    [HTTPException(status_code, detail)], or lets another exception
    escape. *)
Inductive Response (A : Type) : Type :=
| Returned (body : A)
| HTTPException (status_code : Z) (detail : string)
| Unhandled (exception : string).
Arguments Returned {A} body.
Arguments HTTPException {A} status_code detail.
Arguments Unhandled {A} exception.

(* ------------------------------------------------------------------ *)
(** ** ASUS ATK ACPI: constants, device channel, reply decoding         *)
(* ------------------------------------------------------------------ *)

Definition _DSTS : Z := 0x53545344.
Definition _DEVS : Z := 0x53564544.
Definition _ATK_CPU_FAN_ID : Z := 0x00110013.
Definition _ATK_GPU_FAN_ID : Z := 0x00110014.
Definition _FAN_MAX_RPM : Z := 6600.
Definition _ATK_CPU_MODE_ID : Z := 0x00120075.
Definition _ATK_GPU_ECO_ID : Z := 0x00090020.
Definition _ATK_GPU_MUX_ID : Z := 0x00090016.

(** [raw = _struct.unpack_from("<i", out_buf.raw, 0)[0]] on the 16-byte
    output buffer.  The buffer always holds 16 bytes, so the unpack cannot
    raise; the [None] branch is kept only to mirror the call. *)
Definition reply_raw (written : list byte) : option Z :=
  Struct.unpack_from_i32 (Struct.string_buffer 16 written) 0.

(** The decoding inside [_atk_read_fan]:
    [val = raw - 65536; if val < 0: val += 65536]. *)
Definition fan_decode (raw : Z) : Z :=
  let val := raw - 65536 in
  if val <? 0 then val + 65536 else val.

(** The decoding inside [_atk_read_device]: [return raw - 65536]. *)
Definition device_decode (raw : Z) : Z := raw - 65536.

(** The tail of [_atk_read_fan]:
    [if val <= 0 or val > 100: return None; return val * 100]. *)
Definition fan_rpm_of_val (val : Z) : option Z :=
  if (val <=? 0) || (val >? 100) then None else Some (val * 100).

Section Server.

Variable env : Env.

(** [CreateFileW] / [DeviceIoControl] / [CloseHandle] around one packet.
    The attempt is counted; the packet is logged only if the handle was
    opened, since otherwise nothing is sent. *)
Definition device_io_control (in_buf : list byte) : M IoOutcome :=
  fun st =>
    let outcome := driver env (attempts st) in_buf in
    let sent :=
      match outcome with
      | OpenFailed => transfers st
      | _ => in_buf :: transfers st
      end in
    (outcome,
     mkState (S (attempts st)) sent (cache_file st)
       (_cached_cpu_mode st) (_cached_gpu_mode st)).

(** [finally: CloseHandle(handle)] releases the handle on every path and
    leaves no trace in the state. *)
Definition _atk_read_fan (device_id : Z) : M (option Z) :=
  outcome <- device_io_control (Struct.pack_IIII _DSTS 8 device_id 0) ;;
  ret match outcome with
      | OpenFailed => None
      | TransferFailed => None
      | TransferOk written =>
          match reply_raw written with
          | Some raw => fan_rpm_of_val (fan_decode raw)
          | None => None
          end
      end.

(** The [try/except] around the two reads has nothing to catch here:
    neither read raises. *)
Definition _atk_fan_speeds : M (option Z * option Z) :=
  cpu <- _atk_read_fan _ATK_CPU_FAN_ID ;;
  gpu <- _atk_read_fan _ATK_GPU_FAN_ID ;;
  ret (cpu, gpu).

Definition _atk_read_device (device_id : Z) : M (option Z) :=
  outcome <- device_io_control (Struct.pack_IIII _DSTS 8 device_id 0) ;;
  ret match outcome with
      | OpenFailed => None
      | TransferFailed => None
      | TransferOk written =>
          match reply_raw written with
          | Some raw => Some (device_decode raw)
          | None => None
          end
      end.

Definition _atk_write_device (device_id value : Z) : M bool :=
  outcome <- device_io_control (Struct.pack_IIII _DEVS 8 device_id value) ;;
  ret match outcome with
      | OpenFailed => false
      | TransferFailed => false
      | TransferOk _ => true
      end.

(* ------------------------------------------------------------------ *)
(** ** The mode cache                                                   *)
(* ------------------------------------------------------------------ *)

Definition _CPU_MODE_MAP : list (Z * string) :=
  [(0, "Balanced"); (1, "Turbo"); (2, "Silent"); (3, "Performance");
   (4, "Manual")].

Definition _CPU_MODE_WRITE_MAP : list (string * Z) :=
  [("balanced", 0); ("turbo", 1); ("silent", 2); ("performance", 3)].

(** [_CPU_MODE_MAP.get(val)] for a non-negative register value; the
    [except Exception] has nothing to catch. *)
Definition _read_cpu_mode_from_hw : M value :=
  val <- _atk_read_device _ATK_CPU_MODE_ID ;;
  ret match val with
      | None => PyNone
      | Some v =>
          if v <? 0 then PyNone
          else of_option_str (get Z.eqb _CPU_MODE_MAP v)
      end.

(** [data.get(k)] on whatever [json.load] returned; [None] is the
    [AttributeError] of a value that is not a dict. *)
Definition json_get (data : value) (k : string) : option value :=
  match data with
  | PyDict items => Some (get_default String.eqb items k PyNone)
  | _ => None
  end.

Definition _load_mode_cache : M (value * value) :=
  file <- gets cache_file ;;
  match file with
  | Json data =>
      match json_get data "cpu_mode", json_get data "gpu_mode" with
      | Some c, Some g => ret (c, g)
      | _, _ => hw <- _read_cpu_mode_from_hw ;; ret (hw, PyNone)
      end
  | Missing | Garbage => hw <- _read_cpu_mode_from_hw ;; ret (hw, PyNone)
  end.

(** Every failure is swallowed by [except Exception: pass]; what is
    left on disk depends on where the save failed. *)
Definition _save_mode_cache (cpu_mode gpu_mode : value) : M unit :=
  match fs_save env with
  | SaveOk =>
      modify (set_cache_file
                (Json (PyDict [("cpu_mode", cpu_mode);
                               ("gpu_mode", gpu_mode)])))
  | OpenFails => ret tt
  | WriteFails => modify (set_cache_file Garbage)
  end.

(** The module-level statement
    [_cached_cpu_mode, _cached_gpu_mode = _load_mode_cache()].  It stands
    inside the [if os.name == "nt":] block, so off Windows the module
    body reads neither the file nor the device and defines no globals. *)
Definition module_init : M unit :=
  if String.eqb (os_name env) "nt" then
    loaded <- _load_mode_cache ;;
    modify (set_cached_cpu (fst loaded)) ;;;
    modify (set_cached_gpu (snd loaded))
  else ret tt.

Definition _get_cpu_mode : M value := gets _cached_cpu_mode.

Definition _set_cpu_mode (mode : string) : M bool :=
  let key := lower mode in
  match get String.eqb _CPU_MODE_WRITE_MAP key with
  | None => ret false
  | Some val =>
      ok <- _atk_write_device _ATK_CPU_MODE_ID val ;;
      (if ok : bool then
         modify (set_cached_cpu
                   (PyStr (get_default String.eqb
                             [("balanced", "Balanced"); ("turbo", "Turbo");
                              ("silent", "Silent");
                              ("performance", "Performance")] key mode))) ;;;
         cpu <- gets _cached_cpu_mode ;;
         gpu <- gets _cached_gpu_mode ;;
         _save_mode_cache cpu gpu
       else ret tt) ;;;
      ret ok
  end.

Definition _get_gpu_mode : M value :=
  cached <- gets _cached_gpu_mode ;;
  if is_not_None cached then ret cached
  else
    eco <- _atk_read_device _ATK_GPU_ECO_ID ;;
    mux <- _atk_read_device _ATK_GPU_MUX_ID ;;
    ret match eco, mux with
        | None, None => PyNone
        | _, _ =>
            if match mux with Some m => m =? 0 | None => false end
            then PyStr "Ultimate"
            else if match eco with Some e => e =? 1 | None => false end
            then PyStr "Eco"
            else PyStr "Standard"
        end.

Definition _set_gpu_mode (mode : string) : M bool :=
  let key := lower mode in
  let after_write (ok : bool) : M bool :=
    (if ok then
       modify (set_cached_gpu
                 (PyStr (get_default String.eqb
                           [("eco", "Eco"); ("standard", "Standard")]
                           key mode))) ;;;
       cpu <- gets _cached_cpu_mode ;;
       gpu <- gets _cached_gpu_mode ;;
       _save_mode_cache cpu gpu
     else ret tt) ;;;
    ret ok in
  if String.eqb key "eco" then
    ok <- _atk_write_device _ATK_GPU_ECO_ID 1 ;; after_write ok
  else if String.eqb key "standard" then
    ok <- _atk_write_device _ATK_GPU_ECO_ID 0 ;; after_write ok
  else ret false.

(* ------------------------------------------------------------------ *)
(** ** Sensor backends                                                  *)
(* ------------------------------------------------------------------ *)

(** The four locals of [_lhm_cpu_sensors]. *)
Record CpuAcc : Type := mkCpuAcc {
  package_temp : option float;
  core_avg : option float;
  core_max : option float;
  cpu_fan : option float
}.

Definition is_None {A : Type} (o : option A) : bool :=
  match o with
  | None => true
  | Some _ => false
  end.

(** Body of [for sensor in hw.Sensors] in [_lhm_cpu_sensors]. *)
Definition cpu_sensor_step (acc : CpuAcc) (sensor : Sensor) : CpuAcc :=
  match Value sensor with
  | None => acc
  | Some val =>
      let stype := SensorType sensor in
      let sname := Name sensor in
      if String.eqb stype "Temperature" then
        if String.eqb sname "CPU Package" then
          mkCpuAcc (Some (PyFloat.round1 val)) (core_avg acc) (core_max acc)
            (cpu_fan acc)
        else if String.eqb sname "Core Average" then
          mkCpuAcc (package_temp acc) (Some (PyFloat.round1 val))
            (core_max acc) (cpu_fan acc)
        else if String.eqb sname "Core Max" then
          mkCpuAcc (package_temp acc) (core_avg acc)
            (Some (PyFloat.round1 val)) (cpu_fan acc)
        else acc
      else if String.eqb stype "Fan" && is_None (cpu_fan acc) then
        mkCpuAcc (package_temp acc) (core_avg acc) (core_max acc)
          (Some (PyFloat.round1 val))
      else acc
  end.

(** Body of [for sensor in sub.Sensors]. *)
Definition cpu_sub_sensor_step (acc : CpuAcc) (sensor : Sensor) : CpuAcc :=
  match Value sensor with
  | None => acc
  | Some val =>
      if String.eqb (SensorType sensor) "Fan" && is_None (cpu_fan acc) then
        mkCpuAcc (package_temp acc) (core_avg acc) (core_max acc)
          (Some (PyFloat.round1 val))
      else acc
  end.

(** [for sub in hw.SubHardware]; [None] is an exception from
    [sub.Update()]. *)
Fixpoint cpu_sub_loop (acc : CpuAcc) (subs : list SubNode) : option CpuAcc :=
  match subs with
  | [] => Some acc
  | sub :: rest =>
      if sub_Update_raises sub then None
      else cpu_sub_loop (fold_left cpu_sub_sensor_step (sub_Sensors sub) acc)
             rest
  end.

(** [for hw in _LHM_COMPUTER.Hardware] of [_lhm_cpu_sensors]. *)
Fixpoint cpu_hw_loop (acc : CpuAcc) (hws : list HardwareNode)
  : option CpuAcc :=
  match hws with
  | [] => Some acc
  | hw :: rest =>
      if negb (String.eqb (HardwareType hw) "Cpu") then cpu_hw_loop acc rest
      else if Update_raises hw then None
      else
        match cpu_sub_loop (fold_left cpu_sensor_step (Sensors hw) acc)
                (SubHardware hw) with
        | None => None
        | Some acc' => cpu_hw_loop acc' rest
        end
  end.

Definition no_cpu_readings : CpuAcc := mkCpuAcc None None None None.

Definition _lhm_cpu_sensors : CpuAcc :=
  match _LHM_COMPUTER env with
  | None => no_cpu_readings
  | Some hardware =>
      match cpu_hw_loop no_cpu_readings hardware with
      | Some acc => acc
      | None => no_cpu_readings
      end
  end.

(** The four locals of [_lhm_gpu_sensors]. *)
Record GpuAcc : Type := mkGpuAcc {
  core_temp : option float;
  hotspot_temp : option float;
  gpu_fan : option float;
  fan_pct : option float
}.

Definition gpu_sensor_step (acc : GpuAcc) (sensor : Sensor) : GpuAcc :=
  match Value sensor with
  | None => acc
  | Some val =>
      let stype := SensorType sensor in
      let sname := Name sensor in
      if String.eqb stype "Temperature" then
        if String.eqb sname "GPU Core" && is_None (core_temp acc) then
          mkGpuAcc (Some (PyFloat.round1 val)) (hotspot_temp acc)
            (gpu_fan acc) (fan_pct acc)
        else if String.eqb sname "GPU Hot Spot"
                && is_None (hotspot_temp acc) then
          mkGpuAcc (core_temp acc) (Some (PyFloat.round1 val)) (gpu_fan acc)
            (fan_pct acc)
        else acc
      else if String.eqb stype "Fan" then
        if is_None (gpu_fan acc) then
          mkGpuAcc (core_temp acc) (hotspot_temp acc)
            (Some (PyFloat.round1 val)) (fan_pct acc)
        else acc
      else if String.eqb stype "Control" then
        if is_None (fan_pct acc) then
          mkGpuAcc (core_temp acc) (hotspot_temp acc) (gpu_fan acc)
            (Some (PyFloat.round1 val))
        else acc
      else acc
  end.

Definition is_gpu_type (t : string) : bool :=
  String.eqb t "GpuNvidia" || String.eqb t "GpuAmd" || String.eqb t "GpuIntel".

(** [for hw in _LHM_COMPUTER.Hardware] of [_lhm_gpu_sensors], with its
    [break] after the first GPU node. *)
Fixpoint gpu_hw_loop (acc : GpuAcc) (hws : list HardwareNode)
  : option GpuAcc :=
  match hws with
  | [] => Some acc
  | hw :: rest =>
      if negb (is_gpu_type (HardwareType hw)) then gpu_hw_loop acc rest
      else if Update_raises hw then None
      else Some (fold_left gpu_sensor_step (Sensors hw) acc)
  end.

Definition no_gpu_readings : GpuAcc := mkGpuAcc None None None None.

Definition _lhm_gpu_sensors : GpuAcc :=
  match _LHM_COMPUTER env with
  | None => no_gpu_readings
  | Some hardware =>
      match gpu_hw_loop no_gpu_readings hardware with
      | Some acc => acc
      | None => no_gpu_readings
      end
  end.

(** [(gpu_temp_celsius, gpu_fan_percent)] of the first NVIDIA GPU. *)
Definition _gpu_stats_nvidia : option float * option float :=
  if negb (_NVML_AVAILABLE env) then (None, None)
  else
    match nvml_temperature env with
    | None => (None, None)
    | Some t =>
        (Some (PyFloat.of_int t),
         match nvml_fan_speed env with
         | Some f => Some (PyFloat.of_int f)
         | None => None
         end)
    end.

(* ------------------------------------------------------------------ *)
(** ** The thermal aggregator                                           *)
(* ------------------------------------------------------------------ *)

Record ThermalStats : Type := mkThermalStats {
  cpu_package_temp_celsius : option float;
  cpu_core_avg_celsius : option float;
  cpu_core_max_celsius : option float;
  cpu_fan_rpm : option Z;
  cpu_fan_percent : option float;
  gpu_core_temp_celsius : option float;
  gpu_hotspot_celsius : option float;
  gpu_fan_rpm : option Z;
  gpu_fan_percent : option float
}.

(** [round(rpm / _FAN_MAX_RPM * 100, 1)] *)
Definition rpm_percent (rpm : Z) : option float :=
  match PyFloat.int_truediv rpm _FAN_MAX_RPM with
  | Some q => Some (PyFloat.round1 (PyFloat.mul_int q 100))
  | None => None
  end.

(** [round(x, 1) if x is not None else None] around the expression
    above. *)
Definition percent_if_present (rpm : option Z) : option float :=
  match rpm with
  | Some r => rpm_percent r
  | None => None
  end.

(** The OS-native readers of the other branch are taken from [env] as
    their results. *)
Definition _get_thermal_stats : M ThermalStats :=
  if String.eqb (os_name env) "nt" then
    let cpu := _lhm_cpu_sensors in
    let gpu := _lhm_gpu_sensors in
    fans <- _atk_fan_speeds ;;
    let cpu_fan_rpm := fst fans in
    let gpu_fan_rpm := snd fans in
    let cpu_fan_percent := percent_if_present cpu_fan_rpm in
    let gpu_fan_percent := percent_if_present gpu_fan_rpm in
    let gpu_core :=
      match core_temp gpu with
      | None => fst _gpu_stats_nvidia
      | Some t => Some t
      end in
    ret (mkThermalStats (package_temp cpu) (core_avg cpu) (core_max cpu)
           cpu_fan_rpm cpu_fan_percent gpu_core (hotspot_temp gpu)
           gpu_fan_rpm gpu_fan_percent)
  else
    ret (mkThermalStats (psutil_cpu_temp env) None None (psutil_cpu_fan env)
           None (fst _gpu_stats_nvidia) None None (snd _gpu_stats_nvidia)).

(* ------------------------------------------------------------------ *)
(** ** [POST /modes]                                                    *)
(* ------------------------------------------------------------------ *)

Record PerformanceModes : Type := mkPerformanceModes {
  cpu_mode : value;
  gpu_mode : value
}.

(** A value that an [Optional[str]] field takes as it is. *)
Definition is_optional_str (v : value) : bool :=
  match v with
  | PyNone | PyStr _ => true
  | _ => false
  end.

(** [PerformanceModes(cpu_mode=..., gpu_mode=...)]: the model validates
    its two [Optional[str]] fields and raises [ValidationError] for a
    value that is neither [None] nor a [str] (such a value can only come
    from the cache file). *)
Definition new_PerformanceModes (cpu gpu : value) : option PerformanceModes :=
  if is_optional_str cpu && is_optional_str gpu
  then Some (mkPerformanceModes cpu gpu)
  else None.

Record ModeSetRequest : Type := mkModeSetRequest {
  req_cpu_mode : option string;
  req_gpu_mode : option string
}.

Definition invalid_cpu_mode (m : string) : string :=
  "Invalid cpu_mode '" ++ m
  ++ "'. Valid: Silent, Balanced, Turbo, Performance".

Definition cpu_write_failed (m : string) : string :=
  "Failed to set CPU mode '" ++ m ++ "' (ATK write failed)".

Definition invalid_gpu_mode (m : string) : string :=
  "Invalid gpu_mode '" ++ m
  ++ "'. Valid: Eco, Standard (Ultimate requires reboot)".

Definition gpu_write_failed (m : string) : string :=
  "Failed to set GPU mode '" ++ m ++ "' (ATK write failed)".

(** The [if req.cpu_mode is not None] block: the errors it appends. *)
Definition set_modes_cpu (requested : option string) : M (list string) :=
  match requested with
  | None => ret []
  | Some m =>
      if negb (contains String.eqb _CPU_MODE_WRITE_MAP (lower m))
      then ret [invalid_cpu_mode m]
      else
        ok <- _set_cpu_mode m ;;
        ret (if ok : bool then [] else [cpu_write_failed m])
  end.

(** The [if req.gpu_mode is not None] block. *)
Definition set_modes_gpu (requested : option string) : M (list string) :=
  match requested with
  | None => ret []
  | Some m =>
      if negb (String.eqb (lower m) "eco" || String.eqb (lower m) "standard")
      then ret [invalid_gpu_mode m]
      else
        ok <- _set_gpu_mode m ;;
        ret (if ok : bool then [] else [gpu_write_failed m])
  end.

Definition set_modes (req : ModeSetRequest) : M (Response PerformanceModes) :=
  if negb (String.eqb (os_name env) "nt") then
    ret (HTTPException 501 "Mode control only supported on Windows")
  else
    cpu_errors <- set_modes_cpu (req_cpu_mode req) ;;
    gpu_errors <- set_modes_gpu (req_gpu_mode req) ;;
    let errors := (cpu_errors ++ gpu_errors)%list in
    match errors with
    | _ :: _ => ret (HTTPException 400 (join " | " errors))
    | [] =>
        cpu <- _get_cpu_mode ;;
        gpu <- _get_gpu_mode ;;
        ret match new_PerformanceModes cpu gpu with
            | Some modes => Returned modes
            | None => Unhandled "ValidationError"
            end
    end.

End Server.

(* ------------------------------------------------------------------ *)
(** ** Vocabulary for the statements                                    *)
(* ------------------------------------------------------------------ *)

(** The request packets of the three channel functions. *)
Definition read_packet (device_id : Z) : list byte :=
  Struct.pack_IIII _DSTS 8 device_id 0.

Definition write_packet (device_id value : Z) : list byte :=
  Struct.pack_IIII _DEVS 8 device_id value.

(** What [_atk_read_device] obtains from the driver at attempt [n]. *)
Definition register_at (env : Env) (n : nat) (device_id : Z) : option Z :=
  match driver env n (read_packet device_id) with
  | TransferOk written => option_map device_decode (reply_raw written)
  | _ => None
  end.

(** What [_atk_read_fan] obtains from the driver at attempt [n]. *)
Definition fan_at (env : Env) (n : nat) (device_id : Z) : option Z :=
  match driver env n (read_packet device_id) with
  | TransferOk written =>
      match reply_raw written with
      | Some raw => fan_rpm_of_val (fan_decode raw)
      | None => None
      end
  | _ => None
  end.

(** The percent of a decoded fan value lies in (0, 151.5]. *)
Definition percent_in_range (val : Z) : bool :=
  match rpm_percent (val * 100) with
  | Some p => PrimFloat.ltb 0 p && PrimFloat.leb p 151.5
  | None => false
  end.

(** The two mode axes, to state facts about both at once. *)
Inductive Axis : Type := Cpu | Gpu.

Definition cached (a : Axis) (st : State) : value :=
  match a with
  | Cpu => _cached_cpu_mode st
  | Gpu => _cached_gpu_mode st
  end.

Definition set_mode (env : Env) (a : Axis) : string -> M bool :=
  match a with
  | Cpu => _set_cpu_mode env
  | Gpu => _set_gpu_mode env
  end.

Definition get_mode (env : Env) (a : Axis) : M value :=
  match a with
  | Cpu => _get_cpu_mode
  | Gpu => _get_gpu_mode env
  end.

Definition writable_names (a : Axis) : list string :=
  match a with
  | Cpu => ["Silent"; "Balanced"; "Turbo"; "Performance"]
  | Gpu => ["Eco"; "Standard"]
  end.

Definition request_for (a : Axis) (mode : string) : ModeSetRequest :=
  match a with
  | Cpu => mkModeSetRequest (Some mode) None
  | Gpu => mkModeSetRequest None (Some mode)
  end.

Definition write_failed (a : Axis) : string -> string :=
  match a with
  | Cpu => cpu_write_failed
  | Gpu => gpu_write_failed
  end.

(** The packet a write of [key] (already lower case) sends, if [key] is
    writable on that axis. *)
Definition mode_write_packet (a : Axis) (key : string) : option (list byte) :=
  match a with
  | Cpu =>
      option_map (write_packet _ATK_CPU_MODE_ID)
        (get String.eqb _CPU_MODE_WRITE_MAP key)
  | Gpu =>
      if String.eqb key "eco" then Some (write_packet _ATK_GPU_ECO_ID 1)
      else if String.eqb key "standard"
           then Some (write_packet _ATK_GPU_ECO_ID 0)
           else None
  end.

(** Calls a client can make between two writes, and a run of them; the
    run reports on which axes a write went through. *)
Inductive Call : Type :=
| GetCpuMode
| GetGpuMode
| GetThermalStats
| SetCpuMode (mode : string)
| SetGpuMode (mode : string).

Definition run_call (env : Env) (c : Call) : M (list Axis) :=
  match c with
  | GetCpuMode => (_get_cpu_mode ;;; ret [])%py
  | GetGpuMode => (_get_gpu_mode env ;;; ret [])%py
  | GetThermalStats => (_get_thermal_stats env ;;; ret [])%py
  | SetCpuMode m =>
      (ok <- _set_cpu_mode env m ;; ret (if ok : bool then [Cpu] else []))%py
  | SetGpuMode m =>
      (ok <- _set_gpu_mode env m ;; ret (if ok : bool then [Gpu] else []))%py
  end.

Fixpoint run_calls (env : Env) (cs : list Call) : M (list Axis) :=
  match cs with
  | [] => ret []
  | c :: rest =>
      (written <- run_call env c ;;
       later <- run_calls env rest ;;
       ret (written ++ later)%list)%py
  end.

(** The cache file and the two globals are the same in both states. *)
Definition same_store (st st' : State) : Prop :=
  cache_file st' = cache_file st /\
  _cached_cpu_mode st' = _cached_cpu_mode st /\
  _cached_gpu_mode st' = _cached_gpu_mode st.

(** The cache file holds exactly the two globals. *)
Definition in_sync (st : State) : Prop :=
  cache_file st =
    Json (PyDict [("cpu_mode", _cached_cpu_mode st);
                  ("gpu_mode", _cached_gpu_mode st)]).

(** What a write that reached the driver and was accepted leaves behind. *)
Definition written_state (env : Env) (a : Axis) (name : string)
  (pkt : list byte) (st : State) : State :=
  let cpu := match a with Cpu => PyStr name | Gpu => _cached_cpu_mode st end in
  let gpu := match a with Cpu => _cached_gpu_mode st | Gpu => PyStr name end in
  mkState (S (attempts st)) (pkt :: transfers st)
    match fs_save env with
    | SaveOk => Json (PyDict [("cpu_mode", cpu); ("gpu_mode", gpu)])
    | OpenFails => cache_file st
    | WriteFails => Garbage
    end
    cpu gpu.

(** The state after an exchange that was attempted and did not succeed. *)
Definition rejected_state (outcome : IoOutcome) (pkt : list byte)
  (st : State) : State :=
  mkState (S (attempts st))
    match outcome with
    | OpenFailed => transfers st
    | _ => pkt :: transfers st
    end
    (cache_file st) (_cached_cpu_mode st) (_cached_gpu_mode st).

(** A process restart: the globals are lost, the disk and the device
    history stay, and the module body runs again. *)
Definition forget_globals (st : State) : State :=
  mkState (attempts st) (transfers st) (cache_file st) PyNone PyNone.

Definition restart (env : Env) (st : State) : State :=
  snd (module_init env (forget_globals st)).

(* ------------------------------------------------------------------ *)
(** ** Concrete machines used in examples                               *)
(* ------------------------------------------------------------------ *)

(** A 16-byte reply carrying [raw] at offset 0. *)
Definition reply_with (raw : Z) : list byte :=
  (Struct.pack_u32 raw ++ repeat x00 12)%list.

(** A driver that plays a fixed script, one outcome per attempt, and
    cannot be opened once the script is over. *)
Definition scripted (script : list IoOutcome) : nat -> list byte -> IoOutcome :=
  fun n _ => nth n script OpenFailed.

Definition always (outcome : IoOutcome) : nat -> list byte -> IoOutcome :=
  fun _ _ => outcome.

Definition sample_hardware : list HardwareNode :=
  [ mkHardware "Motherboard" false [] [];
    mkHardware "Cpu" false
      [ mkSensor "Load" "CPU Total" (Some 12.5%float);
        mkSensor "Temperature" "CPU Package" (Some 58.25%float);
        mkSensor "Temperature" "Core Average" (Some 55%float);
        mkSensor "Temperature" "Core Max" (Some 60.5%float) ] [];
    mkHardware "GpuNvidia" false
      [ mkSensor "Temperature" "GPU Core" (Some 47.125%float);
        mkSensor "Temperature" "GPU Hot Spot" (Some 59%float) ] [] ].

(** A Windows machine with LibreHardwareMonitor and NVML present. *)
Definition laptop (drv : nat -> list byte -> IoOutcome) (writable : bool)
  : Env :=
  mkEnv "nt" drv (if writable then SaveOk else OpenFails)
    (Some sample_hardware) true (Some 49) (Some 30)
    None None.

Definition boot_state (file : FileState) : State :=
  mkState 0 [] file PyNone PyNone.

(* ------------------------------------------------------------------ *)
(** ** OS-native sensor readers                                         *)
(* ------------------------------------------------------------------ *)

(** [round(x, 0)] on a float: the nearest integer to the exact binary
    value, ties to even, as a float; zeros, infinities and NaN are
    returned as they are. *)
Definition py_round0 (x : float) : float :=
  match Prim2SF x with
  | S754_finite s m e =>
      let num := Z.pos m * 2 ^ (Z.max e 0) in
      let den := 2 ^ (Z.max (- e) 0) in
      let n := PyFloat.round_half_even num den in
      if n =? 0 then SF2Prim (S754_zero s)
      else PyFloat.of_ratio (if s then - n else n) 1
  | _ => x
  end.

(** What [psutil.sensors_temperatures()] / [psutil.sensors_fans()]
    return: a dict from group name to the [current] values of its
    entries, in iteration order. *)
Definition SensorGroups : Type := list (string * list float).

Section OsNative.

(** [sum(readings)] on a non-empty list of floats.  Its rounding differs
    between CPython versions, so it is left open. *)
Variable py_sum : list float -> float.

(** [round(sum(readings) / len(readings), 1)]; [None] is the
    [ZeroDivisionError] of an empty group, which the caller swallows. *)
Definition group_average (readings : list float) : option float :=
  match readings with
  | [] => None
  | _ :: _ =>
      Some (PyFloat.round1
              (PrimFloat.div (py_sum readings)
                 (PyFloat.of_int (Z.of_nat (List.length readings)))))
  end.

(** The [for key in (...)] loop: the readings of the first preferred
    name that is a key of [temps]. *)
Fixpoint first_preferred (keys : list string) (temps : SensorGroups)
  : option (list float) :=
  match keys with
  | [] => None
  | key :: rest =>
      match get String.eqb temps key with
      | Some readings => Some readings
      | None => first_preferred rest temps
      end
  end.

Definition preferred_temp_groups : list string :=
  ["coretemp"; "k10temp"; "cpu_thermal"; "acpitz"].

(** [sensors] is [None] when [psutil.sensors_temperatures()] raises. *)
Definition _cpu_temp_linux (sensors : option SensorGroups) : option float :=
  match sensors with
  | None => None
  | Some [] => None
  | Some (((_, first) :: _) as temps) =>
      match first_preferred preferred_temp_groups temps with
      | Some readings => group_average readings
      | None =>
          match first with
          | [] => None
          | reading :: _ => Some (PyFloat.round1 reading)
          end
      end
  end.

(** [for readings in fans.values(): if readings: return ...] *)
Fixpoint first_fan_reading (groups : list (list float)) : option float :=
  match groups with
  | [] => None
  | [] :: rest => first_fan_reading rest
  | (reading :: _) :: _ => Some (py_round0 reading)
  end.

(** [sensors] is [None] when [psutil.sensors_fans()] raises. *)
Definition _cpu_fan_linux (sensors : option SensorGroups) : option float :=
  match sensors with
  | None => None
  | Some [] => None
  | Some fans => first_fan_reading (map snd fans)
  end.

End OsNative.

(** Left-to-right float addition from 0, the summation of CPython up to
    3.11; used to run the readers on examples. *)
Definition sum_left (readings : list float) : float :=
  fold_left PrimFloat.add readings 0%float.

(* ------------------------------------------------------------------ *)
(** ** Further vocabulary                                               *)
(* ------------------------------------------------------------------ *)

(** Every request the server can send once it is running. *)
Definition read_requests : list (list byte) :=
  [ read_packet _ATK_CPU_FAN_ID; read_packet _ATK_GPU_FAN_ID;
    read_packet _ATK_GPU_ECO_ID; read_packet _ATK_GPU_MUX_ID ].

Definition write_requests : list (list byte) :=
  [ write_packet _ATK_CPU_MODE_ID 0; write_packet _ATK_CPU_MODE_ID 1;
    write_packet _ATK_CPU_MODE_ID 2; write_packet _ATK_CPU_MODE_ID 3;
    write_packet _ATK_GPU_ECO_ID 1; write_packet _ATK_GPU_ECO_ID 0 ].

(** The packets in the log of [st'] that were not in the log of [st] all
    come from [allowed]. *)
Definition sends_only (allowed : list (list byte)) (st st' : State) : Prop :=
  forall pkt,
    In pkt (transfers st') -> In pkt (transfers st) \/ In pkt allowed.

Definition is_read_call (c : Call) : bool :=
  match c with
  | GetCpuMode | GetGpuMode | GetThermalStats => true
  | SetCpuMode _ | SetGpuMode _ => false
  end.

(** The values the two globals take when they come from the hardware or
    from a write. *)
Definition known_cpu_modes : list value :=
  [PyNone; PyStr "Balanced"; PyStr "Turbo"; PyStr "Silent";
   PyStr "Performance"; PyStr "Manual"].

Definition known_gpu_modes : list value :=
  [PyNone; PyStr "Eco"; PyStr "Standard"; PyStr "Ultimate"].

(** [json.load] gave a dict. *)
Definition dict_items (f : FileState) : option (list (string * value)) :=
  match f with
  | Json (PyDict items) => Some items
  | _ => None
  end.

(** A sensor of the given type and name that carries a value. *)
Definition is_reading (stype sname : string) (s : Sensor) : bool :=
  String.eqb (SensorType s) stype && String.eqb (Name s) sname
  && negb (is_None (Value s)).

(** A sensor of the given type, whatever its name, that carries a value. *)
Definition is_typed_reading (stype : string) (s : Sensor) : bool :=
  String.eqb (SensorType s) stype && negb (is_None (Value s)).

Definition is_cpu_node (hw : HardwareNode) : bool :=
  String.eqb (HardwareType hw) "Cpu".

Definition is_gpu_node (hw : HardwareNode) : bool :=
  is_gpu_type (HardwareType hw).

(** The sensors the CPU reader looks at for temperatures, in the order it
    visits them. *)
Definition cpu_node_sensors (hws : list HardwareNode) : list Sensor :=
  flat_map Sensors (filter is_cpu_node hws).

(** Some CPU node, or a sub-node of one, throws on [Update()]. *)
Definition cpu_update_raises (hws : list HardwareNode) : bool :=
  existsb (fun hw => Update_raises hw
                     || existsb sub_Update_raises (SubHardware hw))
    (filter is_cpu_node hws).

(** The report of the last sensor of [sensors] that satisfies
    [is_reading stype sname], or [default] if there is none. *)
Definition last_reading (stype sname : string) (sensors : list Sensor)
  (default : option float) : option float :=
  match find (is_reading stype sname) (rev sensors) with
  | Some s => option_map PyFloat.round1 (Value s)
  | None => default
  end.

(** The report of the first sensor of [sensors] that satisfies [p]. *)
Definition first_reading (p : Sensor -> bool) (sensors : list Sensor)
  : option float :=
  match find p sensors with
  | Some s => option_map PyFloat.round1 (Value s)
  | None => None
  end.

(* ================================================================== *)
(** * Properties                                                        *)
(* ================================================================== *)

(* ------------------------------------------------------------------ *)
(** ** Bytes and the reply buffer                                       *)
(* ------------------------------------------------------------------ *)

Lemma Z_of_byte_range (b : byte) : 0 <= Struct.Z_of_byte b < 256.
Proof.
  unfold Struct.Z_of_byte.
  pose proof (Byte.to_N_bounded b) as Hb.
  lia.
Qed.

Lemma Z_of_byte_of_Z (z : Z) : Struct.Z_of_byte (Struct.byte_of_Z z) = z mod 256.
Proof.
  unfold Struct.Z_of_byte, Struct.byte_of_Z.
  assert (Hr : 0 <= z mod 256 < 256) by (apply Z.mod_pos_bound; lia).
  destruct (Byte.of_N (Z.to_N (z mod 256))) as [b|] eqn:Hof.
  - apply Byte.to_of_N in Hof. rewrite Hof. lia.
  - apply Byte.of_N_None_iff in Hof. lia.
Qed.

Lemma le_unsigned_pack_u32 (v : Z) :
  Struct.le_unsigned (Struct.pack_u32 v) = v mod 2 ^ 32.
Proof.
  unfold Struct.pack_u32. cbn [Struct.le_unsigned].
  rewrite !Z_of_byte_of_Z, !Z.shiftr_div_pow2 by lia.
  change (2 ^ 8) with 256. change (2 ^ 16) with 65536.
  change (2 ^ 24) with 16777216. change (2 ^ 32) with 4294967296.
  Z.div_mod_to_equations. lia.
Qed.

Lemma le_unsigned_bound (bs : list byte) :
  0 <= Struct.le_unsigned bs < 256 ^ Z.of_nat (List.length bs).
Proof.
  induction bs as [|b rest IH].
  - cbn. lia.
  - cbn [Struct.le_unsigned List.length].
    rewrite Nat2Z.inj_succ, Z.pow_succ_r by lia.
    pose proof (Z_of_byte_range b). lia.
Qed.

Lemma string_buffer_length (n : nat) (written : list byte) :
  List.length (Struct.string_buffer n written) = n.
Proof.
  unfold Struct.string_buffer.
  rewrite firstn_length_le; [reflexivity|].
  rewrite length_app, repeat_length. lia.
Qed.

Lemma to_signed32_range (u : Z) :
  0 <= u < 2 ^ 32 -> - 2 ^ 31 <= Struct.to_signed32 u < 2 ^ 31.
Proof.
  unfold Struct.to_signed32. intros Hu.
  destruct (u <? 2 ^ 31) eqn:E; [apply Z.ltb_lt in E | apply Z.ltb_ge in E]; lia.
Qed.

(** The read request for the CPU fan, byte by byte: "DSTS", length 8,
    device ID 0x00110013, padding. *)
Example read_packet_cpu_fan :
  read_packet _ATK_CPU_FAN_ID =
    [x44; x53; x54; x53; x08; x00; x00; x00;
     x13; x00; x11; x00; x00; x00; x00; x00].
Proof. reflexivity. Qed.

(** The unpack at offset 0 of the output buffer always succeeds and
    yields a signed 32-bit integer. *)
Lemma reply_raw_total (written : list byte) :
  exists raw, reply_raw written = Some raw /\ - 2 ^ 31 <= raw < 2 ^ 31.
Proof.
  unfold reply_raw, Struct.unpack_from_i32. cbn [skipn].
  set (buf := Struct.string_buffer 16 written).
  assert (Hlen : List.length (firstn 4 buf) = 4%nat).
  { rewrite firstn_length_le; [reflexivity|].
    subst buf. rewrite string_buffer_length. lia. }
  rewrite Hlen. cbn [Nat.eqb].
  eexists. split; [reflexivity|].
  apply to_signed32_range.
  pose proof (le_unsigned_bound (firstn 4 buf)) as Hb.
  rewrite Hlen in Hb. exact Hb.
Qed.

(** Every signed 32-bit integer is the raw value of some reply. *)
Lemma reply_raw_reply_with (raw : Z) :
  - 2 ^ 31 <= raw < 2 ^ 31 -> reply_raw (reply_with raw) = Some raw.
Proof.
  intros Hr.
  unfold reply_raw, reply_with, Struct.unpack_from_i32, Struct.string_buffer.
  change (firstn 4 (skipn 0 (firstn 16
            ((Struct.pack_u32 raw ++ repeat x00 12) ++ repeat x00 16))))
    with (Struct.pack_u32 raw).
  cbn [List.length Struct.pack_u32 Nat.eqb].
  change [Struct.byte_of_Z raw; Struct.byte_of_Z (Z.shiftr raw 8);
          Struct.byte_of_Z (Z.shiftr raw 16); Struct.byte_of_Z (Z.shiftr raw 24)]
    with (Struct.pack_u32 raw).
  rewrite le_unsigned_pack_u32. f_equal.
  unfold Struct.to_signed32.
  change (2 ^ 32) with 4294967296 in *. change (2 ^ 31) with 2147483648 in *.
  destruct (raw mod 4294967296 <? 2147483648) eqn:E;
    [apply Z.ltb_lt in E | apply Z.ltb_ge in E];
    Z.div_mod_to_equations; lia.
Qed.

(* ------------------------------------------------------------------ *)
(** ** The two decodings                                                *)
(* ------------------------------------------------------------------ *)

Lemma fan_decode_cases (raw : Z) :
  fan_decode raw = if raw <? 65536 then raw else raw - 65536.
Proof.
  unfold fan_decode. cbv zeta.
  destruct (raw - 65536 <? 0) eqn:E1, (raw <? 65536) eqn:E2;
    rewrite ?Z.ltb_lt, ?Z.ltb_ge in *; lia.
Qed.

Lemma fan_decode_idempotent_iff (raw : Z) :
  fan_decode (fan_decode raw) = fan_decode raw <-> raw < 131072.
Proof.
  rewrite !fan_decode_cases.
  destruct (raw <? 65536) eqn:E1.
  - rewrite E1. apply Z.ltb_lt in E1. lia.
  - apply Z.ltb_ge in E1.
    destruct (raw - 65536 <? 65536) eqn:E2;
      [apply Z.ltb_lt in E2 | apply Z.ltb_ge in E2]; lia.
Qed.

(** C1, as stated, fails: the fan decoding of raw [65536 - 3] is
    [65533], not [-3]; a reply carrying [2^31 - 1] decodes outside
    [[-65536, 65535]]; and decoding the decoded value of raw [131075]
    changes it again. *)
Lemma fan_decode_claim_fails :
  (reply_raw (reply_with (65536 - 3)) = Some 65533 /\
   fan_decode (65536 - 3) <> -3) /\
  (reply_raw (reply_with 2147483647) = Some 2147483647 /\
   ~ (-65536 <= fan_decode 2147483647 <= 65535)) /\
  (reply_raw (reply_with 131075) = Some 131075 /\
   fan_decode (fan_decode 131075) <> fan_decode 131075).
Proof.
  repeat split; try (vm_compute; reflexivity); vm_compute; try discriminate.
  intros [_ H]. apply H. reflexivity.
Qed.

(** C1 (amended): decoding a driver reply is total: every reply buffer
    yields a signed 32-bit raw value at offset 0, every signed 32-bit
    value is the raw value of some reply, and the fan decoding (subtract
    65536; if the result is negative, add 65536 back) returns [raw] itself
    below 65536 and [raw - 65536] from 65536 on.  Its result lies in
    [[-2^31, 2^31 - 65537]], and in [[0, 65535]] exactly when
    [0 <= raw < 131072].  Decoding a decoded value leaves it unchanged
    exactly when [raw < 131072].  Vectors: 65536+3 gives 3, 0 gives 0 and
    65536-3 gives 65533. *)
Theorem fan_decode_total_and_bounded :
  forall raw : Z,
    - 2 ^ 31 <= raw < 2 ^ 31 ->
    reply_raw (reply_with raw) = Some raw /\
    (forall written : list byte,
        exists r, reply_raw written = Some r /\ - 2 ^ 31 <= r < 2 ^ 31) /\
    fan_decode raw = (if raw <? 65536 then raw else raw - 65536) /\
    - 2 ^ 31 <= fan_decode raw <= 2 ^ 31 - 65537 /\
    (0 <= raw < 131072 <-> 0 <= fan_decode raw <= 65535) /\
    (fan_decode (fan_decode raw) = fan_decode raw <-> raw < 131072) /\
    fan_decode (65536 + 3) = 3 /\
    fan_decode 0 = 0 /\
    fan_decode (65536 - 3) = 65533.
Proof.
  intros raw Hrange.
  split; [apply reply_raw_reply_with; exact Hrange|].
  split; [exact reply_raw_total|].
  pose proof (fan_decode_cases raw) as Hc.
  split; [exact Hc|].
  change (2 ^ 31) with 2147483648 in *.
  split; [|split; [|split; [apply fan_decode_idempotent_iff|]]].
  - destruct (raw <? 65536) eqn:E;
      rewrite ?Z.ltb_lt, ?Z.ltb_ge in E; lia.
  - destruct (raw <? 65536) eqn:E;
      rewrite ?Z.ltb_lt, ?Z.ltb_ge in E; lia.
  - repeat split.
Qed.

Lemma fan_decode_total_and_bounded_witness :
  reply_raw (reply_with 65539) = Some 65539 /\
  (forall written : list byte,
      exists r, reply_raw written = Some r /\ - 2 ^ 31 <= r < 2 ^ 31) /\
  fan_decode 65539 = (if 65539 <? 65536 then 65539 else 65539 - 65536) /\
  - 2 ^ 31 <= fan_decode 65539 <= 2 ^ 31 - 65537 /\
  (0 <= 65539 < 131072 <-> 0 <= fan_decode 65539 <= 65535) /\
  (fan_decode (fan_decode 65539) = fan_decode 65539 <-> 65539 < 131072) /\
  fan_decode (65536 + 3) = 3 /\
  fan_decode 0 = 0 /\
  fan_decode (65536 - 3) = 65533.
Proof.
  apply (fan_decode_total_and_bounded 65539). lia.
Defined.

(** C3, as stated, fails: on raw [0] the register decoding gives
    [-65536] and the fan decoding gives [0]. *)
Lemma decodings_differ_at_zero :
  reply_raw (reply_with 0) = Some 0 /\
  device_decode 0 = -65536 /\
  fan_decode 0 = 0 /\
  device_decode 0 <> fan_decode 0.
Proof. repeat split. vm_compute. discriminate. Qed.

(** C3 (amended): for every device ID, a register read returns
    [raw - 65536] with no correction, while a fan read goes on from the
    corrected value (65536 added back when that difference is negative).
    The two decodings agree exactly on [raw >= 65536]; below, the register
    decoding is negative and the fan decoding returns [raw]. *)
Theorem register_and_fan_decodings :
  forall (env : Env) (st : State) (device_id : Z) (written : list byte)
         (raw : Z),
    driver env (attempts st) (read_packet device_id) = TransferOk written ->
    reply_raw written = Some raw ->
    fst (_atk_read_device env device_id st) = Some (raw - 65536) /\
    fst (_atk_read_fan env device_id st) = fan_rpm_of_val (fan_decode raw) /\
    fan_decode raw =
      (if device_decode raw <? 0 then device_decode raw + 65536
       else device_decode raw) /\
    (device_decode raw = fan_decode raw <-> 65536 <= raw) /\
    (raw < 65536 -> device_decode raw < 0 /\ fan_decode raw = raw).
Proof.
  intros env st device_id written raw Hdrv Hraw.
  unfold _atk_read_device, _atk_read_fan, device_io_control, bind, ret.
  fold (read_packet device_id).
  cbn [fst]. rewrite Hdrv, Hraw. cbn [fst].
  pose proof (fan_decode_cases raw) as Hc.
  unfold device_decode.
  repeat split; try reflexivity;
    destruct (raw <? 65536) eqn:E;
    rewrite ?Z.ltb_lt, ?Z.ltb_ge in E; try lia.
Qed.

Lemma register_and_fan_decodings_witness :
  let env := laptop (always (TransferOk (reply_with 65539))) true in
  let st := boot_state Missing in
  fst (_atk_read_device env _ATK_GPU_MUX_ID st) = Some (65539 - 65536) /\
  fst (_atk_read_fan env _ATK_GPU_MUX_ID st)
    = fan_rpm_of_val (fan_decode 65539) /\
  fan_decode 65539 =
    (if device_decode 65539 <? 0 then device_decode 65539 + 65536
     else device_decode 65539) /\
  (device_decode 65539 = fan_decode 65539 <-> 65536 <= 65539) /\
  (65539 < 65536 -> device_decode 65539 < 0 /\ fan_decode 65539 = 65539).
Proof.
  intros env st.
  apply (register_and_fan_decodings env st _ATK_GPU_MUX_ID
           (reply_with 65539) 65539); reflexivity.
Defined.

(* ------------------------------------------------------------------ *)
(** ** The device channel: what one exchange does to the state          *)
(* ------------------------------------------------------------------ *)

Lemma same_store_refl (st : State) : same_store st st.
Proof. unfold same_store. auto. Qed.

Lemma same_store_trans (st1 st2 st3 : State) :
  same_store st1 st2 -> same_store st2 st3 -> same_store st1 st3.
Proof.
  unfold same_store. intros [A [B C]] [D [E F]].
  repeat split; congruence.
Qed.

Lemma device_io_control_spec (env : Env) (pkt : list byte) (st : State) :
  fst (device_io_control env pkt st) = driver env (attempts st) pkt /\
  attempts (snd (device_io_control env pkt st)) = S (attempts st) /\
  same_store st (snd (device_io_control env pkt st)) /\
  transfers (snd (device_io_control env pkt st)) =
    match driver env (attempts st) pkt with
    | OpenFailed => transfers st
    | _ => pkt :: transfers st
    end.
Proof.
  unfold device_io_control, same_store. cbn [fst snd attempts transfers
    cache_file _cached_cpu_mode _cached_gpu_mode].
  repeat split.
Qed.

Lemma atk_read_fan_frame (env : Env) (id : Z) (st : State) :
  attempts (snd (_atk_read_fan env id st)) = S (attempts st) /\
  same_store st (snd (_atk_read_fan env id st)).
Proof.
  unfold _atk_read_fan. run_monad.
  destruct (device_io_control_spec env (Struct.pack_IIII _DSTS 8 id 0) st)
    as [_ [Ha [Hs _]]].
  destruct (device_io_control env (Struct.pack_IIII _DSTS 8 id 0) st)
    as [outcome st1].
  cbn [snd] in *. auto.
Qed.

Lemma atk_read_device_frame (env : Env) (id : Z) (st : State) :
  fst (_atk_read_device env id st) = register_at env (attempts st) id /\
  attempts (snd (_atk_read_device env id st)) = S (attempts st) /\
  same_store st (snd (_atk_read_device env id st)).
Proof.
  unfold _atk_read_device, register_at, read_packet. run_monad.
  destruct (device_io_control_spec env (Struct.pack_IIII _DSTS 8 id 0) st)
    as [Ho [Ha [Hs _]]].
  destruct (device_io_control env (Struct.pack_IIII _DSTS 8 id 0) st)
    as [outcome st1].
  cbn [fst snd] in *. rewrite <- Ho.
  split; [|split; [exact Ha | exact Hs]].
  destruct outcome as [| |written]; reflexivity.
Qed.

Lemma atk_write_device_spec (env : Env) (id v : Z) (st : State) :
  fst (_atk_write_device env id v st) =
    match driver env (attempts st) (write_packet id v) with
    | TransferOk _ => true
    | _ => false
    end /\
  attempts (snd (_atk_write_device env id v st)) = S (attempts st) /\
  same_store st (snd (_atk_write_device env id v st)) /\
  transfers (snd (_atk_write_device env id v st)) =
    match driver env (attempts st) (write_packet id v) with
    | OpenFailed => transfers st
    | _ => write_packet id v :: transfers st
    end.
Proof.
  unfold _atk_write_device, write_packet. run_monad.
  destruct (device_io_control_spec env (Struct.pack_IIII _DEVS 8 id v) st)
    as [Ho [Ha [Hs Ht]]].
  destruct (device_io_control env (Struct.pack_IIII _DEVS 8 id v) st)
    as [outcome st1].
  cbn [fst snd] in *. rewrite <- Ho.
  split; [|split; [exact Ha | split; [exact Hs | rewrite Ho; exact Ht]]].
  destruct outcome; reflexivity.
Qed.

Lemma atk_fan_speeds_frame (env : Env) (st : State) :
  attempts (snd (_atk_fan_speeds env st)) = S (S (attempts st)) /\
  same_store st (snd (_atk_fan_speeds env st)).
Proof.
  unfold _atk_fan_speeds. run_monad.
  destruct (atk_read_fan_frame env _ATK_CPU_FAN_ID st) as [Ha1 Hs1].
  destruct (_atk_read_fan env _ATK_CPU_FAN_ID st) as [cpu st1].
  destruct (atk_read_fan_frame env _ATK_GPU_FAN_ID st1) as [Ha2 Hs2].
  destruct (_atk_read_fan env _ATK_GPU_FAN_ID st1) as [gpu st2].
  cbn [snd] in *. split; [congruence|].
  eapply same_store_trans; eassumption.
Qed.

Lemma get_thermal_stats_frame (env : Env) (st : State) :
  same_store st (snd (_get_thermal_stats env st)).
Proof.
  unfold _get_thermal_stats.
  destruct (String.eqb (os_name env) "nt").
  - run_monad.
    destruct (atk_fan_speeds_frame env st) as [_ Hs].
    destruct (_atk_fan_speeds env st) as [fans st1]. exact Hs.
  - apply same_store_refl.
Qed.

Lemma get_gpu_mode_frame (env : Env) (st : State) :
  same_store st (snd (_get_gpu_mode env st)).
Proof.
  unfold _get_gpu_mode. run_monad.
  destruct (is_not_None (_cached_gpu_mode st)).
  - apply same_store_refl.
  - destruct (atk_read_device_frame env _ATK_GPU_ECO_ID st) as [_ [_ Hs1]].
    destruct (_atk_read_device env _ATK_GPU_ECO_ID st) as [eco st1].
    destruct (atk_read_device_frame env _ATK_GPU_MUX_ID st1) as [_ [_ Hs2]].
    destruct (_atk_read_device env _ATK_GPU_MUX_ID st1) as [mux st2].
    cbn [snd] in *. eapply same_store_trans; eassumption.
Qed.

(** A cached mode that is not [None] is read back from memory alone. *)
Lemma get_mode_cached (env : Env) (a : Axis) (st : State) :
  is_not_None (cached a st) = true ->
  get_mode env a st = (cached a st, st).
Proof.
  destruct a; cbn [get_mode cached]; intros H.
  - reflexivity.
  - unfold _get_gpu_mode. run_monad. rewrite H. reflexivity.
Qed.

(* ------------------------------------------------------------------ *)
(** ** Mode writes                                                      *)
(* ------------------------------------------------------------------ *)

Lemma cpu_key_cases (key : string) (val : Z) :
  get String.eqb _CPU_MODE_WRITE_MAP key = Some val ->
  (key = "balanced" /\ val = 0) \/ (key = "turbo" /\ val = 1) \/
  (key = "silent" /\ val = 2) \/ (key = "performance" /\ val = 3).
Proof.
  unfold _CPU_MODE_WRITE_MAP. cbn [get].
  destruct (String.eqb "balanced" key) eqn:E0;
    [apply String.eqb_eq in E0; intros [= <-]; auto|].
  destruct (String.eqb "turbo" key) eqn:E1;
    [apply String.eqb_eq in E1; intros [= <-]; auto|].
  destruct (String.eqb "silent" key) eqn:E2;
    [apply String.eqb_eq in E2; intros [= <-]; auto 6|].
  destruct (String.eqb "performance" key) eqn:E3;
    [apply String.eqb_eq in E3; intros [= <-]; auto 6|].
  discriminate.
Qed.

(** Complete description of [_set_cpu_mode]. *)
Lemma set_cpu_mode_spec (env : Env) (mode : string) (st : State) :
  match get String.eqb _CPU_MODE_WRITE_MAP (lower mode) with
  | None => _set_cpu_mode env mode st = (false, st)
  | Some val =>
      let pkt := write_packet _ATK_CPU_MODE_ID val in
      match driver env (attempts st) pkt with
      | TransferOk _ =>
          exists name,
            In name (writable_names Cpu) /\ lower name = lower mode /\
            _set_cpu_mode env mode st
              = (true, written_state env Cpu name pkt st)
      | outcome =>
          _set_cpu_mode env mode st = (false, rejected_state outcome pkt st)
      end
  end.
Proof.
  unfold _set_cpu_mode.
  remember (lower mode) as key eqn:Hkey.
  destruct (get String.eqb _CPU_MODE_WRITE_MAP key) as [val|] eqn:Hget;
    [|reflexivity].
  cbv zeta. unfold _atk_write_device, device_io_control, write_packet.
  run_monad.
  destruct (driver env (attempts st)
              (Struct.pack_IIII _DEVS 8 _ATK_CPU_MODE_ID val))
    as [| |written] eqn:Hdrv; try reflexivity.
  unfold _save_mode_cache, written_state.
  destruct (cpu_key_cases key val Hget) as [[-> ->]|[[-> ->]|[[-> ->]|[-> ->]]]].
  - exists "Balanced". cbn [writable_names In]. split; [auto|]. split; [reflexivity|].
    destruct (fs_save env); reflexivity.
  - exists "Turbo". cbn [writable_names In]. split; [auto|]. split; [reflexivity|].
    destruct (fs_save env); reflexivity.
  - exists "Silent". cbn [writable_names In]. split; [auto|]. split; [reflexivity|].
    destruct (fs_save env); reflexivity.
  - exists "Performance". cbn [writable_names In]. split; [auto 6|].
    split; [reflexivity|].
    destruct (fs_save env); reflexivity.
Qed.

(** Complete description of [_set_gpu_mode]. *)
Lemma set_gpu_mode_spec (env : Env) (mode : string) (st : State) :
  match mode_write_packet Gpu (lower mode) with
  | None => _set_gpu_mode env mode st = (false, st)
  | Some pkt =>
      match driver env (attempts st) pkt with
      | TransferOk _ =>
          exists name,
            In name (writable_names Gpu) /\ lower name = lower mode /\
            _set_gpu_mode env mode st
              = (true, written_state env Gpu name pkt st)
      | outcome =>
          _set_gpu_mode env mode st = (false, rejected_state outcome pkt st)
      end
  end.
Proof.
  unfold _set_gpu_mode, mode_write_packet.
  remember (lower mode) as key eqn:Hkey.
  cbv zeta.
  destruct (String.eqb key "eco") eqn:E0.
  - apply String.eqb_eq in E0. subst key.
    unfold _atk_write_device, device_io_control, write_packet.
    run_monad. rewrite E0.
    destruct (driver env (attempts st)
                (Struct.pack_IIII _DEVS 8 _ATK_GPU_ECO_ID 1))
      as [| |written] eqn:Hdrv; try reflexivity.
    exists "Eco". cbn [writable_names In]. split; [auto|].
    split; [reflexivity|].
    unfold _save_mode_cache, written_state.
    destruct (fs_save env); reflexivity.
  - destruct (String.eqb key "standard") eqn:E1; [|reflexivity].
    apply String.eqb_eq in E1. subst key.
    unfold _atk_write_device, device_io_control, write_packet.
    run_monad. rewrite E1.
    destruct (driver env (attempts st)
                (Struct.pack_IIII _DEVS 8 _ATK_GPU_ECO_ID 0))
      as [| |written] eqn:Hdrv; try reflexivity.
    exists "Standard". cbn [writable_names In]. split; [auto|].
    split; [reflexivity|].
    unfold _save_mode_cache, written_state.
    destruct (fs_save env); reflexivity.
Qed.

(** Complete description of a write on either axis. *)
Lemma set_mode_spec (env : Env) (a : Axis) (mode : string) (st : State) :
  match mode_write_packet a (lower mode) with
  | None => set_mode env a mode st = (false, st)
  | Some pkt =>
      match driver env (attempts st) pkt with
      | TransferOk _ =>
          exists name,
            In name (writable_names a) /\ lower name = lower mode /\
            set_mode env a mode st = (true, written_state env a name pkt st)
      | outcome =>
          set_mode env a mode st = (false, rejected_state outcome pkt st)
      end
  end.
Proof.
  destruct a; cbn [set_mode].
  - pose proof (set_cpu_mode_spec env mode st) as H.
    cbn [mode_write_packet].
    destruct (get String.eqb _CPU_MODE_WRITE_MAP (lower mode)); exact H.
  - exact (set_gpu_mode_spec env mode st).
Qed.

Lemma set_mode_true_inv (env : Env) (a : Axis) (mode : string)
  (st st' : State) :
  set_mode env a mode st = (true, st') ->
  exists name pkt written,
    In name (writable_names a) /\ lower name = lower mode /\
    mode_write_packet a (lower mode) = Some pkt /\
    driver env (attempts st) pkt = TransferOk written /\
    st' = written_state env a name pkt st.
Proof.
  intros Hset. pose proof (set_mode_spec env a mode st) as H.
  destruct (mode_write_packet a (lower mode)) as [pkt|]; [|congruence].
  destruct (driver env (attempts st) pkt) as [| |written] eqn:Hdrv;
    try congruence.
  destruct H as [name [Hin [Hlow Heq]]].
  exists name, pkt, written. repeat split; try assumption. congruence.
Qed.

Lemma rejected_state_same_store (outcome : IoOutcome) (pkt : list byte)
  (st : State) : same_store st (rejected_state outcome pkt st).
Proof. unfold same_store, rejected_state. cbn. auto. Qed.

(** A write that reports failure has changed neither global nor the
    file. *)
Lemma set_mode_false_same_store (env : Env) (a : Axis) (mode : string)
  (st : State) :
  fst (set_mode env a mode st) = false ->
  same_store st (snd (set_mode env a mode st)).
Proof.
  intros Hf. pose proof (set_mode_spec env a mode st) as H.
  destruct (mode_write_packet a (lower mode)) as [pkt|].
  - destruct (driver env (attempts st) pkt) as [| |written] eqn:Hdrv.
    + rewrite H. apply rejected_state_same_store.
    + rewrite H. apply rejected_state_same_store.
    + destruct H as [name [_ [_ Heq]]]. rewrite Heq in Hf. discriminate.
  - rewrite H. apply same_store_refl.
Qed.

Lemma written_state_cached (env : Env) (a : Axis) (name : string)
  (pkt : list byte) (st : State) :
  cached a (written_state env a name pkt st) = PyStr name /\
  (forall b, b <> a ->
     cached b (written_state env a name pkt st) = cached b st) /\
  (fs_writable env = true -> in_sync (written_state env a name pkt st)) /\
  (fs_save env = OpenFails ->
     cache_file (written_state env a name pkt st) = cache_file st) /\
  (fs_save env = WriteFails ->
     cache_file (written_state env a name pkt st) = Garbage).
Proof.
  unfold written_state, in_sync, fs_writable.
  destruct a; cbn; (split; [reflexivity|]);
    (split; [intros [|] Hb; try congruence; reflexivity|]);
    (split; [destruct (fs_save env); try discriminate; reflexivity|]);
    split; intros ->; reflexivity.
Qed.

(* ------------------------------------------------------------------ *)
(** ** Calls between two writes                                         *)
(* ------------------------------------------------------------------ *)

Lemma same_store_cached (a : Axis) (st st' : State) :
  same_store st st' -> cached a st' = cached a st.
Proof. intros [_ [Hc Hg]]. destruct a; assumption. Qed.

Lemma same_store_in_sync (st st' : State) :
  same_store st st' -> in_sync st -> in_sync st'.
Proof.
  unfold same_store, in_sync. intros [Hf [Hc Hg]] H. congruence.
Qed.

Lemma run_set_keeps (env : Env) (a b : Axis) (mode : string) (st : State) :
  ~ In a (if fst (set_mode env b mode st) then [b] else []) ->
  cached a (snd (set_mode env b mode st)) = cached a st.
Proof.
  intros Hnot.
  destruct (fst (set_mode env b mode st)) eqn:Hok.
  - destruct (set_mode env b mode st) as [ok st'] eqn:Hset.
    cbn [fst snd] in *. subst ok.
    destruct (set_mode_true_inv env b mode st st' Hset)
      as [name [pkt [w [_ [_ [_ [_ ->]]]]]]].
    apply written_state_cached. intros ->. apply Hnot. left. reflexivity.
  - apply same_store_cached. apply set_mode_false_same_store. exact Hok.
Qed.

Lemma run_set_in_sync (env : Env) (b : Axis) (mode : string) (st : State) :
  fs_writable env = true -> in_sync st ->
  in_sync (snd (set_mode env b mode st)).
Proof.
  intros Hw Hsync.
  destruct (fst (set_mode env b mode st)) eqn:Hok.
  - destruct (set_mode env b mode st) as [ok st'] eqn:Hset.
    cbn [fst snd] in *. subst ok.
    destruct (set_mode_true_inv env b mode st st' Hset)
      as [name [pkt [w [_ [_ [_ [_ ->]]]]]]].
    apply written_state_cached. exact Hw.
  - eapply same_store_in_sync; [|exact Hsync].
    apply set_mode_false_same_store. exact Hok.
Qed.

Lemma run_call_keeps (env : Env) (a : Axis) (c : Call) (st : State) :
  ~ In a (fst (run_call env c st)) ->
  cached a (snd (run_call env c st)) = cached a st.
Proof.
  destruct c as [| | |m|m]; cbn [run_call]; run_monad; intros Hnot.
  - reflexivity.
  - pose proof (get_gpu_mode_frame env st) as Hs.
    destruct (_get_gpu_mode env st) as [v st1].
    apply same_store_cached. exact Hs.
  - pose proof (get_thermal_stats_frame env st) as Hs.
    destruct (_get_thermal_stats env st) as [v st1].
    apply same_store_cached. exact Hs.
  - pose proof (run_set_keeps env a Cpu m st) as H. cbn [set_mode] in H.
    destruct (_set_cpu_mode env m st) as [ok st1]. cbn [fst snd] in *.
    apply H. exact Hnot.
  - pose proof (run_set_keeps env a Gpu m st) as H. cbn [set_mode] in H.
    destruct (_set_gpu_mode env m st) as [ok st1]. cbn [fst snd] in *.
    apply H. exact Hnot.
Qed.

Lemma run_call_in_sync (env : Env) (c : Call) (st : State) :
  fs_writable env = true -> in_sync st -> in_sync (snd (run_call env c st)).
Proof.
  intros Hw Hsync.
  destruct c as [| | |m|m]; cbn [run_call]; run_monad.
  - exact Hsync.
  - pose proof (get_gpu_mode_frame env st) as Hs.
    destruct (_get_gpu_mode env st) as [v st1].
    eapply same_store_in_sync; eassumption.
  - pose proof (get_thermal_stats_frame env st) as Hs.
    destruct (_get_thermal_stats env st) as [v st1].
    eapply same_store_in_sync; eassumption.
  - pose proof (run_set_in_sync env Cpu m st Hw Hsync) as H.
    cbn [set_mode] in H.
    destruct (_set_cpu_mode env m st) as [ok st1]. exact H.
  - pose proof (run_set_in_sync env Gpu m st Hw Hsync) as H.
    cbn [set_mode] in H.
    destruct (_set_gpu_mode env m st) as [ok st1]. exact H.
Qed.

Lemma run_calls_cons (env : Env) (c : Call) (rest : list Call) (st : State) :
  run_calls env (c :: rest) st =
    ((fst (run_call env c st)
      ++ fst (run_calls env rest (snd (run_call env c st))))%list,
     snd (run_calls env rest (snd (run_call env c st)))).
Proof.
  cbn [run_calls]. run_monad.
  destruct (run_call env c st) as [w st1]. cbn [fst snd].
  destruct (run_calls env rest st1) as [l st2]. reflexivity.
Qed.

Lemma run_calls_keeps (env : Env) (a : Axis) (calls : list Call) :
  forall st,
    ~ In a (fst (run_calls env calls st)) ->
    cached a (snd (run_calls env calls st)) = cached a st.
Proof.
  induction calls as [|c rest IH]; intros st Hnot.
  - reflexivity.
  - rewrite run_calls_cons in *. cbn [fst snd] in *.
    rewrite IH.
    + apply run_call_keeps. intros Hin. apply Hnot.
      apply in_or_app. left. exact Hin.
    + intros Hin. apply Hnot. apply in_or_app. right. exact Hin.
Qed.

Lemma run_calls_in_sync (env : Env) (calls : list Call) :
  fs_writable env = true ->
  forall st, in_sync st -> in_sync (snd (run_calls env calls st)).
Proof.
  intros Hw. induction calls as [|c rest IH]; intros st Hsync.
  - exact Hsync.
  - rewrite run_calls_cons. cbn [snd].
    apply IH. apply run_call_in_sync; assumption.
Qed.

(** Restarting on a cache file that holds the two globals reads no
    hardware and restores both. *)
Lemma restart_in_sync (env : Env) (st : State) :
  os_name env = "nt" -> in_sync st -> restart env st = st.
Proof.
  unfold in_sync, restart, module_init, _load_mode_cache, forget_globals.
  intros ->. change (String.eqb "nt" "nt") with true. cbv iota.
  destruct st as [n tr file c g]. cbn. intros ->. reflexivity.
Qed.

(** C2, as stated, fails when [mode_cache.json] cannot be written: the
    driver accepts the Turbo write and memory holds [Turbo], but the save
    is silently dropped, the file is still missing, and the restarted
    process reads the hardware again and comes up with [Performance]. *)
Lemma unwritable_cache_is_not_persisted :
  let env := laptop (always (TransferOk (reply_with 65539))) false in
  let st := boot_state Missing in
  let st' := snd (_set_cpu_mode env "turbo" st) in
  fst (_set_cpu_mode env "turbo" st) = true /\
  _cached_cpu_mode st' = PyStr "Turbo" /\
  cache_file st' = Missing /\
  _cached_cpu_mode (restart env st') = PyStr "Performance" /\
  _cached_cpu_mode (restart env st') <> PyStr "Turbo" /\
  attempts (restart env st') = S (attempts st').
Proof.
  vm_compute. repeat split. discriminate.
Qed.

(** C2 (amended): once a CPU or GPU mode write succeeds, the in-memory
    value of that axis is the canonical capitalization of the requested
    name, and every later read of it returns that value from memory,
    through any run of reads, thermal snapshots and writes in which no
    further write on that axis succeeds.  The save that follows the write
    is best effort.  When it goes through, the file holds both in-memory
    modes after the write and after any such run, and a restart on
    Windows from there loads the same mode from the file without touching
    the device.  When the file cannot be opened for writing the file
    keeps its previous content, and when the write fails after the file
    was opened the file is left without a parsable record; in neither
    case is the failure reported. *)
Theorem successful_write_is_remembered :
  forall (env : Env) (a : Axis) (mode : string) (st st' : State),
    set_mode env a mode st = (true, st') ->
    exists name,
      In name (writable_names a) /\
      lower name = lower mode /\
      cached a st' = PyStr name /\
      (forall calls,
          let st'' := snd (run_calls env calls st') in
          ~ In a (fst (run_calls env calls st')) ->
          get_mode env a st'' = (PyStr name, st'')) /\
      (fs_save env = SaveOk ->
       cache_file st' =
         Json (PyDict [("cpu_mode", _cached_cpu_mode st');
                       ("gpu_mode", _cached_gpu_mode st')]) /\
       forall calls env',
         let st'' := snd (run_calls env calls st') in
         os_name env' = "nt" ->
         ~ In a (fst (run_calls env calls st')) ->
         restart env' st'' = st'' /\
         cached a (restart env' st'') = PyStr name) /\
      (fs_save env = OpenFails -> cache_file st' = cache_file st) /\
      (fs_save env = WriteFails -> cache_file st' = Garbage).
Proof.
  intros env a mode st st' Hset.
  destruct (set_mode_true_inv env a mode st st' Hset)
    as [name [pkt [w [Hin [Hlow [_ [_ ->]]]]]]].
  destruct (written_state_cached env a name pkt st)
    as [Hc [_ [Hsync [Hopen Hbroken]]]].
  exists name.
  split; [exact Hin|]. split; [exact Hlow|]. split; [exact Hc|].
  split; [|split; [|split; [exact Hopen | exact Hbroken]]].
  - intros calls st'' Hnot. subst st''.
    pose proof (run_calls_keeps env a calls _ Hnot) as Hk.
    rewrite Hc in Hk.
    rewrite get_mode_cached; rewrite Hk; reflexivity.
  - intros Hsave.
    assert (Hw : fs_writable env = true)
      by (unfold fs_writable; rewrite Hsave; reflexivity).
    split; [exact (Hsync Hw)|].
    intros calls env' st'' Hos Hnot. subst st''.
    assert (Hs : in_sync (snd (run_calls env calls
                                 (written_state env a name pkt st)))).
    { apply run_calls_in_sync; [exact Hw | exact (Hsync Hw)]. }
    rewrite (restart_in_sync env' _ Hos Hs).
    split; [reflexivity|].
    rewrite (run_calls_keeps env a calls _ Hnot). exact Hc.
Qed.

Lemma successful_write_is_remembered_witness :
  let env := laptop (always (TransferOk (reply_with 65539))) true in
  let st := boot_state Missing in
  let st' := snd (set_mode env Cpu "TURBO" st) in
  (cached Cpu st' = PyStr "Turbo" /\
   cached Cpu (restart env st') = PyStr "Turbo" /\
   attempts (restart env st') = attempts st') /\
  exists name,
    In name (writable_names Cpu) /\
    lower name = lower "TURBO" /\
    cached Cpu st' = PyStr name /\
    (forall calls,
        let st'' := snd (run_calls env calls st') in
        ~ In Cpu (fst (run_calls env calls st')) ->
        get_mode env Cpu st'' = (PyStr name, st'')) /\
    (fs_save env = SaveOk ->
     cache_file st' =
       Json (PyDict [("cpu_mode", _cached_cpu_mode st');
                     ("gpu_mode", _cached_gpu_mode st')]) /\
     forall calls env',
       let st'' := snd (run_calls env calls st') in
       os_name env' = "nt" ->
       ~ In Cpu (fst (run_calls env calls st')) ->
       restart env' st'' = st'' /\
       cached Cpu (restart env' st'') = PyStr name) /\
    (fs_save env = OpenFails -> cache_file st' = cache_file st) /\
    (fs_save env = WriteFails -> cache_file st' = Garbage).
Proof.
  intros env st st'. split.
  - repeat split.
  - apply (successful_write_is_remembered env Cpu "TURBO" st st').
    reflexivity.
Defined.

(* ------------------------------------------------------------------ *)
(** ** [POST /modes] with one field set                                 *)
(* ------------------------------------------------------------------ *)

Lemma mode_write_packet_cpu_contains (key : string) (pkt : list byte) :
  mode_write_packet Cpu key = Some pkt ->
  contains String.eqb _CPU_MODE_WRITE_MAP key = true.
Proof.
  cbn [mode_write_packet]. unfold contains.
  destruct (get String.eqb _CPU_MODE_WRITE_MAP key); [reflexivity|discriminate].
Qed.

Lemma mode_write_packet_gpu_names (key : string) (pkt : list byte) :
  mode_write_packet Gpu key = Some pkt ->
  String.eqb key "eco" || String.eqb key "standard" = true.
Proof.
  cbn [mode_write_packet].
  destruct (String.eqb key "eco"); [reflexivity|].
  destruct (String.eqb key "standard"); [reflexivity|discriminate].
Qed.

(** A request naming one writable mode, when the write is reported as
    failed. *)
Lemma set_modes_write_failed (env : Env) (a : Axis) (mode : string)
  (pkt : list byte) (st st' : State) :
  os_name env = "nt" ->
  mode_write_packet a (lower mode) = Some pkt ->
  set_mode env a mode st = (false, st') ->
  set_modes env (request_for a mode) st
    = (HTTPException 400 (write_failed a mode), st').
Proof.
  intros Hos Hpkt Hset. unfold set_modes. rewrite Hos.
  change (String.eqb "nt" "nt") with true. cbn [negb].
  destruct a; cbn [request_for req_cpu_mode req_gpu_mode set_modes_cpu
                     set_modes_gpu set_mode write_failed] in *.
  - rewrite (mode_write_packet_cpu_contains _ _ Hpkt). cbn [negb].
    run_monad. rewrite Hset. reflexivity.
  - run_monad.
    rewrite (mode_write_packet_gpu_names _ _ Hpkt). cbn [negb].
    run_monad. rewrite Hset. reflexivity.
Qed.

(** C6: if the driver does not accept the write (the device cannot be
    opened or the transfer fails), [_set_cpu_mode] / [_set_gpu_mode]
    return [False], [POST /modes] raises the 400 error "Failed to set ...
    mode ... (ATK write failed)", and neither the two in-memory modes nor
    the cache file have changed; more generally every write that returns
    [False] leaves memory and file as they were. *)
Theorem failed_write_changes_nothing :
  forall (env : Env) (a : Axis) (mode : string) (pkt : list byte)
         (st : State),
    os_name env = "nt" ->
    mode_write_packet a (lower mode) = Some pkt ->
    (forall written, driver env (attempts st) pkt <> TransferOk written) ->
    let st' := rejected_state (driver env (attempts st) pkt) pkt st in
    set_mode env a mode st = (false, st') /\
    set_modes env (request_for a mode) st
      = (HTTPException 400 (write_failed a mode), st') /\
    _cached_cpu_mode st' = _cached_cpu_mode st /\
    _cached_gpu_mode st' = _cached_gpu_mode st /\
    cache_file st' = cache_file st /\
    (forall mode2 st2,
        fst (set_mode env a mode2 st2) = false ->
        same_store st2 (snd (set_mode env a mode2 st2))).
Proof.
  intros env a mode pkt st Hos Hpkt Hfail st'.
  assert (Hset : set_mode env a mode st = (false, st')).
  { pose proof (set_mode_spec env a mode st) as H. rewrite Hpkt in H.
    subst st'.
    destruct (driver env (attempts st) pkt) as [| |w] eqn:Hdrv;
      try exact H.
    exfalso. apply (Hfail w). reflexivity. }
  split; [exact Hset|].
  split; [eapply set_modes_write_failed; eassumption|].
  split; [reflexivity|]. split; [reflexivity|]. split; [reflexivity|].
  intros mode2 st2. apply set_mode_false_same_store.
Qed.

Lemma failed_write_changes_nothing_witness :
  let env := laptop (always TransferFailed) true in
  let st := mkState 4 []
              (Json (PyDict [("cpu_mode", PyStr "Silent");
                             ("gpu_mode", PyStr "Eco")]))
              (PyStr "Silent") (PyStr "Eco") in
  let pkt := write_packet _ATK_GPU_ECO_ID 0 in
  let st' := rejected_state (driver env (attempts st) pkt) pkt st in
  set_mode env Gpu "Standard" st = (false, st') /\
  set_modes env (request_for Gpu "Standard") st
    = (HTTPException 400 (write_failed Gpu "Standard"), st') /\
  _cached_cpu_mode st' = _cached_cpu_mode st /\
  _cached_gpu_mode st' = _cached_gpu_mode st /\
  cache_file st' = cache_file st /\
  (forall mode2 st2,
      fst (set_mode env Gpu mode2 st2) = false ->
      same_store st2 (snd (set_mode env Gpu mode2 st2))).
Proof.
  intros env st pkt.
  apply (failed_write_changes_nothing env Gpu "Standard" pkt st).
  - reflexivity.
  - reflexivity.
  - intros written. cbn. discriminate.
Defined.

(* ------------------------------------------------------------------ *)
(** ** Rejected names                                                   *)
(* ------------------------------------------------------------------ *)

Lemma unknown_cpu_key (key : string) :
  ~ In key ["silent"; "balanced"; "turbo"; "performance"] ->
  get String.eqb _CPU_MODE_WRITE_MAP key = None.
Proof.
  intros Hnot. unfold _CPU_MODE_WRITE_MAP. cbn [get].
  destruct (String.eqb "balanced" key) eqn:E0;
    [apply String.eqb_eq in E0; exfalso; apply Hnot; cbn; auto|].
  destruct (String.eqb "turbo" key) eqn:E1;
    [apply String.eqb_eq in E1; exfalso; apply Hnot; cbn; auto|].
  destruct (String.eqb "silent" key) eqn:E2;
    [apply String.eqb_eq in E2; exfalso; apply Hnot; cbn; auto|].
  destruct (String.eqb "performance" key) eqn:E3;
    [apply String.eqb_eq in E3; exfalso; apply Hnot; cbn; auto 6|].
  reflexivity.
Qed.

Lemma not_writable_gpu_key (key : string) :
  ~ In key ["eco"; "standard"] ->
  String.eqb key "eco" || String.eqb key "standard" = false.
Proof.
  intros Hnot.
  destruct (String.eqb key "eco") eqn:E0;
    [apply String.eqb_eq in E0; exfalso; apply Hnot; cbn; auto|].
  destruct (String.eqb key "standard") eqn:E1;
    [apply String.eqb_eq in E1; exfalso; apply Hnot; cbn; auto|].
  reflexivity.
Qed.

Lemma error_details_distinct (m m' : string) :
  invalid_gpu_mode m <> gpu_write_failed m' /\
  invalid_gpu_mode m <> invalid_cpu_mode m' /\
  invalid_gpu_mode m <> cpu_write_failed m' /\
  invalid_cpu_mode m <> cpu_write_failed m'.
Proof.
  unfold invalid_gpu_mode, gpu_write_failed, invalid_cpu_mode,
    cpu_write_failed.
  cbn [String.append]. repeat split; discriminate.
Qed.

(** C7, as stated, fails: "ultimate" has no error of its own.  With a
    driver that refuses every transfer, [_set_gpu_mode] returns the same
    [False] for "ultimate", for the unknown name "bogus" and for the
    failed write of "eco"; and [POST /modes] answers "ultimate" and
    "bogus" with the same 400 error, differing only in the quoted
    name. *)
Lemma ultimate_has_no_error_of_its_own :
  let env := laptop (always TransferFailed) true in
  let st := boot_state Missing in
  (fst (_set_gpu_mode env "ultimate" st) = false /\
   fst (_set_gpu_mode env "bogus" st) = false /\
   fst (_set_gpu_mode env "eco" st) = false) /\
  fst (set_modes env (request_for Gpu "ultimate") st) =
    HTTPException 400
      "Invalid gpu_mode 'ultimate'. Valid: Eco, Standard (Ultimate requires reboot)" /\
  fst (set_modes env (request_for Gpu "bogus") st) =
    HTTPException 400
      "Invalid gpu_mode 'bogus'. Valid: Eco, Standard (Ultimate requires reboot)".
Proof. vm_compute. repeat split. Qed.

(** C7 (amended): a GPU mode name that is neither "eco" nor "standard"
    in lower case, "ultimate" included, is always rejected, whatever the
    driver would answer and whatever else the request asks for:
    [_set_gpu_mode] returns [False] and [POST /modes] raises the one 400
    error the code has for such names, "Invalid gpu_mode '<name>'.
    Valid: Eco, Standard (Ultimate requires reboot)"; there is no separate
    error for "ultimate".  A CPU mode name outside the four writable ones
    is rejected with the 400 error "Invalid cpu_mode ...".  On both paths
    the state, including the log of device attempts and transfers, is
    returned unchanged, and the rejection details differ from each other
    and from the write-failure details. *)
Theorem rejected_names_reach_no_device :
  forall (env : Env) (st : State) (gpu_name cpu_name : string),
    os_name env = "nt" ->
    ~ In (lower gpu_name) ["eco"; "standard"] ->
    ~ In (lower cpu_name) ["silent"; "balanced"; "turbo"; "performance"] ->
    (_set_gpu_mode env gpu_name st = (false, st) /\
     set_modes env (request_for Gpu gpu_name) st
       = (HTTPException 400 (invalid_gpu_mode gpu_name), st) /\
     forall cpu_req, exists detail,
       fst (set_modes env (mkModeSetRequest cpu_req (Some gpu_name)) st)
         = HTTPException 400 detail) /\
    (_set_cpu_mode env cpu_name st = (false, st) /\
     set_modes env (request_for Cpu cpu_name) st
       = (HTTPException 400 (invalid_cpu_mode cpu_name), st)) /\
    (forall m,
        invalid_gpu_mode gpu_name <> gpu_write_failed m /\
        invalid_gpu_mode gpu_name <> invalid_cpu_mode m /\
        invalid_gpu_mode gpu_name <> cpu_write_failed m /\
        invalid_cpu_mode cpu_name <> cpu_write_failed m) /\
    (forall spelling,
        lower spelling = "ultimate" ->
        ~ In (lower spelling) ["eco"; "standard"] /\
        set_modes env (request_for Gpu spelling) st
          = (HTTPException 400
               ("Invalid gpu_mode '" ++ spelling
                ++ "'. Valid: Eco, Standard (Ultimate requires reboot)"),
             st)).
Proof.
  intros env st gpu_name cpu_name Hos Hgpu Hunknown.
  assert (Hgen : forall name,
             ~ In (lower name) ["eco"; "standard"] ->
             _set_gpu_mode env name st = (false, st) /\
             set_modes env (request_for Gpu name) st
               = (HTTPException 400 (invalid_gpu_mode name), st)).
  { intros name Hname.
    pose proof (not_writable_gpu_key _ Hname) as Hkey.
    destruct (orb_false_elim _ _ Hkey) as [Heco Hstd].
    split.
    - unfold _set_gpu_mode. rewrite Heco, Hstd. reflexivity.
    - unfold set_modes. rewrite Hos.
      change (String.eqb "nt" "nt") with true.
      cbn [negb request_for req_cpu_mode req_gpu_mode set_modes_cpu
             set_modes_gpu].
      rewrite Hkey. reflexivity. }
  split; [|split; [|split]].
  - destruct (Hgen gpu_name Hgpu) as [Hfn Hroute].
    split; [exact Hfn|]. split; [exact Hroute|].
    intros cpu_req. unfold set_modes. rewrite Hos.
    change (String.eqb "nt" "nt") with true.
    cbn [negb req_cpu_mode req_gpu_mode set_modes_gpu].
    rewrite (not_writable_gpu_key _ Hgpu). run_monad.
    destruct (set_modes_cpu env cpu_req st) as [errs st1].
    cbn [negb]. run_monad.
    destruct errs as [|e errs]; cbn [app fst]; eexists; reflexivity.
  - pose proof (unknown_cpu_key _ Hunknown) as Hget.
    split.
    + unfold _set_cpu_mode. rewrite Hget. reflexivity.
    + unfold set_modes. rewrite Hos.
      change (String.eqb "nt" "nt") with true.
      cbn [negb request_for req_cpu_mode req_gpu_mode set_modes_cpu
             set_modes_gpu].
      unfold contains. rewrite Hget. reflexivity.
  - intros m.
    destruct (error_details_distinct gpu_name m) as [A [B [C _]]].
    destruct (error_details_distinct cpu_name m) as [_ [_ [_ D]]].
    auto.
  - intros spelling Hult.
    assert (Hnot : ~ In (lower spelling) ["eco"; "standard"]).
    { rewrite Hult. cbn. intros [H|[H|[]]]; discriminate H. }
    split; [exact Hnot|]. exact (proj2 (Hgen spelling Hnot)).
Qed.

Lemma rejected_names_reach_no_device_witness :
  let env := laptop (always (TransferOk (reply_with 65536))) true in
  let st := boot_state Missing in
  (_set_gpu_mode env "Ultimate" st = (false, st) /\
   set_modes env (request_for Gpu "Ultimate") st
     = (HTTPException 400 (invalid_gpu_mode "Ultimate"), st) /\
   forall cpu_req, exists detail,
     fst (set_modes env (mkModeSetRequest cpu_req (Some "Ultimate")) st)
       = HTTPException 400 detail) /\
  (_set_cpu_mode env "invalid" st = (false, st) /\
   set_modes env (request_for Cpu "invalid") st
     = (HTTPException 400 (invalid_cpu_mode "invalid"), st)) /\
  (forall m,
      invalid_gpu_mode "Ultimate" <> gpu_write_failed m /\
      invalid_gpu_mode "Ultimate" <> invalid_cpu_mode m /\
      invalid_gpu_mode "Ultimate" <> cpu_write_failed m /\
      invalid_cpu_mode "invalid" <> cpu_write_failed m) /\
  (forall spelling,
      lower spelling = "ultimate" ->
      ~ In (lower spelling) ["eco"; "standard"] /\
      set_modes env (request_for Gpu spelling) st
        = (HTTPException 400
             ("Invalid gpu_mode '" ++ spelling
              ++ "'. Valid: Eco, Standard (Ultimate requires reboot)"),
           st)).
Proof.
  intros env st.
  apply (rejected_names_reach_no_device env st "Ultimate" "invalid").
  - reflexivity.
  - cbn. intros [H|[H|[]]]; discriminate H.
  - cbn. intros [H|[H|[H|[H|[]]]]]; discriminate H.
Defined.

(* ------------------------------------------------------------------ *)
(** ** Fan readings                                                     *)
(* ------------------------------------------------------------------ *)

Lemma atk_read_fan_result (env : Env) (id : Z) (st : State) :
  fst (_atk_read_fan env id st) = fan_at env (attempts st) id.
Proof.
  unfold _atk_read_fan, fan_at, read_packet, device_io_control.
  run_monad.
  destruct (driver env (attempts st) (Struct.pack_IIII _DSTS 8 id 0));
    reflexivity.
Qed.

Lemma fan_rpm_of_val_Some (val rpm : Z) :
  fan_rpm_of_val val = Some rpm <-> 1 <= val <= 100 /\ rpm = val * 100.
Proof.
  unfold fan_rpm_of_val. rewrite Z.gtb_ltb.
  destruct (val <=? 0) eqn:E1; destruct (100 <? val) eqn:E2; cbn [orb];
    rewrite ?Z.leb_le, ?Z.leb_gt, ?Z.ltb_lt, ?Z.ltb_ge in *;
    (split; [intros H | intros [Hr ->]]);
    try discriminate; try lia.
  - injection H as <-. lia.
  - reflexivity.
Qed.

Lemma fan_rpm_of_val_None (val : Z) :
  fan_rpm_of_val val = None <-> val <= 0 \/ 100 < val.
Proof.
  unfold fan_rpm_of_val. rewrite Z.gtb_ltb.
  destruct (val <=? 0) eqn:E1; destruct (100 <? val) eqn:E2; cbn [orb];
    rewrite ?Z.leb_le, ?Z.leb_gt, ?Z.ltb_lt, ?Z.ltb_ge in *;
    split; try discriminate; try lia; auto.
Qed.

Lemma fan_at_shape (env : Env) (n : nat) (id rpm : Z) :
  fan_at env n id = Some rpm ->
  exists val, 1 <= val <= 100 /\ rpm = val * 100.
Proof.
  unfold fan_at.
  destruct (driver env n (read_packet id)) as [| |w]; try discriminate.
  destruct (reply_raw w) as [raw|]; try discriminate.
  intros H. apply fan_rpm_of_val_Some in H.
  exists (fan_decode raw). exact H.
Qed.

Lemma all_percents_in_range :
  forallb percent_in_range (map Z.of_nat (seq 1 100)) = true.
Proof. vm_compute. reflexivity. Qed.

Lemma percent_of_fan_value (val : Z) :
  1 <= val <= 100 ->
  exists p, rpm_percent (val * 100) = Some p /\
            PrimFloat.ltb 0 p = true /\ PrimFloat.leb p 151.5 = true.
Proof.
  intros Hval.
  pose proof all_percents_in_range as Hall.
  rewrite forallb_forall in Hall.
  specialize (Hall val).
  assert (Hin : In val (map Z.of_nat (seq 1 100))).
  { apply in_map_iff. exists (Z.to_nat val). split; [lia|].
    apply in_seq. lia. }
  specialize (Hall Hin). unfold percent_in_range in Hall.
  destruct (rpm_percent (val * 100)) as [p|]; [|discriminate].
  apply andb_prop in Hall. exists p. tauto.
Qed.

Lemma rpm_percent_formula (rpm : Z) :
  rpm_percent rpm =
    Some (PyFloat.round1
            (PyFloat.mul_int (PyFloat.of_ratio rpm _FAN_MAX_RPM) 100)).
Proof.
  unfold rpm_percent, PyFloat.int_truediv, _FAN_MAX_RPM.
  cbn [Z.eqb Z.sgn Z.abs]. rewrite Z.mul_1_l. reflexivity.
Qed.

(** The snapshot on Windows, field by field. *)
Lemma get_thermal_stats_nt (env : Env) (st : State) :
  os_name env = "nt" ->
  let cpu_rpm := fan_at env (attempts st) _ATK_CPU_FAN_ID in
  let gpu_rpm := fan_at env (S (attempts st)) _ATK_GPU_FAN_ID in
  fst (_get_thermal_stats env st) =
    mkThermalStats
      (package_temp (_lhm_cpu_sensors env))
      (core_avg (_lhm_cpu_sensors env))
      (core_max (_lhm_cpu_sensors env))
      cpu_rpm (percent_if_present cpu_rpm)
      match core_temp (_lhm_gpu_sensors env) with
      | None => fst (_gpu_stats_nvidia env)
      | Some t => Some t
      end
      (hotspot_temp (_lhm_gpu_sensors env))
      gpu_rpm (percent_if_present gpu_rpm).
Proof.
  intros Hos cpu_rpm gpu_rpm.
  unfold _get_thermal_stats. rewrite Hos.
  change (String.eqb "nt" "nt") with true. cbv iota.
  unfold _atk_fan_speeds. run_monad.
  pose proof (atk_read_fan_result env _ATK_CPU_FAN_ID st) as H1.
  destruct (atk_read_fan_frame env _ATK_CPU_FAN_ID st) as [Ha1 _].
  destruct (_atk_read_fan env _ATK_CPU_FAN_ID st) as [cpu st1].
  pose proof (atk_read_fan_result env _ATK_GPU_FAN_ID st1) as H2.
  destruct (_atk_read_fan env _ATK_GPU_FAN_ID st1) as [gpu st2].
  cbn [fst snd] in *. rewrite Ha1 in H2. subst cpu gpu. reflexivity.
Qed.

(* ------------------------------------------------------------------ *)
(** ** The thermal snapshot                                             *)
(* ------------------------------------------------------------------ *)

(** C4: on the driver platform, when LibreHardwareMonitor and NVML both
    report a GPU core temperature the snapshot carries the
    LibreHardwareMonitor value itself; the NVML temperature is what the
    snapshot carries only when LibreHardwareMonitor reported none. *)
Theorem gpu_core_prefers_vendor_library :
  forall (env : Env) (st : State) (lhm_t nvml_t : float),
    os_name env = "nt" ->
    core_temp (_lhm_gpu_sensors env) = Some lhm_t ->
    fst (_gpu_stats_nvidia env) = Some nvml_t ->
    gpu_core_temp_celsius (fst (_get_thermal_stats env st)) = Some lhm_t /\
    (forall env2 st2,
        os_name env2 = "nt" ->
        core_temp (_lhm_gpu_sensors env2) = None ->
        gpu_core_temp_celsius (fst (_get_thermal_stats env2 st2))
          = fst (_gpu_stats_nvidia env2)).
Proof.
  intros env st lhm_t nvml_t Hos Hlhm Hnv. split.
  - rewrite (get_thermal_stats_nt env st Hos).
    cbn [gpu_core_temp_celsius]. rewrite Hlhm. reflexivity.
  - intros env2 st2 Hos2 Hnone.
    rewrite (get_thermal_stats_nt env2 st2 Hos2).
    cbn [gpu_core_temp_celsius]. rewrite Hnone. reflexivity.
Qed.

Lemma gpu_core_prefers_vendor_library_witness :
  let env := laptop (always OpenFailed) true in
  let st := boot_state Missing in
  (core_temp (_lhm_gpu_sensors env) = Some (PyFloat.round1 47.125) /\
   fst (_gpu_stats_nvidia env) = Some 49%float) /\
  gpu_core_temp_celsius (fst (_get_thermal_stats env st))
    = Some (PyFloat.round1 47.125) /\
  (forall env2 st2,
      os_name env2 = "nt" ->
      core_temp (_lhm_gpu_sensors env2) = None ->
      gpu_core_temp_celsius (fst (_get_thermal_stats env2 st2))
        = fst (_gpu_stats_nvidia env2)).
Proof.
  intros env st. split.
  - split; vm_compute; reflexivity.
  - apply (gpu_core_prefers_vendor_library env st (PyFloat.round1 47.125)
             49%float).
    + reflexivity.
    + vm_compute. reflexivity.
    + vm_compute. reflexivity.
Defined.

(** C5: on the driver platform each fan percent of the snapshot is
    [round(rpm / _FAN_MAX_RPM * 100, 1)] of the fan RPM in the same
    snapshot when that RPM is present, and is absent when the RPM is
    absent; 3300 RPM gives 50.0 and 0 RPM gives 0.0. *)
Theorem fan_percent_follows_rpm :
  forall (env : Env) (st : State),
    os_name env = "nt" ->
    let t := fst (_get_thermal_stats env st) in
    let formula := fun rpm =>
      PyFloat.round1
        (PyFloat.mul_int (PyFloat.of_ratio rpm _FAN_MAX_RPM) 100) in
    cpu_fan_percent t = option_map formula (cpu_fan_rpm t) /\
    gpu_fan_percent t = option_map formula (gpu_fan_rpm t) /\
    (cpu_fan_rpm t = None -> cpu_fan_percent t = None) /\
    (gpu_fan_rpm t = None -> gpu_fan_percent t = None) /\
    formula 3300 = 50%float /\
    formula 0 = 0%float.
Proof.
  intros env st Hos t formula. subst t.
  rewrite (get_thermal_stats_nt env st Hos).
  cbn [cpu_fan_percent cpu_fan_rpm gpu_fan_percent gpu_fan_rpm].
  assert (Hp : forall o, percent_if_present o = option_map formula o).
  { intros [rpm|]; [apply rpm_percent_formula | reflexivity]. }
  rewrite !Hp.
  split; [reflexivity|]. split; [reflexivity|].
  split; [intros ->; reflexivity|]. split; [intros ->; reflexivity|].
  split; vm_compute; reflexivity.
Qed.

Lemma fan_percent_follows_rpm_witness :
  let env :=
    laptop (scripted [TransferOk (reply_with (65536 + 33)); OpenFailed])
      true in
  let t := fst (_get_thermal_stats env (boot_state Missing)) in
  let formula := fun rpm =>
    PyFloat.round1
      (PyFloat.mul_int (PyFloat.of_ratio rpm _FAN_MAX_RPM) 100) in
  (cpu_fan_rpm t = Some 3300 /\ gpu_fan_rpm t = None) /\
  cpu_fan_percent t = option_map formula (cpu_fan_rpm t) /\
  gpu_fan_percent t = option_map formula (gpu_fan_rpm t) /\
  (cpu_fan_rpm t = None -> cpu_fan_percent t = None) /\
  (gpu_fan_rpm t = None -> gpu_fan_percent t = None) /\
  formula 3300 = 50%float /\
  formula 0 = 0%float.
Proof.
  intros env t formula. split.
  - split; vm_compute; reflexivity.
  - apply (fan_percent_follows_rpm env (boot_state Missing)). reflexivity.
Defined.

(** C8: when the device cannot be opened for either fan read, the
    thermal snapshot is still returned with every field in place: both
    fan RPMs and both fan percents are absent, nothing was sent to the
    device, and the temperatures are exactly what LibreHardwareMonitor
    and, for a GPU core temperature it did not supply, NVML report. *)
Theorem snapshot_survives_missing_driver :
  forall (env : Env) (st : State),
    os_name env = "nt" ->
    driver env (attempts st) (read_packet _ATK_CPU_FAN_ID) = OpenFailed ->
    driver env (S (attempts st)) (read_packet _ATK_GPU_FAN_ID) = OpenFailed ->
    let t := fst (_get_thermal_stats env st) in
    let st' := snd (_get_thermal_stats env st) in
    cpu_fan_rpm t = None /\ cpu_fan_percent t = None /\
    gpu_fan_rpm t = None /\ gpu_fan_percent t = None /\
    cpu_package_temp_celsius t = package_temp (_lhm_cpu_sensors env) /\
    cpu_core_avg_celsius t = core_avg (_lhm_cpu_sensors env) /\
    cpu_core_max_celsius t = core_max (_lhm_cpu_sensors env) /\
    gpu_hotspot_celsius t = hotspot_temp (_lhm_gpu_sensors env) /\
    gpu_core_temp_celsius t =
      match core_temp (_lhm_gpu_sensors env) with
      | Some lhm_t => Some lhm_t
      | None => fst (_gpu_stats_nvidia env)
      end /\
    transfers st' = transfers st /\
    same_store st st'.
Proof.
  intros env st Hos Hcpu Hgpu t st'. subst t st'.
  rewrite (get_thermal_stats_nt env st Hos).
  unfold fan_at. rewrite Hcpu, Hgpu.
  cbn [cpu_fan_rpm cpu_fan_percent gpu_fan_rpm gpu_fan_percent
       cpu_package_temp_celsius cpu_core_avg_celsius cpu_core_max_celsius
       gpu_hotspot_celsius gpu_core_temp_celsius percent_if_present].
  do 8 (split; [reflexivity|]).
  split; [destruct (core_temp (_lhm_gpu_sensors env)); reflexivity|].
  split; [|apply get_thermal_stats_frame].
  unfold _get_thermal_stats. rewrite Hos.
  change (String.eqb "nt" "nt") with true. cbv iota.
  unfold _atk_fan_speeds, _atk_read_fan, device_io_control. run_monad.
  fold (read_packet _ATK_CPU_FAN_ID). rewrite Hcpu. cbn [attempts].
  fold (read_packet _ATK_GPU_FAN_ID). rewrite Hgpu. reflexivity.
Qed.

Lemma snapshot_survives_missing_driver_witness :
  let env := laptop (always OpenFailed) true in
  let st := boot_state Missing in
  fst (_get_thermal_stats env st) =
    mkThermalStats (Some (PyFloat.round1 58.25)) (Some 55%float)
      (Some 60.5%float) None None (Some (PyFloat.round1 47.125))
      (Some 59%float) None None /\
  let t := fst (_get_thermal_stats env st) in
  let st' := snd (_get_thermal_stats env st) in
  cpu_fan_rpm t = None /\ cpu_fan_percent t = None /\
  gpu_fan_rpm t = None /\ gpu_fan_percent t = None /\
  cpu_package_temp_celsius t = package_temp (_lhm_cpu_sensors env) /\
  cpu_core_avg_celsius t = core_avg (_lhm_cpu_sensors env) /\
  cpu_core_max_celsius t = core_max (_lhm_cpu_sensors env) /\
  gpu_hotspot_celsius t = hotspot_temp (_lhm_gpu_sensors env) /\
  gpu_core_temp_celsius t =
    match core_temp (_lhm_gpu_sensors env) with
    | Some lhm_t => Some lhm_t
    | None => fst (_gpu_stats_nvidia env)
    end /\
  transfers st' = transfers st /\
  same_store st st'.
Proof.
  intros env st. split.
  - vm_compute. reflexivity.
  - apply (snapshot_survives_missing_driver env st); reflexivity.
Defined.

Lemma fan_rpm_of_val_test (val : Z) :
  fan_rpm_of_val val =
    if (1 <=? val) && (val <=? 100) then Some (val * 100) else None.
Proof.
  unfold fan_rpm_of_val. rewrite Z.gtb_ltb.
  destruct (val <=? 0) eqn:E1; destruct (100 <? val) eqn:E2;
    destruct (1 <=? val) eqn:E3; destruct (val <=? 100) eqn:E4;
    cbn [orb andb];
    rewrite ?Z.leb_le, ?Z.leb_gt, ?Z.ltb_lt, ?Z.ltb_ge in *;
    try reflexivity; lia.
Qed.

(** C10: a fan read is decided by the driver's reply alone.  It returns
    [val * 100] when the exchange succeeds and the value [val] decoded
    from the reply lies in [[1, 100]], and nothing in every other case: a
    decoded value that is 0, negative or above 100, a failed transfer, a
    device that cannot be opened.  So a present fan RPM is a multiple of
    100 between 100 and 10000, never 0, and comes from a reply whose
    decoded value is that RPM divided by 100.  The percent computed from
    a present RPM is strictly positive and at most 151.5, which is
    reached at 10000 RPM and exceeds 100.0; this holds for both fan
    percents of every snapshot on the driver platform. *)
Theorem fan_rpm_is_a_positive_multiple_of_100 :
  forall (env : Env) (st : State) (device_id : Z),
    os_name env = "nt" ->
    fst (_atk_read_fan env device_id st) =
      match driver env (attempts st) (read_packet device_id) with
      | TransferOk written =>
          match reply_raw written with
          | Some raw =>
              if (1 <=? fan_decode raw) && (fan_decode raw <=? 100)
              then Some (fan_decode raw * 100)
              else None
          | None => None
          end
      | OpenFailed | TransferFailed => None
      end /\
    match fst (_atk_read_fan env device_id st) with
    | None => True
    | Some rpm =>
        (exists written raw,
            driver env (attempts st) (read_packet device_id)
              = TransferOk written /\
            reply_raw written = Some raw /\
            1 <= fan_decode raw <= 100 /\ rpm = fan_decode raw * 100) /\
        (exists val, 1 <= val <= 100 /\ rpm = val * 100) /\
        100 <= rpm <= 10000 /\ rpm mod 100 = 0 /\
        exists p, rpm_percent rpm = Some p /\
                  PrimFloat.ltb 0 p = true /\ PrimFloat.leb p 151.5 = true
    end /\
    (forall val, fan_rpm_of_val val = None <-> val <= 0 \/ 100 < val) /\
    (forall p,
        cpu_fan_percent (fst (_get_thermal_stats env st)) = Some p \/
        gpu_fan_percent (fst (_get_thermal_stats env st)) = Some p ->
        PrimFloat.ltb 0 p = true /\ PrimFloat.leb p 151.5 = true) /\
    fan_rpm_of_val (fan_decode (65536 + 100)) = Some 10000 /\
    rpm_percent 10000 = Some 151.5%float /\
    PrimFloat.ltb 100 151.5 = true.
Proof.
  intros env st device_id Hos.
  split; [|split; [|split; [exact fan_rpm_of_val_None|split]]].
  - rewrite atk_read_fan_result. unfold fan_at.
    destruct (driver env (attempts st) (read_packet device_id)) as [| |w];
      try reflexivity.
    destruct (reply_raw w) as [raw|]; [|reflexivity].
    apply fan_rpm_of_val_test.
  - rewrite atk_read_fan_result.
    destruct (fan_at env (attempts st) device_id) as [rpm|] eqn:Hfan;
      [|exact I].
    split.
    + unfold fan_at in Hfan.
      destruct (driver env (attempts st) (read_packet device_id))
        as [| |w] eqn:Hdrv; try discriminate Hfan.
      destruct (reply_raw w) as [raw|] eqn:Hraw; [|discriminate Hfan].
      apply fan_rpm_of_val_Some in Hfan.
      exists w, raw. split; [reflexivity|]. split; [exact Hraw|]. exact Hfan.
    + destruct (fan_at_shape _ _ _ _ Hfan) as [val [Hval ->]].
      split; [exists val; split; [exact Hval | reflexivity]|].
      split; [lia|]. split; [apply Z.mod_mul; lia|].
      apply percent_of_fan_value. exact Hval.
  - intros p Hp.
    rewrite (get_thermal_stats_nt env st Hos) in Hp.
    cbn [cpu_fan_percent gpu_fan_percent] in Hp.
    assert (Hgen : forall n id,
               percent_if_present (fan_at env n id) = Some p ->
               PrimFloat.ltb 0 p = true /\ PrimFloat.leb p 151.5 = true).
    { intros n id Hpp.
      destruct (fan_at env n id) as [rpm|] eqn:Hfan; [|discriminate].
      destruct (fan_at_shape _ _ _ _ Hfan) as [val [Hval ->]].
      destruct (percent_of_fan_value val Hval) as [q [Hq Hrange]].
      cbn [percent_if_present] in Hpp. congruence. }
    destruct Hp as [Hp|Hp]; eapply Hgen; exact Hp.
  - split; [reflexivity|]. split; vm_compute; reflexivity.
Qed.

Lemma fan_rpm_is_a_positive_multiple_of_100_witness :
  let env := laptop (always (TransferOk (reply_with (65536 + 100)))) true in
  let st := boot_state Missing in
  fst (_atk_read_fan env _ATK_CPU_FAN_ID st) = Some 10000 /\
  cpu_fan_percent (fst (_get_thermal_stats env st)) = Some 151.5%float /\
  (fst (_atk_read_fan env _ATK_CPU_FAN_ID st) =
     match driver env (attempts st) (read_packet _ATK_CPU_FAN_ID) with
     | TransferOk written =>
         match reply_raw written with
         | Some raw =>
             if (1 <=? fan_decode raw) && (fan_decode raw <=? 100)
             then Some (fan_decode raw * 100)
             else None
         | None => None
         end
     | OpenFailed | TransferFailed => None
     end /\
   match fst (_atk_read_fan env _ATK_CPU_FAN_ID st) with
   | None => True
   | Some rpm =>
       (exists written raw,
           driver env (attempts st) (read_packet _ATK_CPU_FAN_ID)
             = TransferOk written /\
           reply_raw written = Some raw /\
           1 <= fan_decode raw <= 100 /\ rpm = fan_decode raw * 100) /\
       (exists val, 1 <= val <= 100 /\ rpm = val * 100) /\
       100 <= rpm <= 10000 /\ rpm mod 100 = 0 /\
       exists p, rpm_percent rpm = Some p /\
                 PrimFloat.ltb 0 p = true /\ PrimFloat.leb p 151.5 = true
   end /\
   (forall val, fan_rpm_of_val val = None <-> val <= 0 \/ 100 < val) /\
   (forall p,
       cpu_fan_percent (fst (_get_thermal_stats env st)) = Some p \/
       gpu_fan_percent (fst (_get_thermal_stats env st)) = Some p ->
       PrimFloat.ltb 0 p = true /\ PrimFloat.leb p 151.5 = true) /\
   fan_rpm_of_val (fan_decode (65536 + 100)) = Some 10000 /\
   rpm_percent 10000 = Some 151.5%float /\
   PrimFloat.ltb 100 151.5 = true).
Proof.
  intros env st.
  split; [vm_compute; reflexivity|].
  split; [vm_compute; reflexivity|].
  apply (fan_rpm_is_a_positive_multiple_of_100 env st _ATK_CPU_FAN_ID).
  reflexivity.
Defined.

(* ------------------------------------------------------------------ *)
(** ** GPU mode detection                                               *)
(* ------------------------------------------------------------------ *)

(** C9, as stated, fails twice.  With the cache unknown and a driver that
    answers every read with raw 65537, the first [_get_gpu_mode] reads
    both registers and returns [Eco] but leaves the cache unknown, and the
    second call reads both registers again (four exchanges in all).  And
    when neither register can be read the result is [None], not
    [Standard]. *)
Lemma gpu_mode_is_detected_on_every_call :
  let env := laptop (always (TransferOk (reply_with 65537))) true in
  let st := boot_state Missing in
  let first := _get_gpu_mode env st in
  let second := _get_gpu_mode env (snd first) in
  (fst first = PyStr "Eco" /\
   _cached_gpu_mode (snd first) = PyNone /\
   attempts (snd first) = 2%nat /\
   fst second = PyStr "Eco" /\
   attempts (snd second) = 4%nat /\
   transfers (snd second) =
     [read_packet _ATK_GPU_MUX_ID; read_packet _ATK_GPU_ECO_ID;
      read_packet _ATK_GPU_MUX_ID; read_packet _ATK_GPU_ECO_ID]) /\
  (fst (_get_gpu_mode (laptop (always OpenFailed) true) st) = PyNone /\
   fst (_get_gpu_mode (laptop (always OpenFailed) true) st)
     <> PyStr "Standard").
Proof.
  vm_compute. repeat split. discriminate.
Qed.

(** C9 (amended): whenever the cached GPU mode is unknown,
    [_get_gpu_mode] reads the eco-flag register and then the mux-flag
    register and applies the precedence: mux reads 0 gives [Ultimate];
    otherwise eco reads 1 gives [Eco]; otherwise, if at least one of the
    two reads succeeded, [Standard]; if both reads failed the result is
    unknown.  The result is not stored: the cache stays unknown and the
    next call reads both registers again.  A known cached mode is
    returned without any read. *)
Theorem gpu_mode_detection :
  forall (env : Env) (st : State),
    _cached_gpu_mode st = PyNone ->
    let eco := register_at env (attempts st) _ATK_GPU_ECO_ID in
    let mux := register_at env (S (attempts st)) _ATK_GPU_MUX_ID in
    let result := fst (_get_gpu_mode env st) in
    let st' := snd (_get_gpu_mode env st) in
    (mux = Some 0 -> result = PyStr "Ultimate") /\
    (mux <> Some 0 -> eco = Some 1 -> result = PyStr "Eco") /\
    (mux <> Some 0 -> eco <> Some 1 -> eco <> None \/ mux <> None ->
     result = PyStr "Standard") /\
    (eco = None -> mux = None -> result = PyNone) /\
    attempts st' = S (S (attempts st)) /\
    _cached_gpu_mode st' = PyNone /\
    attempts (snd (_get_gpu_mode env st')) = S (S (S (S (attempts st)))) /\
    (forall st2,
        is_not_None (_cached_gpu_mode st2) = true ->
        _get_gpu_mode env st2 = (_cached_gpu_mode st2, st2)).
Proof.
  intros env st Hnone eco mux result st'.
  assert (Hrun : forall s,
             _cached_gpu_mode s = PyNone ->
             let e := register_at env (attempts s) _ATK_GPU_ECO_ID in
             let m := register_at env (S (attempts s)) _ATK_GPU_MUX_ID in
             fst (_get_gpu_mode env s) =
               match e, m with
               | None, None => PyNone
               | _, _ =>
                   if match m with Some v => v =? 0 | None => false end
                   then PyStr "Ultimate"
                   else if match e with Some v => v =? 1 | None => false end
                        then PyStr "Eco" else PyStr "Standard"
               end /\
             attempts (snd (_get_gpu_mode env s)) = S (S (attempts s)) /\
             _cached_gpu_mode (snd (_get_gpu_mode env s)) = PyNone).
  { intros s Hs e m. subst e m.
    unfold _get_gpu_mode. run_monad. rewrite Hs. cbn [is_not_None].
    destruct (atk_read_device_frame env _ATK_GPU_ECO_ID s)
      as [He [Ha1 [_ [_ Hg1]]]].
    destruct (_atk_read_device env _ATK_GPU_ECO_ID s) as [e s1].
    destruct (atk_read_device_frame env _ATK_GPU_MUX_ID s1)
      as [Hm [Ha2 [_ [_ Hg2]]]].
    destruct (_atk_read_device env _ATK_GPU_MUX_ID s1) as [m s2].
    cbn [fst snd] in *. rewrite Ha1 in Hm. subst e m.
    split; [reflexivity|]. split; congruence. }
  destruct (Hrun st Hnone) as [Hres [Hatt Hcache]].
  fold eco mux result st' in Hres, Hatt, Hcache.
  destruct (Hrun st' Hcache) as [_ [Hatt2 _]].
  assert (Hzero : forall o : option Z,
             match o with Some v => v =? 0 | None => false end = true
             <-> o = Some 0).
  { intros [v|]; [|split; discriminate].
    rewrite Z.eqb_eq. split; [intros ->; reflexivity | intros [= ->]; reflexivity]. }
  assert (Hone : forall o : option Z,
             match o with Some v => v =? 1 | None => false end = true
             <-> o = Some 1).
  { intros [v|]; [|split; discriminate].
    rewrite Z.eqb_eq. split; [intros ->; reflexivity | intros [= ->]; reflexivity]. }
  repeat split.
  - intros Hm. rewrite Hres. rewrite Hm. cbn. destruct eco; reflexivity.
  - intros Hm He. rewrite Hres. rewrite He.
    destruct (match mux with Some v => v =? 0 | None => false end) eqn:E.
    + apply Hzero in E. contradiction.
    + cbn. destruct mux; reflexivity.
  - intros Hm He Hsome. rewrite Hres.
    destruct (match mux with Some v => v =? 0 | None => false end) eqn:E;
      [apply Hzero in E; contradiction|].
    destruct (match eco with Some v => v =? 1 | None => false end) eqn:E1;
      [apply Hone in E1; contradiction|].
    destruct eco, mux; try reflexivity. destruct Hsome; congruence.
  - intros He Hm. rewrite Hres, He, Hm. reflexivity.
  - exact Hatt.
  - exact Hcache.
  - rewrite Hatt2, Hatt. reflexivity.
  - intros st2 H2. apply (get_mode_cached env Gpu st2 H2).
Qed.

Lemma gpu_mode_detection_witness :
  let env :=
    laptop (scripted [TransferOk (reply_with 65537);
                      TransferOk (reply_with 65536)]) true in
  let st := boot_state Missing in
  let eco := register_at env (attempts st) _ATK_GPU_ECO_ID in
  let mux := register_at env (S (attempts st)) _ATK_GPU_MUX_ID in
  let result := fst (_get_gpu_mode env st) in
  let st' := snd (_get_gpu_mode env st) in
  (eco = Some 1 /\ mux = Some 0 /\ result = PyStr "Ultimate") /\
  (mux = Some 0 -> result = PyStr "Ultimate") /\
  (mux <> Some 0 -> eco = Some 1 -> result = PyStr "Eco") /\
  (mux <> Some 0 -> eco <> Some 1 -> eco <> None \/ mux <> None ->
   result = PyStr "Standard") /\
  (eco = None -> mux = None -> result = PyNone) /\
  attempts st' = S (S (attempts st)) /\
  _cached_gpu_mode st' = PyNone /\
  attempts (snd (_get_gpu_mode env st')) = S (S (S (S (attempts st)))) /\
  (forall st2,
      is_not_None (_cached_gpu_mode st2) = true ->
      _get_gpu_mode env st2 = (_cached_gpu_mode st2, st2)).
Proof.
  intros env st eco mux result st'. split.
  - repeat split; vm_compute; reflexivity.
  - apply (gpu_mode_detection env st). reflexivity.
Defined.

(* ================================================================== *)
(** * Further properties of the code                                    *)
(* ================================================================== *)

(* ------------------------------------------------------------------ *)
(** ** Packet framing                                                   *)
(* ------------------------------------------------------------------ *)

Lemma u32_field (v : Z) (rest : list byte) :
  0 <= v < 2 ^ 32 ->
  Struct.le_unsigned (firstn 4 (Struct.pack_u32 v ++ rest)) = v.
Proof.
  intros Hv.
  change (firstn 4 (Struct.pack_u32 v ++ rest)) with (Struct.pack_u32 v).
  rewrite le_unsigned_pack_u32. apply Z.mod_small. exact Hv.
Qed.

(** X1: a request packet is always 16 bytes, and its four little-endian
    fields at offsets 0, 4, 8 and 12 read back as the method ID, the
    payload length, the device ID and the value that were packed, for all
    values that fit 32 bits.  Hence two write requests are equal only for
    the same device and value, and no write request is a read request. *)
Theorem request_packet_fields :
  forall a b c d : Z,
    0 <= a < 2 ^ 32 -> 0 <= b < 2 ^ 32 ->
    0 <= c < 2 ^ 32 -> 0 <= d < 2 ^ 32 ->
    let pkt := Struct.pack_IIII a b c d in
    List.length pkt = 16%nat /\
    Struct.le_unsigned (firstn 4 pkt) = a /\
    Struct.le_unsigned (firstn 4 (skipn 4 pkt)) = b /\
    Struct.le_unsigned (firstn 4 (skipn 8 pkt)) = c /\
    Struct.le_unsigned (firstn 4 (skipn 12 pkt)) = d /\
    (forall c' d',
        0 <= c' < 2 ^ 32 -> 0 <= d' < 2 ^ 32 ->
        write_packet c d = write_packet c' d' -> c = c' /\ d = d') /\
    (forall c', write_packet c d <> read_packet c').
Proof.
  intros a b c d Ha Hb Hc Hd pkt.
  assert (Hfields : forall a b c d,
             0 <= a < 2 ^ 32 -> 0 <= b < 2 ^ 32 ->
             0 <= c < 2 ^ 32 -> 0 <= d < 2 ^ 32 ->
             Struct.le_unsigned (firstn 4 (Struct.pack_IIII a b c d)) = a /\
             Struct.le_unsigned
               (firstn 4 (skipn 4 (Struct.pack_IIII a b c d))) = b /\
             Struct.le_unsigned
               (firstn 4 (skipn 8 (Struct.pack_IIII a b c d))) = c /\
             Struct.le_unsigned
               (firstn 4 (skipn 12 (Struct.pack_IIII a b c d))) = d).
  { intros a0 b0 c0 d0 Ha0 Hb0 Hc0 Hd0. unfold Struct.pack_IIII.
    split; [apply u32_field; exact Ha0|].
    split; [change (skipn 4 (Struct.pack_u32 a0 ++ ?r)) with r;
            apply u32_field; exact Hb0|].
    split.
    - change (skipn 8 (Struct.pack_u32 a0 ++ Struct.pack_u32 b0 ++
                       Struct.pack_u32 c0 ++ Struct.pack_u32 d0))
        with (Struct.pack_u32 c0 ++ Struct.pack_u32 d0)%list.
      apply u32_field; exact Hc0.
    - change (skipn 12 (Struct.pack_u32 a0 ++ Struct.pack_u32 b0 ++
                        Struct.pack_u32 c0 ++ Struct.pack_u32 d0))
        with (Struct.pack_u32 d0 ++ [])%list.
      apply u32_field; exact Hd0. }
  destruct (Hfields a b c d Ha Hb Hc Hd) as [Fa [Fb [Fc Fd]]].
  split; [reflexivity|].
  split; [exact Fa|]. split; [exact Fb|]. split; [exact Fc|].
  split; [exact Fd|].
  assert (Hdevs : 0 <= _DEVS < 2 ^ 32) by (vm_compute; split; congruence).
  assert (Hdsts : 0 <= _DSTS < 2 ^ 32) by (vm_compute; split; congruence).
  assert (H8 : 0 <= 8 < 2 ^ 32) by (vm_compute; split; congruence).
  split.
  - intros c' d' Hc' Hd' Heq. unfold write_packet in Heq.
    destruct (Hfields _DEVS 8 c d Hdevs H8 Hc Hd) as [_ [_ [G1 G2]]].
    destruct (Hfields _DEVS 8 c' d' Hdevs H8 Hc' Hd') as [_ [_ [G3 G4]]].
    rewrite Heq in G1, G2. split; congruence.
  - intros c' Heq. unfold write_packet, read_packet in Heq.
    apply (f_equal (fun p => nth 1 p x00)) in Heq. vm_compute in Heq.
    discriminate Heq.
Qed.

Lemma request_packet_fields_witness :
  let pkt := Struct.pack_IIII _DEVS 8 _ATK_CPU_MODE_ID 1 in
  List.length pkt = 16%nat /\
  Struct.le_unsigned (firstn 4 pkt) = _DEVS /\
  Struct.le_unsigned (firstn 4 (skipn 4 pkt)) = 8 /\
  Struct.le_unsigned (firstn 4 (skipn 8 pkt)) = _ATK_CPU_MODE_ID /\
  Struct.le_unsigned (firstn 4 (skipn 12 pkt)) = 1 /\
  (forall c' d',
      0 <= c' < 2 ^ 32 -> 0 <= d' < 2 ^ 32 ->
      write_packet _ATK_CPU_MODE_ID 1 = write_packet c' d' ->
      _ATK_CPU_MODE_ID = c' /\ 1 = d') /\
  (forall c', write_packet _ATK_CPU_MODE_ID 1 <> read_packet c').
Proof.
  apply (request_packet_fields _DEVS 8 _ATK_CPU_MODE_ID 1);
    vm_compute; split; congruence.
Defined.

(* ------------------------------------------------------------------ *)
(** ** Reads in terms of the raw reply                                  *)
(* ------------------------------------------------------------------ *)

Lemma fan_value_of_raw (raw : Z) :
  fan_rpm_of_val (fan_decode raw) =
    if (1 <=? raw) && (raw <=? 100) then Some (raw * 100)
    else if (65537 <=? raw) && (raw <=? 65636)
         then Some ((raw - 65536) * 100)
         else None.
Proof.
  rewrite fan_decode_cases. unfold fan_rpm_of_val. rewrite !Z.gtb_ltb.
  destruct (raw <? 65536) eqn:E0;
    destruct (1 <=? raw) eqn:E1; destruct (raw <=? 100) eqn:E2;
    destruct (65537 <=? raw) eqn:E3; destruct (raw <=? 65636) eqn:E4;
    cbn [andb];
    rewrite ?Z.ltb_lt, ?Z.ltb_ge, ?Z.leb_le, ?Z.leb_gt in *; try lia.
  all: try (destruct (raw <=? 0) eqn:E5; destruct (100 <? raw) eqn:E6;
            cbn [orb];
            rewrite ?Z.ltb_lt, ?Z.ltb_ge, ?Z.leb_le, ?Z.leb_gt in *;
            try lia; reflexivity).
  all: destruct (raw - 65536 <=? 0) eqn:E5;
    destruct (100 <? raw - 65536) eqn:E6; cbn [orb];
    rewrite ?Z.ltb_lt, ?Z.ltb_ge, ?Z.leb_le, ?Z.leb_gt in *;
    try lia; reflexivity.
Qed.

(** X2: a fan read yields an RPM for exactly two ranges of the raw reply
    value: 65537..65636, where the 65536 bias is removed, and 1..100,
    where the raw value is taken unchanged because the re-added bias
    restores it; the RPM is 100 times the value.  Every other raw value,
    a failed transfer and a device that cannot be opened yield nothing. *)
Theorem fan_read_by_raw_value :
  forall (env : Env) (st : State) (device_id : Z) (written : list byte)
         (raw : Z),
    driver env (attempts st) (read_packet device_id) = TransferOk written ->
    reply_raw written = Some raw ->
    fst (_atk_read_fan env device_id st) =
      (if (1 <=? raw) && (raw <=? 100) then Some (raw * 100)
       else if (65537 <=? raw) && (raw <=? 65636)
            then Some ((raw - 65536) * 100)
            else None) /\
    (forall env2 st2 id2,
        (forall w, driver env2 (attempts st2) (read_packet id2)
                   <> TransferOk w) ->
        fst (_atk_read_fan env2 id2 st2) = None).
Proof.
  intros env st device_id written raw Hdrv Hraw. split.
  - rewrite atk_read_fan_result. unfold fan_at. rewrite Hdrv, Hraw.
    apply fan_value_of_raw.
  - intros env2 st2 id2 Hfail.
    rewrite atk_read_fan_result. unfold fan_at.
    destruct (driver env2 (attempts st2) (read_packet id2)) as [| |w] eqn:E;
      try reflexivity.
    exfalso. apply (Hfail w). reflexivity.
Qed.

Lemma fan_read_by_raw_value_witness :
  let env := laptop (always (TransferOk (reply_with 42))) true in
  let st := boot_state Missing in
  fst (_atk_read_fan env _ATK_GPU_FAN_ID st) = Some 4200 /\
  (forall env2 st2 id2,
      (forall w, driver env2 (attempts st2) (read_packet id2)
                 <> TransferOk w) ->
      fst (_atk_read_fan env2 id2 st2) = None).
Proof.
  intros env st.
  apply (fan_read_by_raw_value env st _ATK_GPU_FAN_ID (reply_with 42) 42);
    reflexivity.
Defined.

Lemma cpu_mode_of_register (v : Z) :
  (if v <? 0 then PyNone else of_option_str (get Z.eqb _CPU_MODE_MAP v)) =
    if (0 <=? v) && (v <=? 4)
    then PyStr (nth (Z.to_nat v)
                  ["Balanced"; "Turbo"; "Silent"; "Performance"; "Manual"] "")
    else PyNone.
Proof.
  assert (Hcases : v < 0 \/ v = 0 \/ v = 1 \/ v = 2 \/ v = 3 \/ v = 4 \/ 4 < v)
    by lia.
  destruct Hcases as [H|[H|[H|[H|[H|[H|H]]]]]]; try (subst v; reflexivity).
  - assert (E : (v <? 0) = true) by (apply Z.ltb_lt; exact H).
    assert (E' : (0 <=? v) = false) by (apply Z.leb_gt; exact H).
    rewrite E, E'. reflexivity.
  - assert (E : (v <? 0) = false) by (apply Z.ltb_ge; lia).
    assert (E' : (v <=? 4) = false) by (apply Z.leb_gt; exact H).
    rewrite E, E', andb_false_r.
    unfold _CPU_MODE_MAP. cbn [get].
    assert (N : forall k, 0 <= k <= 4 -> (k =? v) = false)
      by (intros k Hk; apply Z.eqb_neq; lia).
    rewrite !N by lia. reflexivity.
Qed.

Lemma read_cpu_mode_from_hw_run (env : Env) (st : State) :
  _read_cpu_mode_from_hw env st =
    (match register_at env (attempts st) _ATK_CPU_MODE_ID with
     | None => PyNone
     | Some v =>
         if v <? 0 then PyNone else of_option_str (get Z.eqb _CPU_MODE_MAP v)
     end,
     snd (device_io_control env (read_packet _ATK_CPU_MODE_ID) st)).
Proof.
  unfold _read_cpu_mode_from_hw, _atk_read_device, register_at,
    read_packet, device_io_control.
  run_monad.
  destruct (driver env (attempts st)
              (Struct.pack_IIII _DSTS 8 _ATK_CPU_MODE_ID 0)) as [| |w];
    reflexivity.
Qed.

Lemma cpu_mode_of_raw_reply (env : Env) (st : State) (written : list byte)
  (raw : Z) :
  driver env (attempts st) (read_packet _ATK_CPU_MODE_ID)
    = TransferOk written ->
  reply_raw written = Some raw ->
  fst (_read_cpu_mode_from_hw env st) =
    (if (65536 <=? raw) && (raw <=? 65540)
     then PyStr (nth (Z.to_nat (raw - 65536))
                   ["Balanced"; "Turbo"; "Silent"; "Performance"; "Manual"]
                   "")
     else PyNone).
Proof.
  intros Hdrv Hraw. rewrite read_cpu_mode_from_hw_run. cbn [fst].
  unfold register_at. rewrite Hdrv, Hraw. cbn [option_map].
  unfold device_decode. rewrite cpu_mode_of_register.
  replace (0 <=? raw - 65536) with (65536 <=? raw)
    by (destruct (65536 <=? raw) eqn:E1;
        destruct (0 <=? raw - 65536) eqn:E2;
        rewrite ?Z.leb_le, ?Z.leb_gt in *; try reflexivity; lia).
  replace (raw - 65536 <=? 4) with (raw <=? 65540)
    by (destruct (raw <=? 65540) eqn:E1;
        destruct (raw - 65536 <=? 4) eqn:E2;
        rewrite ?Z.leb_le, ?Z.leb_gt in *; try reflexivity; lia).
  reflexivity.
Qed.

(** X3: the hardware read of the CPU mode understands exactly the raw
    reply values 65536..65540, as Balanced, Turbo, Silent, Performance
    and Manual in that order; any other raw value, a failed transfer or a
    device that cannot be opened give no mode.  Whatever the outcome, it
    makes one attempt, for the CPU-mode register (logged unless the
    device could not be opened), and changes neither global nor the
    file. *)
Theorem cpu_mode_read_by_raw_value :
  forall (env : Env) (st : State) (written : list byte) (raw : Z),
    driver env (attempts st) (read_packet _ATK_CPU_MODE_ID)
      = TransferOk written ->
    reply_raw written = Some raw ->
    fst (_read_cpu_mode_from_hw env st) =
      (if (65536 <=? raw) && (raw <=? 65540)
       then PyStr (nth (Z.to_nat (raw - 65536))
                     ["Balanced"; "Turbo"; "Silent"; "Performance"; "Manual"]
                     "")
       else PyNone) /\
    (forall env2 st2,
        let outcome :=
          driver env2 (attempts st2) (read_packet _ATK_CPU_MODE_ID) in
        let st2' := snd (_read_cpu_mode_from_hw env2 st2) in
        attempts st2' = S (attempts st2) /\
        transfers st2' =
          match outcome with
          | OpenFailed => transfers st2
          | _ => read_packet _ATK_CPU_MODE_ID :: transfers st2
          end /\
        same_store st2 st2' /\
        ((forall w, outcome <> TransferOk w) ->
         fst (_read_cpu_mode_from_hw env2 st2) = PyNone)).
Proof.
  intros env st written raw Hdrv Hraw.
  split; [exact (cpu_mode_of_raw_reply env st written raw Hdrv Hraw)|].
  intros env2 st2 outcome st2'. subst outcome st2'.
  rewrite read_cpu_mode_from_hw_run. cbn [fst snd].
  destruct (device_io_control_spec env2 (read_packet _ATK_CPU_MODE_ID) st2)
    as [_ [Ha [Hs Ht]]].
  split; [exact Ha|]. split; [exact Ht|]. split; [exact Hs|].
  intros Hfail. unfold register_at.
  destruct (driver env2 (attempts st2) (read_packet _ATK_CPU_MODE_ID))
    as [| |w] eqn:E; try reflexivity.
  exfalso. apply (Hfail w). reflexivity.
Qed.

Lemma cpu_mode_read_by_raw_value_witness :
  let env := laptop (always (TransferOk (reply_with 65538))) true in
  let st := boot_state Missing in
  fst (_read_cpu_mode_from_hw env st) = PyStr "Silent" /\
  (forall env2 st2,
      let outcome :=
        driver env2 (attempts st2) (read_packet _ATK_CPU_MODE_ID) in
      let st2' := snd (_read_cpu_mode_from_hw env2 st2) in
      attempts st2' = S (attempts st2) /\
      transfers st2' =
        match outcome with
        | OpenFailed => transfers st2
        | _ => read_packet _ATK_CPU_MODE_ID :: transfers st2
        end /\
      same_store st2 st2' /\
      ((forall w, outcome <> TransferOk w) ->
       fst (_read_cpu_mode_from_hw env2 st2) = PyNone)).
Proof.
  intros env st.
  apply (cpu_mode_read_by_raw_value env st (reply_with 65538) 65538);
    reflexivity.
Defined.

(* ------------------------------------------------------------------ *)
(** ** Start-up and the cache file                                      *)
(* ------------------------------------------------------------------ *)

Lemma restart_on_windows (env : Env) (st : State) :
  os_name env = "nt" ->
  restart env st =
    snd ((loaded <- _load_mode_cache env ;;
          modify (set_cached_cpu (fst loaded)) ;;;
          modify (set_cached_gpu (snd loaded))) (forget_globals st)).
Proof.
  intros Hos. unfold restart, module_init. rewrite Hos.
  change (String.eqb "nt" "nt") with true. reflexivity.
Qed.

Lemma restart_off_windows (env : Env) (st : State) :
  os_name env <> "nt" -> restart env st = forget_globals st.
Proof.
  intros Hos. unfold restart, module_init.
  destruct (String.eqb (os_name env) "nt") eqn:E.
  - apply String.eqb_eq in E. contradiction.
  - reflexivity.
Qed.

(** X4: on Windows, when the cache file parses to a JSON object,
    start-up takes both modes from it and never touches the device; a key
    that is missing from the object gives [None] for that mode, without
    any fall-back to the hardware (so the object [{}] leaves both modes
    unknown). *)
Theorem startup_from_json_object :
  forall (env : Env) (st : State) (items : list (string * value)),
    os_name env = "nt" ->
    cache_file st = Json (PyDict items) ->
    let st' := restart env st in
    _cached_cpu_mode st' = get_default String.eqb items "cpu_mode" PyNone /\
    _cached_gpu_mode st' = get_default String.eqb items "gpu_mode" PyNone /\
    attempts st' = attempts st /\
    transfers st' = transfers st /\
    cache_file st' = cache_file st /\
    (items = [] -> _cached_cpu_mode st' = PyNone /\
                   _cached_gpu_mode st' = PyNone).
Proof.
  intros env st items Hos Hfile st'. subst st'.
  rewrite (restart_on_windows env st Hos).
  unfold _load_mode_cache, forget_globals.
  run_monad. cbn [cache_file]. rewrite Hfile.
  cbn [json_get fst snd set_cached_cpu set_cached_gpu attempts transfers
         cache_file _cached_cpu_mode _cached_gpu_mode].
  do 5 (split; [reflexivity|]).
  intros ->. split; reflexivity.
Qed.

Lemma startup_from_json_object_witness :
  let env := laptop (always (TransferOk (reply_with 65537))) true in
  let st := mkState 3 [] (Json (PyDict [("gpu_mode", PyStr "Eco")]))
              (PyStr "Turbo") PyNone in
  let st' := restart env st in
  _cached_cpu_mode st'
    = get_default String.eqb [("gpu_mode", PyStr "Eco")] "cpu_mode" PyNone /\
  _cached_gpu_mode st'
    = get_default String.eqb [("gpu_mode", PyStr "Eco")] "gpu_mode" PyNone /\
  attempts st' = attempts st /\
  transfers st' = transfers st /\
  cache_file st' = cache_file st /\
  ([("gpu_mode", PyStr "Eco")] = [] ->
   _cached_cpu_mode st' = PyNone /\ _cached_gpu_mode st' = PyNone).
Proof.
  intros env st.
  apply (startup_from_json_object env st [("gpu_mode", PyStr "Eco")]);
    reflexivity.
Defined.

Lemma restart_without_dict (env : Env) (st : State) :
  os_name env = "nt" ->
  dict_items (cache_file st) = None ->
  _cached_cpu_mode (restart env st) = fst (_read_cpu_mode_from_hw env st) /\
  _cached_gpu_mode (restart env st) = PyNone /\
  attempts (restart env st) = S (attempts st) /\
  cache_file (restart env st) = cache_file st /\
  sends_only [read_packet _ATK_CPU_MODE_ID] st (restart env st).
Proof.
  intros Hos Hnot.
  assert (Hload : _load_mode_cache env (forget_globals st) =
                  let r := _read_cpu_mode_from_hw env (forget_globals st) in
                  ((fst r, PyNone), snd r)).
  { unfold _load_mode_cache. run_monad.
    change (cache_file (forget_globals st)) with (cache_file st).
    destruct (cache_file st) as [| |v]; cbn [dict_items] in Hnot.
    - destruct (_read_cpu_mode_from_hw env (forget_globals st)); reflexivity.
    - destruct (_read_cpu_mode_from_hw env (forget_globals st)); reflexivity.
    - destruct v; try discriminate Hnot; cbn [json_get];
        destruct (_read_cpu_mode_from_hw env (forget_globals st));
        reflexivity. }
  assert (Hhw : forall s,
             _read_cpu_mode_from_hw env (forget_globals s) =
               (fst (_read_cpu_mode_from_hw env s),
                snd (device_io_control env (read_packet _ATK_CPU_MODE_ID)
                       (forget_globals s)))).
  { intros s.
    unfold _read_cpu_mode_from_hw, _atk_read_device, read_packet,
      device_io_control, forget_globals.
    run_monad. cbn [attempts].
    destruct (driver env (attempts s)
                (Struct.pack_IIII _DSTS 8 _ATK_CPU_MODE_ID 0));
      reflexivity. }
  rewrite (restart_on_windows env st Hos).
  run_monad. rewrite Hload. cbv zeta.
  rewrite Hhw. cbn [fst snd].
  unfold device_io_control, forget_globals, set_cached_cpu, set_cached_gpu,
    sends_only.
  cbn [fst snd attempts transfers cache_file _cached_cpu_mode
         _cached_gpu_mode].
  do 4 (split; [reflexivity|]).
  intros pkt Hin.
  destruct (driver env (attempts st) (read_packet _ATK_CPU_MODE_ID));
    cbn [In] in *; tauto.
Qed.

(** X5: on Windows, when the cache file is missing, unreadable, or holds
    JSON that is not an object, start-up makes exactly one device
    attempt, the read of the CPU-mode register, takes the CPU mode from
    it and leaves the GPU mode unknown; the file is not created or
    repaired.  Off Windows start-up reads neither the file nor the
    device: the state is left as it is, with no mode in memory. *)
Theorem startup_without_json_object :
  forall (env : Env) (st : State),
    os_name env = "nt" ->
    dict_items (cache_file st) = None ->
    let st' := restart env st in
    _cached_cpu_mode st' = fst (_read_cpu_mode_from_hw env st) /\
    _cached_gpu_mode st' = PyNone /\
    attempts st' = S (attempts st) /\
    cache_file st' = cache_file st /\
    sends_only [read_packet _ATK_CPU_MODE_ID] st st' /\
    (forall env2 st2,
        os_name env2 <> "nt" ->
        restart env2 st2 =
          mkState (attempts st2) (transfers st2) (cache_file st2)
            PyNone PyNone).
Proof.
  intros env st Hos Hnot st'. subst st'.
  destruct (restart_without_dict env st Hos Hnot) as [A [B [C [D E]]]].
  do 5 (split; [assumption|]).
  intros env2 st2 Hos2. apply restart_off_windows. exact Hos2.
Qed.

Lemma startup_without_json_object_witness :
  let env := laptop (always (TransferOk (reply_with 65539))) true in
  let st := boot_state (Json (PyList [PyStr "Turbo"; PyStr "Eco"])) in
  let st' := restart env st in
  _cached_cpu_mode st' = PyStr "Performance" /\
  _cached_gpu_mode st' = PyNone /\
  attempts st' = S (attempts st) /\
  cache_file st' = cache_file st /\
  sends_only [read_packet _ATK_CPU_MODE_ID] st st' /\
  (forall env2 st2,
      os_name env2 <> "nt" ->
      restart env2 st2 =
        mkState (attempts st2) (transfers st2) (cache_file st2)
          PyNone PyNone).
Proof.
  intros env st.
  apply (startup_without_json_object env st); reflexivity.
Defined.

(* ------------------------------------------------------------------ *)
(** ** Mode names                                                       *)
(* ------------------------------------------------------------------ *)

Lemma lower_char_idempotent (c : ascii) :
  lower_char (lower_char c) = lower_char c.
Proof.
  destruct c as [[|] [|] [|] [|] [|] [|] [|] [|]]; reflexivity.
Qed.

Lemma lower_idempotent (s : string) : lower (lower s) = lower s.
Proof.
  induction s as [|c rest IH]; cbn [lower].
  - reflexivity.
  - rewrite lower_char_idempotent, IH. reflexivity.
Qed.

Lemma set_cpu_mode_by_key (env : Env) (m1 m2 : string) (st : State) :
  lower m1 = lower m2 ->
  _set_cpu_mode env m1 st = _set_cpu_mode env m2 st.
Proof.
  intros Hlow. unfold _set_cpu_mode. rewrite Hlow.
  remember (lower m2) as key eqn:Hkey.
  destruct (get String.eqb _CPU_MODE_WRITE_MAP key) as [val|] eqn:Hget;
    [|reflexivity].
  destruct (cpu_key_cases key val Hget) as [[-> ->]|[[-> ->]|[[-> ->]|[-> ->]]]];
    reflexivity.
Qed.

Lemma set_gpu_mode_by_key (env : Env) (m1 m2 : string) (st : State) :
  lower m1 = lower m2 ->
  _set_gpu_mode env m1 st = _set_gpu_mode env m2 st.
Proof.
  intros Hlow. unfold _set_gpu_mode. rewrite Hlow.
  remember (lower m2) as key eqn:Hkey. cbv zeta.
  destruct (String.eqb key "eco") eqn:E0.
  - apply String.eqb_eq in E0. subst key. rewrite E0. reflexivity.
  - destruct (String.eqb key "standard") eqn:E1; [|reflexivity].
    apply String.eqb_eq in E1. subst key. rewrite E1. reflexivity.
Qed.

(** X7: mode names are case-insensitive for the two write functions: two
    names with the same lower-case form give the same result and the same
    state, in particular a name and its lower-case form do.  What is
    stored is the canonical capitalization, never the caller's
    spelling. *)
Theorem mode_names_are_case_insensitive :
  forall (env : Env) (a : Axis) (m1 m2 : string) (st : State),
    lower m1 = lower m2 ->
    set_mode env a m1 st = set_mode env a m2 st /\
    set_mode env a m1 st = set_mode env a (lower m1) st /\
    In (cached a (snd (set_mode env a m1 st)))
       (cached a st :: map PyStr (writable_names a)).
Proof.
  intros env a m1 m2 st Hlow.
  assert (Hkey : forall x y, lower x = lower y ->
                             set_mode env a x st = set_mode env a y st).
  { intros x y H. destruct a; cbn [set_mode].
    - apply set_cpu_mode_by_key. exact H.
    - apply set_gpu_mode_by_key. exact H. }
  split; [apply Hkey; exact Hlow|].
  split; [apply Hkey; symmetry; apply lower_idempotent|].
  destruct (fst (set_mode env a m1 st)) eqn:Hok.
  - destruct (set_mode env a m1 st) as [ok st'] eqn:Hset.
    cbn [fst snd] in *. subst ok.
    destruct (set_mode_true_inv env a m1 st st' Hset)
      as [name [pkt [w [Hin [_ [_ [_ ->]]]]]]].
    destruct (written_state_cached env a name pkt st) as [Hc _].
    rewrite Hc. right. apply in_map. exact Hin.
  - left. symmetry. apply same_store_cached.
    apply set_mode_false_same_store. exact Hok.
Qed.

Lemma mode_names_are_case_insensitive_witness :
  let env := laptop (always (TransferOk [])) true in
  let st := boot_state Missing in
  set_mode env Cpu "SiLeNt" st = set_mode env Cpu "silent" st /\
  set_mode env Cpu "SiLeNt" st = set_mode env Cpu (lower "SiLeNt") st /\
  In (cached Cpu (snd (set_mode env Cpu "SiLeNt" st)))
     (cached Cpu st :: map PyStr (writable_names Cpu)).
Proof.
  intros env st.
  apply (mode_names_are_case_insensitive env Cpu "SiLeNt" "silent" st).
  reflexivity.
Defined.

(** X8: the code a successful CPU mode write sends is the code the
    read table maps back to the stored name: after the write, the
    request on top of the log is the write of a code in 0..3 to the
    CPU-mode register, and a hardware read answered with that code plus
    the 65536 bias returns exactly the mode now held in memory.  No write
    ever sends code 4, the code of Manual. *)
Theorem written_code_reads_back :
  forall (env : Env) (mode : string) (st st' : State),
    _set_cpu_mode env mode st = (true, st') ->
    exists code,
      0 <= code <= 3 /\
      transfers st' = write_packet _ATK_CPU_MODE_ID code :: transfers st /\
      (forall env2 st2,
          driver env2 (attempts st2) (read_packet _ATK_CPU_MODE_ID)
            = TransferOk (reply_with (65536 + code)) ->
          fst (_read_cpu_mode_from_hw env2 st2) = _cached_cpu_mode st').
Proof.
  intros env mode st st' Hset.
  pose proof (set_cpu_mode_spec env mode st) as H.
  destruct (get String.eqb _CPU_MODE_WRITE_MAP (lower mode)) as [val|] eqn:Hget;
    [|congruence].
  cbv zeta in H.
  destruct (driver env (attempts st) (write_packet _ATK_CPU_MODE_ID val))
    as [| |w] eqn:Hdrv; try congruence.
  destruct H as [name [Hin [Hlow Heq]]].
  rewrite Heq in Hset. injection Hset as <-.
  exists val.
  assert (Hcases :
            (val = 0 /\ name = "Balanced") \/ (val = 1 /\ name = "Turbo") \/
            (val = 2 /\ name = "Silent") \/ (val = 3 /\ name = "Performance")).
  { destruct (cpu_key_cases _ _ Hget) as [[K ->]|[[K ->]|[[K ->]|[K ->]]]];
      rewrite K in Hlow;
      cbn [writable_names In] in Hin;
      destruct Hin as [<-|[<-|[<-|[<-|[]]]]]; try discriminate Hlow; auto 6. }
  split; [lia|]. split; [reflexivity|].
  intros env2 st2 Hecho.
  assert (Hrange : - 2 ^ 31 <= 65536 + val < 2 ^ 31)
    by (change (2 ^ 31) with 2147483648; lia).
  rewrite (cpu_mode_of_raw_reply env2 st2 _ _ Hecho
             (reply_raw_reply_with _ Hrange)).
  destruct Hcases as [[-> ->]|[[-> ->]|[[-> ->]|[-> ->]]]]; reflexivity.
Qed.

Lemma written_code_reads_back_witness :
  let env := laptop (always (TransferOk [])) true in
  let st := boot_state Missing in
  exists code,
    0 <= code <= 3 /\
    transfers (snd (_set_cpu_mode env "Performance" st))
      = write_packet _ATK_CPU_MODE_ID code :: transfers st /\
    (forall env2 st2,
        driver env2 (attempts st2) (read_packet _ATK_CPU_MODE_ID)
          = TransferOk (reply_with (65536 + code)) ->
        fst (_read_cpu_mode_from_hw env2 st2)
          = _cached_cpu_mode (snd (_set_cpu_mode env "Performance" st))).
Proof.
  intros env st.
  apply (written_code_reads_back env "Performance" st
           (snd (_set_cpu_mode env "Performance" st))).
  reflexivity.
Defined.

(* ------------------------------------------------------------------ *)
(** ** [POST /modes] as a whole                                         *)
(* ------------------------------------------------------------------ *)

Lemma set_modes_on_nt (env : Env) (req : ModeSetRequest) :
  os_name env = "nt" ->
  set_modes env req =
    (cpu_errors <- set_modes_cpu env (req_cpu_mode req) ;;
     gpu_errors <- set_modes_gpu env (req_gpu_mode req) ;;
     match (cpu_errors ++ gpu_errors)%list with
     | _ :: _ =>
         ret (HTTPException 400 (join " | " (cpu_errors ++ gpu_errors)))
     | [] =>
         cpu <- _get_cpu_mode ;;
         gpu <- _get_gpu_mode env ;;
         ret match new_PerformanceModes cpu gpu with
             | Some modes => Returned modes
             | None => Unhandled "ValidationError"
             end
     end).
Proof.
  intros Hos. unfold set_modes. rewrite Hos.
  change (String.eqb "nt" "nt") with true. reflexivity.
Qed.

(** X9: off Windows, [POST /modes] answers every request with the 501
    error "Mode control only supported on Windows" and changes nothing:
    no validation, no device attempt, no change to the modes or the
    file. *)
Theorem set_modes_needs_windows :
  forall (env : Env) (req : ModeSetRequest) (st : State),
    os_name env <> "nt" ->
    set_modes env req st
      = (HTTPException 501 "Mode control only supported on Windows", st).
Proof.
  intros env req st Hos. unfold set_modes.
  destruct (String.eqb (os_name env) "nt") eqn:E.
  - apply String.eqb_eq in E. contradiction.
  - reflexivity.
Qed.

Lemma set_modes_needs_windows_witness :
  set_modes
    (mkEnv "posix" (always (TransferOk [])) SaveOk None false None None
       None None)
    (mkModeSetRequest (Some "turbo") (Some "eco")) (boot_state Missing)
  = (HTTPException 501 "Mode control only supported on Windows",
     boot_state Missing).
Proof.
  apply set_modes_needs_windows. cbn. discriminate.
Defined.

(** X10: when both names of a request are invalid, the 400 detail is the
    CPU message, then [" | "], then the GPU message, each quoting the
    name as the caller spelled it, and nothing is sent to the device or
    changed. *)
Theorem set_modes_reports_both_errors :
  forall (env : Env) (st : State) (cpu_name gpu_name : string),
    os_name env = "nt" ->
    ~ In (lower cpu_name) ["silent"; "balanced"; "turbo"; "performance"] ->
    ~ In (lower gpu_name) ["eco"; "standard"] ->
    set_modes env (mkModeSetRequest (Some cpu_name) (Some gpu_name)) st
      = (HTTPException 400
           (invalid_cpu_mode cpu_name ++ " | " ++ invalid_gpu_mode gpu_name),
         st).
Proof.
  intros env st cpu_name gpu_name Hos Hcpu Hgpu.
  rewrite (set_modes_on_nt env _ Hos).
  cbn [req_cpu_mode req_gpu_mode set_modes_cpu set_modes_gpu].
  unfold contains. rewrite (unknown_cpu_key _ Hcpu).
  rewrite (not_writable_gpu_key _ Hgpu). reflexivity.
Qed.

Lemma set_modes_reports_both_errors_witness :
  let env := laptop (always (TransferOk [])) true in
  let st := boot_state Missing in
  set_modes env (mkModeSetRequest (Some "Manual") (Some "Ultimate")) st
    = (HTTPException 400
         (invalid_cpu_mode "Manual" ++ " | " ++ invalid_gpu_mode "Ultimate"),
       st).
Proof.
  intros env st.
  apply (set_modes_reports_both_errors env st "Manual" "Ultimate").
  - reflexivity.
  - cbn. intros [H|[H|[H|[H|[]]]]]; discriminate H.
  - cbn. intros [H|[H|[]]]; discriminate H.
Defined.

(** X11: a request is not applied as a whole.  When its CPU mode is
    written successfully and its GPU name is then rejected, the response
    is the 400 error for the GPU name, yet the CPU write has been sent,
    the CPU mode in memory is the new one, and (when the file can be
    written) it has been persisted. *)
Theorem set_modes_applies_cpu_before_rejecting_gpu :
  forall (env : Env) (st st1 : State) (cpu_name gpu_name : string),
    os_name env = "nt" ->
    _set_cpu_mode env cpu_name st = (true, st1) ->
    ~ In (lower gpu_name) ["eco"; "standard"] ->
    set_modes env (mkModeSetRequest (Some cpu_name) (Some gpu_name)) st
      = (HTTPException 400 (invalid_gpu_mode gpu_name), st1) /\
    (exists name,
        In name (writable_names Cpu) /\ lower name = lower cpu_name /\
        _cached_cpu_mode st1 = PyStr name /\
        (fs_writable env = true ->
         cache_file st1 =
           Json (PyDict [("cpu_mode", PyStr name);
                         ("gpu_mode", _cached_gpu_mode st)]))) /\
    attempts st1 = S (attempts st).
Proof.
  intros env st st1 cpu_name gpu_name Hos Hset Hgpu.
  destruct (set_mode_true_inv env Cpu cpu_name st st1 Hset)
    as [name [pkt [w [Hin [Hlow [Hpkt [_ ->]]]]]]].
  split; [|split].
  - rewrite (set_modes_on_nt env _ Hos).
    cbn [req_cpu_mode req_gpu_mode set_modes_cpu set_modes_gpu].
    rewrite (mode_write_packet_cpu_contains _ _ Hpkt). cbn [negb].
    rewrite (not_writable_gpu_key _ Hgpu). cbn [negb].
    run_monad. rewrite Hset. reflexivity.
  - exists name. split; [exact Hin|]. split; [exact Hlow|].
    split; [reflexivity|].
    intros Hw. unfold written_state, fs_writable in *. cbn [cache_file].
    destruct (fs_save env); try discriminate Hw. reflexivity.
  - reflexivity.
Qed.

Lemma set_modes_applies_cpu_before_rejecting_gpu_witness :
  let env := laptop (always (TransferOk [])) true in
  let st := boot_state Missing in
  let st1 := snd (_set_cpu_mode env "turbo" st) in
  set_modes env (mkModeSetRequest (Some "turbo") (Some "ultimate")) st
    = (HTTPException 400 (invalid_gpu_mode "ultimate"), st1) /\
  (exists name,
      In name (writable_names Cpu) /\ lower name = lower "turbo" /\
      _cached_cpu_mode st1 = PyStr name /\
      (fs_writable env = true ->
       cache_file st1 =
         Json (PyDict [("cpu_mode", PyStr name);
                       ("gpu_mode", _cached_gpu_mode st)]))) /\
  attempts st1 = S (attempts st).
Proof.
  intros env st st1.
  apply (set_modes_applies_cpu_before_rejecting_gpu env st st1 "turbo"
           "ultimate").
  - reflexivity.
  - reflexivity.
  - cbn. intros [H|[H|[]]]; discriminate H.
Defined.

Lemma get_gpu_mode_optional_str (env : Env) (st : State) :
  is_optional_str (_cached_gpu_mode st) = true ->
  is_optional_str (fst (_get_gpu_mode env st)) = true.
Proof.
  intros Hg. unfold _get_gpu_mode. run_monad.
  destruct (is_not_None (_cached_gpu_mode st)); [exact Hg|].
  destruct (_atk_read_device env _ATK_GPU_ECO_ID st) as [eco st1].
  destruct (_atk_read_device env _ATK_GPU_MUX_ID st1) as [mux st2].
  cbn [fst].
  destruct eco as [e|], mux as [m|];
    try (destruct (m =? 0)); try (destruct (e =? 1)); reflexivity.
Qed.

(** X12: when both modes in memory are strings or [None], a request that
    names one mode and is accepted by the driver returns the two current
    modes, with the written axis showing the canonical name just stored.
    After a GPU write the response is built from memory alone, so the
    final state is that of the write itself; after a CPU write the GPU
    mode of the response is whatever [_get_gpu_mode] reports in the new
    state. *)
Theorem set_modes_returns_current_modes :
  forall (env : Env) (a : Axis) (mode : string) (st st1 : State),
    os_name env = "nt" ->
    is_optional_str (_cached_cpu_mode st) = true ->
    is_optional_str (_cached_gpu_mode st) = true ->
    set_mode env a mode st = (true, st1) ->
    exists modes,
      fst (set_modes env (request_for a mode) st) = Returned modes /\
      cpu_mode modes = _cached_cpu_mode st1 /\
      gpu_mode modes = fst (_get_gpu_mode env st1) /\
      In (match a with Cpu => cpu_mode modes | Gpu => gpu_mode modes end)
         (map PyStr (writable_names a)) /\
      (a = Gpu -> snd (set_modes env (request_for a mode) st) = st1).
Proof.
  intros env a mode st st1 Hos Hvc Hvg Hset.
  destruct (set_mode_true_inv env a mode st st1 Hset)
    as [name [pkt [w [Hin [Hlow [Hpkt [_ Hst1]]]]]]].
  destruct (written_state_cached env a name pkt st) as [Hc [Hother _]].
  rewrite <- Hst1 in Hc, Hother.
  rewrite (set_modes_on_nt env _ Hos).
  destruct a; cbn [request_for req_cpu_mode req_gpu_mode set_modes_cpu
                     set_modes_gpu set_mode cached] in *.
  - rewrite (mode_write_packet_cpu_contains _ _ Hpkt). cbn [negb].
    unfold _get_cpu_mode. run_monad. rewrite Hset. cbn [app].
    assert (Hg1 : is_optional_str (_cached_gpu_mode st1) = true).
    { specialize (Hother Gpu). cbn [cached] in Hother.
      rewrite Hother by discriminate. exact Hvg. }
    pose proof (get_gpu_mode_optional_str env st1 Hg1) as Hres.
    destruct (_get_gpu_mode env st1) as [g st2] eqn:Hg.
    cbn [fst] in Hres. unfold new_PerformanceModes.
    rewrite Hc, Hres. cbn [is_optional_str andb].
    eexists. split; [reflexivity|]. cbn [cpu_mode gpu_mode fst].
    split; [reflexivity|]. split; [reflexivity|].
    split; [apply in_map; exact Hin | discriminate].
  - rewrite (mode_write_packet_gpu_names _ _ Hpkt). cbn [negb].
    unfold _get_cpu_mode. run_monad. rewrite Hset. cbn [app].
    pose proof (get_mode_cached env Gpu st1) as Hget.
    cbn [get_mode cached] in Hget. rewrite Hget by (rewrite Hc; reflexivity).
    assert (Hc1 : is_optional_str (_cached_cpu_mode st1) = true).
    { specialize (Hother Cpu). cbn [cached] in Hother.
      rewrite Hother by discriminate. exact Hvc. }
    unfold new_PerformanceModes. rewrite Hc1, Hc.
    cbn [is_optional_str andb].
    eexists. split; [reflexivity|]. cbn [cpu_mode gpu_mode fst snd].
    split; [reflexivity|]. split; [reflexivity|].
    split; [apply in_map; exact Hin | reflexivity].
Qed.

Lemma set_modes_returns_current_modes_witness :
  let env := laptop (always (TransferOk [])) true in
  let st := boot_state Missing in
  let st1 := snd (set_mode env Gpu "ECO" st) in
  exists modes,
    fst (set_modes env (request_for Gpu "ECO") st) = Returned modes /\
    cpu_mode modes = _cached_cpu_mode st1 /\
    gpu_mode modes = fst (_get_gpu_mode env st1) /\
    In (gpu_mode modes) (map PyStr (writable_names Gpu)) /\
    (Gpu = Gpu -> snd (set_modes env (request_for Gpu "ECO") st) = st1).
Proof.
  intros env st st1.
  apply (set_modes_returns_current_modes env Gpu "ECO" st st1);
    reflexivity.
Defined.

(** X13: a request with neither field set validates no name and writes
    nothing, and leaves both globals and the cache file unchanged.  When
    both modes in memory are strings or [None] it returns the CPU mode
    held in memory and the GPU mode that [_get_gpu_mode] reports; when
    one of them is another kind of value, which only a cache file can
    have put there, building the response fails and no mode is
    returned. *)
Theorem set_modes_with_no_field :
  forall (env : Env) (st : State),
    os_name env = "nt" ->
    same_store st (snd (set_modes env (mkModeSetRequest None None) st)) /\
    snd (set_modes env (mkModeSetRequest None None) st)
      = snd (_get_gpu_mode env st) /\
    (is_optional_str (_cached_cpu_mode st) = true ->
     is_optional_str (_cached_gpu_mode st) = true ->
     fst (set_modes env (mkModeSetRequest None None) st) =
       Returned (mkPerformanceModes (_cached_cpu_mode st)
                   (fst (_get_gpu_mode env st)))) /\
    (is_optional_str (_cached_cpu_mode st) = false ->
     forall modes,
       fst (set_modes env (mkModeSetRequest None None) st)
         <> Returned modes).
Proof.
  intros env st Hos.
  rewrite (set_modes_on_nt env _ Hos).
  cbn [req_cpu_mode req_gpu_mode set_modes_cpu set_modes_gpu].
  unfold _get_cpu_mode. run_monad. cbn [app].
  pose proof (get_gpu_mode_frame env st) as Hs.
  pose proof (get_gpu_mode_optional_str env st) as Hres.
  destruct (_get_gpu_mode env st) as [g st2].
  cbn [fst snd] in *.
  split; [exact Hs|]. split; [reflexivity|]. split.
  - intros Hvc Hvg. unfold new_PerformanceModes.
    rewrite Hvc, (Hres Hvg). reflexivity.
  - intros Hbad modes. unfold new_PerformanceModes. rewrite Hbad.
    cbn [andb]. discriminate.
Qed.

Lemma set_modes_with_no_field_witness :
  let env := laptop (always (TransferOk (reply_with 65536))) true in
  let st := boot_state Missing in
  fst (set_modes env (mkModeSetRequest None None) st)
    = Returned (mkPerformanceModes PyNone (PyStr "Ultimate")) /\
  fst (set_modes env (mkModeSetRequest None None)
         (mkState 0 [] Missing (PyInt 5) PyNone))
    = Unhandled "ValidationError" /\
  same_store st (snd (set_modes env (mkModeSetRequest None None) st)) /\
  snd (set_modes env (mkModeSetRequest None None) st)
    = snd (_get_gpu_mode env st).
Proof.
  intros env st.
  destruct (set_modes_with_no_field env st eq_refl) as [Hs [Hst [Hok _]]].
  split; [exact (Hok eq_refl eq_refl)|].
  split; [reflexivity|]. split; [exact Hs | exact Hst].
Defined.

(* ------------------------------------------------------------------ *)
(** ** What is ever sent to the device                                  *)
(* ------------------------------------------------------------------ *)

Lemma sends_only_refl (allowed : list (list byte)) (st : State) :
  sends_only allowed st st.
Proof. intros pkt H. left. exact H. Qed.

Lemma sends_only_trans (allowed : list (list byte)) (st1 st2 st3 : State) :
  sends_only allowed st1 st2 -> sends_only allowed st2 st3 ->
  sends_only allowed st1 st3.
Proof.
  intros H12 H23 pkt Hin.
  destruct (H23 pkt Hin) as [H|H]; [apply H12; exact H | right; exact H].
Qed.

Lemma sends_only_weaken (small large : list (list byte)) (st st' : State) :
  incl small large -> sends_only small st st' -> sends_only large st st'.
Proof.
  intros Hincl H pkt Hin.
  destruct (H pkt Hin) as [Ho|Ho]; [left; exact Ho | right; apply Hincl; exact Ho].
Qed.

Lemma device_io_control_sends (env : Env) (pkt : list byte) (st : State) :
  sends_only [pkt] st (snd (device_io_control env pkt st)).
Proof.
  intros p Hin.
  destruct (device_io_control_spec env pkt st) as [_ [_ [_ Ht]]].
  rewrite Ht in Hin.
  destruct (driver env (attempts st) pkt); cbn [In] in *; tauto.
Qed.

Lemma atk_read_fan_sends (env : Env) (id : Z) (st : State) :
  sends_only [read_packet id] st (snd (_atk_read_fan env id st)).
Proof.
  pose proof (device_io_control_sends env (read_packet id) st) as H.
  unfold _atk_read_fan, read_packet in *. run_monad.
  destruct (device_io_control env (Struct.pack_IIII _DSTS 8 id 0) st).
  exact H.
Qed.

Lemma atk_read_device_sends (env : Env) (id : Z) (st : State) :
  sends_only [read_packet id] st (snd (_atk_read_device env id st)).
Proof.
  pose proof (device_io_control_sends env (read_packet id) st) as H.
  unfold _atk_read_device, read_packet in *. run_monad.
  destruct (device_io_control env (Struct.pack_IIII _DSTS 8 id 0) st).
  exact H.
Qed.

Lemma get_thermal_stats_sends (env : Env) (st : State) :
  sends_only read_requests st (snd (_get_thermal_stats env st)).
Proof.
  unfold _get_thermal_stats.
  destruct (String.eqb (os_name env) "nt"); [|apply sends_only_refl].
  unfold _atk_fan_speeds. run_monad.
  pose proof (atk_read_fan_sends env _ATK_CPU_FAN_ID st) as H1.
  destruct (_atk_read_fan env _ATK_CPU_FAN_ID st) as [cpu st1].
  pose proof (atk_read_fan_sends env _ATK_GPU_FAN_ID st1) as H2.
  destruct (_atk_read_fan env _ATK_GPU_FAN_ID st1) as [gpu st2].
  cbn [snd] in *.
  eapply sends_only_trans.
  - eapply sends_only_weaken; [|exact H1].
    intros p [<-|[]]. unfold read_requests. cbn [In]. auto.
  - eapply sends_only_weaken; [|exact H2].
    intros p [<-|[]]. unfold read_requests. cbn [In]. auto.
Qed.

Lemma get_gpu_mode_sends (env : Env) (st : State) :
  sends_only read_requests st (snd (_get_gpu_mode env st)).
Proof.
  unfold _get_gpu_mode. run_monad.
  destruct (is_not_None (_cached_gpu_mode st)); [apply sends_only_refl|].
  pose proof (atk_read_device_sends env _ATK_GPU_ECO_ID st) as H1.
  destruct (_atk_read_device env _ATK_GPU_ECO_ID st) as [eco st1].
  pose proof (atk_read_device_sends env _ATK_GPU_MUX_ID st1) as H2.
  destruct (_atk_read_device env _ATK_GPU_MUX_ID st1) as [mux st2].
  cbn [snd] in *.
  eapply sends_only_trans.
  - eapply sends_only_weaken; [|exact H1].
    intros p [<-|[]]. unfold read_requests. cbn [In]. auto.
  - eapply sends_only_weaken; [|exact H2].
    intros p [<-|[]]. unfold read_requests. cbn [In]. auto 6.
Qed.

Lemma mode_write_packet_known (a : Axis) (key : string) (pkt : list byte) :
  mode_write_packet a key = Some pkt -> In pkt write_requests.
Proof.
  destruct a; cbn [mode_write_packet].
  - destruct (get String.eqb _CPU_MODE_WRITE_MAP key) as [val|] eqn:Hget;
      [|discriminate].
    intros [= <-].
    destruct (cpu_key_cases key val Hget) as [[_ ->]|[[_ ->]|[[_ ->]|[_ ->]]]];
      unfold write_requests; cbn [In]; auto 8.
  - destruct (String.eqb key "eco");
      [intros [= <-]; unfold write_requests; cbn [In]; auto 8|].
    destruct (String.eqb key "standard"); [|discriminate].
    intros [= <-]; unfold write_requests; cbn [In]; auto 8.
Qed.

Lemma set_mode_sends (env : Env) (a : Axis) (mode : string) (st : State) :
  sends_only write_requests st (snd (set_mode env a mode st)).
Proof.
  pose proof (set_mode_spec env a mode st) as H.
  destruct (mode_write_packet a (lower mode)) as [pkt|] eqn:Hpkt.
  - apply mode_write_packet_known in Hpkt.
    assert (Hcons : forall s, transfers s = transfers st
                              \/ transfers s = pkt :: transfers st ->
                              sends_only write_requests st s).
    { intros s [Hs|Hs] p Hin; rewrite Hs in Hin; [left; exact Hin|].
      destruct Hin as [<-|Hin]; [right; exact Hpkt | left; exact Hin]. }
    destruct (driver env (attempts st) pkt) as [| |w].
    + rewrite H. apply Hcons. left. reflexivity.
    + rewrite H. apply Hcons. right. reflexivity.
    + destruct H as [name [_ [_ ->]]]. apply Hcons. right. reflexivity.
  - rewrite H. apply sends_only_refl.
Qed.

Lemma run_call_sends (env : Env) (c : Call) (st : State) :
  sends_only (if is_read_call c then read_requests else write_requests)
    st (snd (run_call env c st)).
Proof.
  destruct c as [| | |m|m]; cbn [run_call is_read_call]; run_monad.
  - apply sends_only_refl.
  - pose proof (get_gpu_mode_sends env st) as H.
    destruct (_get_gpu_mode env st). exact H.
  - pose proof (get_thermal_stats_sends env st) as H.
    destruct (_get_thermal_stats env st). exact H.
  - pose proof (set_mode_sends env Cpu m st) as H. cbn [set_mode] in H.
    destruct (_set_cpu_mode env m st). exact H.
  - pose proof (set_mode_sends env Gpu m st) as H. cbn [set_mode] in H.
    destruct (_set_gpu_mode env m st). exact H.
Qed.

Lemma run_call_read_same_store (env : Env) (c : Call) (st : State) :
  is_read_call c = true -> same_store st (snd (run_call env c st)).
Proof.
  destruct c as [| | |m|m]; cbn [run_call is_read_call]; run_monad;
    try discriminate; intros _.
  - apply same_store_refl.
  - pose proof (get_gpu_mode_frame env st) as H.
    destruct (_get_gpu_mode env st). exact H.
  - pose proof (get_thermal_stats_frame env st) as H.
    destruct (_get_thermal_stats env st). exact H.
Qed.

(** X14: whatever calls are made once the server runs, the only packets
    that reach the device are reads of the CPU-fan, GPU-fan, eco-flag and
    mux-flag registers and writes of 0..3 to the CPU-mode register and of
    0 or 1 to the eco-flag register.  The mux register is never written
    and the CPU-mode register is never read again.  A run made of mode
    reads and thermal snapshots only sends nothing but those four reads
    and leaves both modes and the cache file as they were. *)
Theorem device_traffic_is_confined :
  forall (env : Env) (calls : list Call) (st : State),
    let st' := snd (run_calls env calls st) in
    sends_only (read_requests ++ write_requests) st st' /\
    (forallb is_read_call calls = true ->
     sends_only read_requests st st' /\ same_store st st') /\
    ~ In (read_packet _ATK_CPU_MODE_ID) (read_requests ++ write_requests) /\
    (forall v, ~ In (write_packet _ATK_GPU_MUX_ID v)
                    (read_requests ++ write_requests)).
Proof.
  intros env calls st st'. subst st'.
  split; [|split; [|split]].
  - revert st. induction calls as [|c rest IH]; intros st.
    + apply sends_only_refl.
    + rewrite run_calls_cons. cbn [snd].
      eapply sends_only_trans; [|apply IH].
      eapply sends_only_weaken; [|apply run_call_sends].
      destruct (is_read_call c); intros p Hp; apply in_or_app; auto.
  - revert st. induction calls as [|c rest IH]; intros st Hall.
    + split; [apply sends_only_refl | apply same_store_refl].
    + cbn [forallb] in Hall. apply andb_prop in Hall.
      destruct Hall as [Hc Hrest].
      rewrite run_calls_cons. cbn [snd].
      destruct (IH (snd (run_call env c st)) Hrest) as [Hs Hst].
      split.
      * eapply sends_only_trans; [|exact Hs].
        pose proof (run_call_sends env c st) as H. rewrite Hc in H. exact H.
      * eapply same_store_trans; [|exact Hst].
        apply run_call_read_same_store. exact Hc.
  - vm_compute. intros H.
    repeat (destruct H as [H|H]; [discriminate H|]). exact H.
  - intros v Hin. unfold read_requests, write_requests in Hin.
    cbn [app In] in Hin.
    repeat (destruct Hin as [Hin|Hin];
            [first [ apply (f_equal (fun p => nth 1 p x00)) in Hin;
                     vm_compute in Hin; discriminate Hin
                   | apply (f_equal (fun p => nth 8 p x00)) in Hin;
                     vm_compute in Hin; discriminate Hin ]|]).
    exact Hin.
Qed.

Lemma device_traffic_is_confined_witness :
  let env := laptop (always (TransferOk (reply_with 65570))) true in
  let calls := [GetThermalStats; GetGpuMode; GetCpuMode] in
  let st := boot_state Missing in
  let st' := snd (run_calls env calls st) in
  (List.length (transfers st') = 4%nat /\
   sends_only read_requests st st' /\ same_store st st') /\
  sends_only (read_requests ++ write_requests) st st'.
Proof.
  intros env calls st st'.
  pose proof (device_traffic_is_confined env calls st) as [Hall [Hread _]].
  split; [|exact Hall].
  split; [reflexivity|]. apply Hread. reflexivity.
Defined.

(* ------------------------------------------------------------------ *)
(** ** The values the modes can take                                    *)
(* ------------------------------------------------------------------ *)

Lemma read_cpu_mode_from_hw_result (env : Env) (st : State) :
  fst (_read_cpu_mode_from_hw env st) =
    match register_at env (attempts st) _ATK_CPU_MODE_ID with
    | None => PyNone
    | Some v =>
        if v <? 0 then PyNone else of_option_str (get Z.eqb _CPU_MODE_MAP v)
    end.
Proof.
  unfold _read_cpu_mode_from_hw, _atk_read_device, register_at,
    read_packet, device_io_control.
  run_monad.
  destruct (driver env (attempts st)
              (Struct.pack_IIII _DSTS 8 _ATK_CPU_MODE_ID 0)) as [| |w];
    reflexivity.
Qed.

Lemma read_cpu_mode_known (env : Env) (st : State) :
  In (fst (_read_cpu_mode_from_hw env st)) known_cpu_modes.
Proof.
  rewrite read_cpu_mode_from_hw_result.
  destruct (register_at env (attempts st) _ATK_CPU_MODE_ID) as [v|];
    [|left; reflexivity].
  rewrite cpu_mode_of_register.
  destruct ((0 <=? v) && (v <=? 4)) eqn:E; [|left; reflexivity].
  apply andb_prop in E. destruct E as [E1 E2].
  apply Z.leb_le in E1. apply Z.leb_le in E2.
  assert (Hv : v = 0 \/ v = 1 \/ v = 2 \/ v = 3 \/ v = 4) by lia.
  unfold known_cpu_modes.
  destruct Hv as [-> | [-> | [-> | [-> | ->]]]]; cbn; auto 8.
Qed.

Lemma get_gpu_mode_known (env : Env) (st : State) :
  In (_cached_gpu_mode st) known_gpu_modes ->
  In (fst (_get_gpu_mode env st)) known_gpu_modes.
Proof.
  intros Hin. unfold _get_gpu_mode. run_monad.
  destruct (is_not_None (_cached_gpu_mode st)); [exact Hin|].
  destruct (_atk_read_device env _ATK_GPU_ECO_ID st) as [eco st1].
  destruct (_atk_read_device env _ATK_GPU_MUX_ID st1) as [mux st2].
  cbn [fst]. unfold known_gpu_modes.
  destruct eco as [e|], mux as [m|]; cbn [In];
    try (destruct (m =? 0)); try (destruct (e =? 1)); auto 6.
Qed.

Lemma run_call_keeps_known (env : Env) (c : Call) (st : State) :
  In (_cached_cpu_mode st) known_cpu_modes ->
  In (_cached_gpu_mode st) [PyNone; PyStr "Eco"; PyStr "Standard"] ->
  In (_cached_cpu_mode (snd (run_call env c st))) known_cpu_modes /\
  In (_cached_gpu_mode (snd (run_call env c st)))
     [PyNone; PyStr "Eco"; PyStr "Standard"].
Proof.
  intros Hc Hg.
  assert (Hwrite : forall a m,
             In (_cached_cpu_mode (snd (set_mode env a m st)))
                known_cpu_modes /\
             In (_cached_gpu_mode (snd (set_mode env a m st)))
                [PyNone; PyStr "Eco"; PyStr "Standard"]).
  { intros a m.
    destruct (fst (set_mode env a m st)) eqn:Hok.
    - destruct (set_mode env a m st) as [ok st'] eqn:Hset.
      cbn [fst snd] in *. subst ok.
      destruct (set_mode_true_inv env a m st st' Hset)
        as [name [pkt [w [Hin [_ [_ [_ ->]]]]]]].
      unfold written_state.
      destruct a; cbn [_cached_cpu_mode _cached_gpu_mode writable_names In]
                    in *.
      + split; [|exact Hg]. unfold known_cpu_modes.
        destruct Hin as [<-|[<-|[<-|[<-|[]]]]]; cbn [In]; auto 8.
      + split; [exact Hc|].
        destruct Hin as [<-|[<-|[]]]; cbn [In]; auto.
    - destruct (set_mode_false_same_store env a m st Hok) as [_ [E1 E2]].
      rewrite E1, E2. split; assumption. }
  destruct c as [| | |m|m].
  - split; assumption.
  - destruct (run_call_read_same_store env GetGpuMode st eq_refl)
      as [_ [E1 E2]].
    rewrite E1, E2. split; assumption.
  - destruct (run_call_read_same_store env GetThermalStats st eq_refl)
      as [_ [E1 E2]].
    rewrite E1, E2. split; assumption.
  - specialize (Hwrite Cpu m). cbn [set_mode run_call] in *. run_monad.
    destruct (_set_cpu_mode env m st). exact Hwrite.
  - specialize (Hwrite Gpu m). cbn [set_mode run_call] in *. run_monad.
    destruct (_set_gpu_mode env m st). exact Hwrite.
Qed.

(** X15: a server that starts without a usable cache file only ever
    holds known mode values.  After start-up and any run of calls the CPU
    mode in memory is unknown or one of Balanced, Turbo, Silent,
    Performance, Manual; the GPU mode in memory is unknown, Eco or
    Standard; and the GPU mode reported is unknown, Eco, Standard or
    Ultimate ([Ultimate] is only ever detected, never stored). *)
Theorem modes_stay_known :
  forall (env : Env) (st0 : State) (calls : list Call),
    dict_items (cache_file st0) = None ->
    let st' := snd (run_calls env calls (restart env st0)) in
    In (_cached_cpu_mode st') known_cpu_modes /\
    In (_cached_gpu_mode st') [PyNone; PyStr "Eco"; PyStr "Standard"] /\
    In (fst (_get_gpu_mode env st')) known_gpu_modes.
Proof.
  intros env st0 calls Hfile st'. subst st'.
  assert (Hboot : In (_cached_cpu_mode (restart env st0)) known_cpu_modes /\
                  In (_cached_gpu_mode (restart env st0))
                     [PyNone; PyStr "Eco"; PyStr "Standard"]).
  { destruct (String.eqb (os_name env) "nt") eqn:Eos.
    - apply String.eqb_eq in Eos.
      destruct (restart_without_dict env st0 Eos Hfile) as [Hc [Hg _]].
      rewrite Hc, Hg. split; [apply read_cpu_mode_known | left; reflexivity].
    - apply String.eqb_neq in Eos.
      rewrite (restart_off_windows env st0 Eos).
      split; left; reflexivity. }
  destruct Hboot as [Hc0 Hg0].
  assert (Hinv : forall st,
             In (_cached_cpu_mode st) known_cpu_modes ->
             In (_cached_gpu_mode st) [PyNone; PyStr "Eco"; PyStr "Standard"] ->
             In (_cached_cpu_mode (snd (run_calls env calls st)))
                known_cpu_modes /\
             In (_cached_gpu_mode (snd (run_calls env calls st)))
                [PyNone; PyStr "Eco"; PyStr "Standard"]).
  { induction calls as [|c rest IH]; intros st H1 H2.
    - split; assumption.
    - rewrite run_calls_cons. cbn [snd].
      destruct (run_call_keeps_known env c st H1 H2) as [K1 K2].
      apply IH; assumption. }
  destruct (Hinv _ Hc0 Hg0) as [R1 R2].
  split; [exact R1|]. split; [exact R2|].
  apply get_gpu_mode_known. unfold known_gpu_modes.
  cbn [In] in *. tauto.
Qed.

Lemma modes_stay_known_witness :
  let env := laptop (always (TransferOk (reply_with 65536))) true in
  let st0 := boot_state Garbage in
  let calls := [SetGpuMode "eco"; GetThermalStats; SetCpuMode "bogus"] in
  let st' := snd (run_calls env calls (restart env st0)) in
  In (_cached_cpu_mode st') known_cpu_modes /\
  In (_cached_gpu_mode st') [PyNone; PyStr "Eco"; PyStr "Standard"] /\
  In (fst (_get_gpu_mode env st')) known_gpu_modes.
Proof.
  intros env st0 calls.
  apply (modes_stay_known env st0 calls). reflexivity.
Defined.

(* ------------------------------------------------------------------ *)
(** ** The LibreHardwareMonitor readers                                 *)
(* ------------------------------------------------------------------ *)

Lemma find_app_first {A : Type} (p : A -> bool) (l1 l2 : list A) :
  find p (l1 ++ l2) =
    match find p l1 with
    | Some x => Some x
    | None => find p l2
    end.
Proof.
  induction l1 as [|x l1 IH]; cbn [app find]; [reflexivity|].
  destruct (p x); [reflexivity | exact IH].
Qed.

Lemma last_reading_app (stype sname : string) (l1 l2 : list Sensor)
  (default : option float) :
  last_reading stype sname (l1 ++ l2) default =
    last_reading stype sname l2 (last_reading stype sname l1 default).
Proof.
  unfold last_reading. rewrite rev_app_distr, find_app_first.
  destruct (find (is_reading stype sname) (rev l2)); reflexivity.
Qed.

Lemma last_reading_nil (stype sname : string) (default : option float) :
  last_reading stype sname [] default = default.
Proof. reflexivity. Qed.

(** One sensor of a CPU node: each temperature field is replaced when the
    sensor is a reading of that name and kept otherwise. *)
Lemma cpu_sensor_step_temps (acc : CpuAcc) (x : Sensor) :
  package_temp (cpu_sensor_step acc x) =
    last_reading "Temperature" "CPU Package" [x] (package_temp acc) /\
  core_avg (cpu_sensor_step acc x) =
    last_reading "Temperature" "Core Average" [x] (core_avg acc) /\
  core_max (cpu_sensor_step acc x) =
    last_reading "Temperature" "Core Max" [x] (core_max acc).
Proof.
  unfold last_reading, cpu_sensor_step, is_reading. cbn [rev app find].
  destruct x as [stype sname [val|]]; cbn [Value SensorType Name is_None negb];
    rewrite ?andb_false_r, ?andb_true_r; [|repeat split].
  destruct (String.eqb stype "Temperature") eqn:ET; cbn [andb].
  - destruct (String.eqb sname "CPU Package") eqn:E1.
    + apply String.eqb_eq in E1. subst sname. repeat split.
    + destruct (String.eqb sname "Core Average") eqn:E2.
      * apply String.eqb_eq in E2. subst sname. repeat split.
      * destruct (String.eqb sname "Core Max") eqn:E3; repeat split.
  - destruct (String.eqb stype "Fan" && is_None (cpu_fan acc));
      repeat split.
Qed.

Lemma cpu_sensors_fold_temps (sensors : list Sensor) :
  forall acc,
    package_temp (fold_left cpu_sensor_step sensors acc) =
      last_reading "Temperature" "CPU Package" sensors (package_temp acc) /\
    core_avg (fold_left cpu_sensor_step sensors acc) =
      last_reading "Temperature" "Core Average" sensors (core_avg acc) /\
    core_max (fold_left cpu_sensor_step sensors acc) =
      last_reading "Temperature" "Core Max" sensors (core_max acc).
Proof.
  induction sensors as [|x rest IH]; intros acc.
  - repeat split.
  - cbn [fold_left].
    destruct (IH (cpu_sensor_step acc x)) as [A [B C]].
    destruct (cpu_sensor_step_temps acc x) as [A0 [B0 C0]].
    change (x :: rest) with ([x] ++ rest)%list.
    rewrite (last_reading_app "Temperature" "CPU Package"),
      (last_reading_app "Temperature" "Core Average"),
      (last_reading_app "Temperature" "Core Max").
    rewrite <- A0, <- B0, <- C0. auto.
Qed.

Lemma cpu_sub_loop_temps (subs : list SubNode) :
  forall acc r,
    cpu_sub_loop acc subs = Some r ->
    package_temp r = package_temp acc /\ core_avg r = core_avg acc /\
    core_max r = core_max acc.
Proof.
  assert (Hstep : forall acc x,
             package_temp (cpu_sub_sensor_step acc x) = package_temp acc /\
             core_avg (cpu_sub_sensor_step acc x) = core_avg acc /\
             core_max (cpu_sub_sensor_step acc x) = core_max acc).
  { intros acc x. unfold cpu_sub_sensor_step.
    destruct (Value x); [|auto].
    destruct (String.eqb (SensorType x) "Fan" && is_None (cpu_fan acc));
      auto. }
  assert (Hfold : forall sensors acc,
             package_temp (fold_left cpu_sub_sensor_step sensors acc)
               = package_temp acc /\
             core_avg (fold_left cpu_sub_sensor_step sensors acc)
               = core_avg acc /\
             core_max (fold_left cpu_sub_sensor_step sensors acc)
               = core_max acc).
  { induction sensors as [|x rest IH]; intros acc; [auto|].
    cbn [fold_left].
    destruct (IH (cpu_sub_sensor_step acc x)) as [A [B C]].
    destruct (Hstep acc x) as [A0 [B0 C0]].
    repeat split; congruence. }
  induction subs as [|sub rest IH]; intros acc r; cbn [cpu_sub_loop].
  - intros [= <-]. auto.
  - destruct (sub_Update_raises sub); [discriminate|].
    intros H. destruct (IH _ _ H) as [A [B C]].
    destruct (Hfold (sub_Sensors sub) acc) as [A0 [B0 C0]].
    repeat split; congruence.
Qed.

Lemma cpu_sub_loop_raises (subs : list SubNode) :
  forall acc,
    cpu_sub_loop acc subs = None <-> existsb sub_Update_raises subs = true.
Proof.
  induction subs as [|sub rest IH]; intros acc; cbn [cpu_sub_loop existsb].
  - split; discriminate.
  - destruct (sub_Update_raises sub); cbn [orb].
    + split; reflexivity.
    + apply IH.
Qed.

Lemma cpu_hw_loop_raises (hws : list HardwareNode) :
  forall acc, cpu_hw_loop acc hws = None <-> cpu_update_raises hws = true.
Proof.
  unfold cpu_update_raises.
  induction hws as [|hw rest IH]; intros acc; cbn [cpu_hw_loop filter].
  - cbn. split; discriminate.
  - unfold is_cpu_node at 1.
    destruct (String.eqb (HardwareType hw) "Cpu"); cbn [negb existsb].
    + destruct (Update_raises hw); cbn [orb]; [split; reflexivity|].
      destruct (cpu_sub_loop (fold_left cpu_sensor_step (Sensors hw) acc)
                  (SubHardware hw)) as [acc'|] eqn:Hsub.
      * assert (Hno : existsb sub_Update_raises (SubHardware hw) = false).
        { destruct (existsb sub_Update_raises (SubHardware hw)) eqn:E;
            [|reflexivity].
          apply (cpu_sub_loop_raises _
                   (fold_left cpu_sensor_step (Sensors hw) acc)) in E.
          congruence. }
        rewrite Hno. apply IH.
      * apply cpu_sub_loop_raises in Hsub. rewrite Hsub.
        split; reflexivity.
    + apply IH.
Qed.

Lemma cpu_hw_loop_temps (hws : list HardwareNode) :
  forall acc r,
    cpu_hw_loop acc hws = Some r ->
    package_temp r =
      last_reading "Temperature" "CPU Package" (cpu_node_sensors hws)
        (package_temp acc) /\
    core_avg r =
      last_reading "Temperature" "Core Average" (cpu_node_sensors hws)
        (core_avg acc) /\
    core_max r =
      last_reading "Temperature" "Core Max" (cpu_node_sensors hws)
        (core_max acc).
Proof.
  unfold cpu_node_sensors.
  induction hws as [|hw rest IH]; intros acc r;
    cbn [cpu_hw_loop filter flat_map].
  - intros [= <-]. auto.
  - change (String.eqb (HardwareType hw) "Cpu") with (is_cpu_node hw).
    destruct (is_cpu_node hw); cbn [negb flat_map].
    + destruct (Update_raises hw); [discriminate|].
      destruct (cpu_sub_loop (fold_left cpu_sensor_step (Sensors hw) acc)
                  (SubHardware hw)) as [acc'|] eqn:Hsub; [|discriminate].
      intros H. destruct (IH _ _ H) as [A [B C]].
      destruct (cpu_sub_loop_temps _ _ _ Hsub) as [A1 [B1 C1]].
      destruct (cpu_sensors_fold_temps (Sensors hw) acc) as [A2 [B2 C2]].
      rewrite (last_reading_app "Temperature" "CPU Package"),
        (last_reading_app "Temperature" "Core Average"),
        (last_reading_app "Temperature" "Core Max").
      rewrite <- A2, <- B2, <- C2, <- A1, <- B1, <- C1. auto.
    + apply IH.
Qed.

(** X16: the three CPU temperatures of the LibreHardwareMonitor reader
    come from the value-carrying "Temperature" sensors of the CPU nodes,
    taken in node order and sensor order: each field is the one-decimal
    rounding of the LAST sensor named "CPU Package", "Core Average" or
    "Core Max" respectively, and is absent when there is none.  Sensors
    of other nodes, sensors without a value and sub-hardware sensors play
    no part. *)
Theorem cpu_temperatures_take_the_last_sensor :
  forall (env : Env) (hws : list HardwareNode),
    _LHM_COMPUTER env = Some hws ->
    cpu_update_raises hws = false ->
    package_temp (_lhm_cpu_sensors env) =
      last_reading "Temperature" "CPU Package" (cpu_node_sensors hws) None /\
    core_avg (_lhm_cpu_sensors env) =
      last_reading "Temperature" "Core Average" (cpu_node_sensors hws) None /\
    core_max (_lhm_cpu_sensors env) =
      last_reading "Temperature" "Core Max" (cpu_node_sensors hws) None.
Proof.
  intros env hws Hlhm Hok. unfold _lhm_cpu_sensors. rewrite Hlhm.
  destruct (cpu_hw_loop no_cpu_readings hws) as [r|] eqn:Hloop.
  - exact (cpu_hw_loop_temps hws _ _ Hloop).
  - apply cpu_hw_loop_raises in Hloop. congruence.
Qed.

Lemma cpu_temperatures_take_the_last_sensor_witness :
  let hws :=
    [ mkHardware "Cpu" false
        [ mkSensor "Temperature" "CPU Package" (Some 50.5%float);
          mkSensor "Temperature" "CPU Package" None;
          mkSensor "Temperature" "Core Max" (Some 70%float) ] [];
      mkHardware "GpuNvidia" true
        [ mkSensor "Temperature" "CPU Package" (Some 99%float) ] [];
      mkHardware "Cpu" false
        [ mkSensor "Temperature" "CPU Package" (Some 61.5%float) ] [] ] in
  let env := mkEnv "nt" (always OpenFailed) SaveOk (Some hws) false None None
               None None in
  _lhm_cpu_sensors env = mkCpuAcc (Some 61.5%float) None (Some 70%float) None /\
  package_temp (_lhm_cpu_sensors env) =
    last_reading "Temperature" "CPU Package" (cpu_node_sensors hws) None /\
  core_avg (_lhm_cpu_sensors env) =
    last_reading "Temperature" "Core Average" (cpu_node_sensors hws) None /\
  core_max (_lhm_cpu_sensors env) =
    last_reading "Temperature" "Core Max" (cpu_node_sensors hws) None.
Proof.
  intros hws env. split; [vm_compute; reflexivity|].
  apply (cpu_temperatures_take_the_last_sensor env hws); reflexivity.
Defined.

(** X17: the CPU reader degrades as a whole.  If LibreHardwareMonitor is
    not loaded, or [Update()] throws on any CPU node or on any sub-node of
    a CPU node, all four results are absent, even those already read from
    earlier nodes; a throwing [Update()] of a node that is not a CPU is
    never reached and changes nothing. *)
Theorem cpu_reader_degrades_as_a_whole :
  forall env : Env,
    (forall hws, _LHM_COMPUTER env = Some hws ->
                 cpu_update_raises hws = true) ->
    _lhm_cpu_sensors env = no_cpu_readings /\
    (forall hw rest acc,
        is_cpu_node hw = false ->
        cpu_hw_loop acc (hw :: rest) = cpu_hw_loop acc rest).
Proof.
  intros env Hraise. split.
  - unfold _lhm_cpu_sensors.
    destruct (_LHM_COMPUTER env) as [hws|]; [|reflexivity].
    specialize (Hraise hws eq_refl).
    apply (cpu_hw_loop_raises hws no_cpu_readings) in Hraise.
    rewrite Hraise. reflexivity.
  - intros hw rest acc Hnot. cbn [cpu_hw_loop].
    unfold is_cpu_node in Hnot. rewrite Hnot. reflexivity.
Qed.

Lemma cpu_reader_degrades_as_a_whole_witness :
  let hws :=
    [ mkHardware "Cpu" false
        [ mkSensor "Temperature" "CPU Package" (Some 50.5%float) ] [];
      mkHardware "Cpu" false [] [ mkSubNode true [] ] ] in
  let env := mkEnv "nt" (always OpenFailed) SaveOk (Some hws) false None None
               None None in
  _lhm_cpu_sensors env = no_cpu_readings /\
  (forall hw rest acc,
      is_cpu_node hw = false ->
      cpu_hw_loop acc (hw :: rest) = cpu_hw_loop acc rest).
Proof.
  intros hws env.
  apply (cpu_reader_degrades_as_a_whole env).
  intros hws' [= <-]. reflexivity.
Defined.

Lemma first_reading_cons (p : Sensor -> bool) (x : Sensor)
  (rest : list Sensor) :
  first_reading p (x :: rest) =
    if p x then option_map PyFloat.round1 (Value x)
    else first_reading p rest.
Proof.
  unfold first_reading. cbn [find]. destruct (p x); reflexivity.
Qed.

Lemma is_reading_value (stype sname : string) (x : Sensor) :
  is_reading stype sname x = true ->
  exists v, Value x = Some v /\ SensorType x = stype /\ Name x = sname.
Proof.
  unfold is_reading. intros H.
  apply andb_prop in H. destruct H as [H Hv].
  apply andb_prop in H. destruct H as [Ht Hn].
  apply String.eqb_eq in Ht. apply String.eqb_eq in Hn.
  destruct (Value x) as [v|]; [|discriminate Hv].
  exists v. auto.
Qed.

(** One sensor of the GPU node: a field that is already set is kept, an
    unset field is set by a reading of its kind. *)
Lemma gpu_sensor_step_fields (acc : GpuAcc) (x : Sensor) :
  core_temp (gpu_sensor_step acc x) =
    match core_temp acc with
    | Some t => Some t
    | None => first_reading (is_reading "Temperature" "GPU Core") [x]
    end /\
  hotspot_temp (gpu_sensor_step acc x) =
    match hotspot_temp acc with
    | Some t => Some t
    | None => first_reading (is_reading "Temperature" "GPU Hot Spot") [x]
    end /\
  gpu_fan (gpu_sensor_step acc x) =
    match gpu_fan acc with
    | Some t => Some t
    | None => first_reading (is_typed_reading "Fan") [x]
    end /\
  fan_pct (gpu_sensor_step acc x) =
    match fan_pct acc with
    | Some t => Some t
    | None => first_reading (is_typed_reading "Control") [x]
    end.
Proof.
  unfold first_reading, gpu_sensor_step, is_reading, is_typed_reading.
  cbn [find].
  destruct acc as [c h f p].
  destruct x as [stype sname [val|]];
    cbn [Value SensorType Name is_None negb core_temp hotspot_temp gpu_fan
           fan_pct];
    rewrite ?andb_false_r, ?andb_true_r;
    [|destruct c, h, f, p; repeat split].
  destruct (String.eqb stype "Temperature") eqn:ET.
  - apply String.eqb_eq in ET. subst stype.
    change (String.eqb "Temperature" "Fan") with false.
    change (String.eqb "Temperature" "Control") with false.
    cbn [andb].
    destruct (String.eqb sname "GPU Core") eqn:E1.
    + apply String.eqb_eq in E1. subst sname.
      change (String.eqb "GPU Core" "GPU Hot Spot") with false.
      destruct c, h, f, p; repeat split.
    + destruct (String.eqb sname "GPU Hot Spot") eqn:E2;
        destruct c, h, f, p; repeat split.
  - cbn [andb].
    destruct (String.eqb stype "Fan") eqn:EF.
    + apply String.eqb_eq in EF. subst stype.
      change (String.eqb "Fan" "Control") with false.
      destruct c, h, f, p; repeat split.
    + destruct (String.eqb stype "Control") eqn:EC;
        destruct c, h, f, p; repeat split.
Qed.

Lemma gpu_sensors_fold_fields (sensors : list Sensor) :
  forall acc,
    core_temp (fold_left gpu_sensor_step sensors acc) =
      match core_temp acc with
      | Some t => Some t
      | None => first_reading (is_reading "Temperature" "GPU Core") sensors
      end /\
    hotspot_temp (fold_left gpu_sensor_step sensors acc) =
      match hotspot_temp acc with
      | Some t => Some t
      | None =>
          first_reading (is_reading "Temperature" "GPU Hot Spot") sensors
      end /\
    gpu_fan (fold_left gpu_sensor_step sensors acc) =
      match gpu_fan acc with
      | Some t => Some t
      | None => first_reading (is_typed_reading "Fan") sensors
      end /\
    fan_pct (fold_left gpu_sensor_step sensors acc) =
      match fan_pct acc with
      | Some t => Some t
      | None => first_reading (is_typed_reading "Control") sensors
      end.
Proof.
  induction sensors as [|x rest IH]; intros acc.
  - cbn [fold_left]. unfold first_reading. cbn [find].
    destruct (core_temp acc), (hotspot_temp acc), (gpu_fan acc),
      (fan_pct acc); repeat split.
  - cbn [fold_left].
    destruct (IH (gpu_sensor_step acc x)) as [A [B [C D]]].
    destruct (gpu_sensor_step_fields acc x) as [A0 [B0 [C0 D0]]].
    rewrite A, B, C, D, A0, B0, C0, D0.
    rewrite !first_reading_cons.
    assert (Hval : forall p, p x = true ->
               (forall s, p s = true -> Value s <> None) ->
               exists v, option_map PyFloat.round1 (Value x) = Some v).
    { intros p Hp Hnn. specialize (Hnn x Hp).
      destruct (Value x) as [v|]; [eexists; reflexivity | congruence]. }
    assert (Hr : forall stype sname s,
               is_reading stype sname s = true -> Value s <> None).
    { intros stype sname s Hs.
      destruct (is_reading_value _ _ _ Hs) as [v [Hv _]]. congruence. }
    assert (Ht : forall stype s,
               is_typed_reading stype s = true -> Value s <> None).
    { intros stype s Hs. unfold is_typed_reading in Hs.
      apply andb_prop in Hs. destruct Hs as [_ Hs].
      destruct (Value s); [congruence | discriminate Hs]. }
    unfold first_reading at 1 2 3 4. cbn [find].
    repeat split.
    + destruct (core_temp acc); [reflexivity|].
      destruct (is_reading "Temperature" "GPU Core" x) eqn:E; [|reflexivity].
      destruct (Hval _ E (Hr _ _)) as [v ->]. reflexivity.
    + destruct (hotspot_temp acc); [reflexivity|].
      destruct (is_reading "Temperature" "GPU Hot Spot" x) eqn:E;
        [|reflexivity].
      destruct (Hval _ E (Hr _ _)) as [v ->]. reflexivity.
    + destruct (gpu_fan acc); [reflexivity|].
      destruct (is_typed_reading "Fan" x) eqn:E; [|reflexivity].
      destruct (Hval _ E (Ht _)) as [v ->]. reflexivity.
    + destruct (fan_pct acc); [reflexivity|].
      destruct (is_typed_reading "Control" x) eqn:E; [|reflexivity].
      destruct (Hval _ E (Ht _)) as [v ->]. reflexivity.
Qed.

Lemma gpu_hw_loop_first_node (hws : list HardwareNode) (acc : GpuAcc) :
  gpu_hw_loop acc hws =
    match find is_gpu_node hws with
    | None => Some acc
    | Some g =>
        if Update_raises g then None
        else Some (fold_left gpu_sensor_step (Sensors g) acc)
    end.
Proof.
  induction hws as [|hw rest IH]; cbn [gpu_hw_loop find]; [reflexivity|].
  change (is_gpu_type (HardwareType hw)) with (is_gpu_node hw).
  destruct (is_gpu_node hw); cbn [negb]; [reflexivity | exact IH].
Qed.

(** X18: the GPU reader uses the first node of type GpuNvidia, GpuAmd or
    GpuIntel and no other.  From that node's sensors, in order, the core
    temperature is the FIRST value-carrying "Temperature" sensor named
    "GPU Core", the hot-spot temperature the first one named
    "GPU Hot Spot", the fan RPM the first value-carrying "Fan" sensor and
    the fan percent the first value-carrying "Control" sensor, whatever
    their names, each rounded to one decimal.  Later GPU nodes are never
    consulted, even for fields the first one lacks. *)
Theorem gpu_reader_uses_first_gpu_node :
  forall (env : Env) (hws : list HardwareNode) (g : HardwareNode),
    _LHM_COMPUTER env = Some hws ->
    find is_gpu_node hws = Some g ->
    Update_raises g = false ->
    core_temp (_lhm_gpu_sensors env) =
      first_reading (is_reading "Temperature" "GPU Core") (Sensors g) /\
    hotspot_temp (_lhm_gpu_sensors env) =
      first_reading (is_reading "Temperature" "GPU Hot Spot") (Sensors g) /\
    gpu_fan (_lhm_gpu_sensors env) =
      first_reading (is_typed_reading "Fan") (Sensors g) /\
    fan_pct (_lhm_gpu_sensors env) =
      first_reading (is_typed_reading "Control") (Sensors g).
Proof.
  intros env hws g Hlhm Hfind Hok.
  unfold _lhm_gpu_sensors. rewrite Hlhm, gpu_hw_loop_first_node, Hfind, Hok.
  exact (gpu_sensors_fold_fields (Sensors g) no_gpu_readings).
Qed.

Lemma gpu_reader_uses_first_gpu_node_witness :
  let g :=
    mkHardware "GpuIntel" false
      [ mkSensor "Temperature" "GPU Core" None;
        mkSensor "Temperature" "GPU Core" (Some 40.5%float);
        mkSensor "Temperature" "GPU Core" (Some 90%float);
        mkSensor "Control" "GPU Fan" (Some 35%float) ] [] in
  let hws :=
    [ mkHardware "Cpu" true [] []; g;
      mkHardware "GpuNvidia" false
        [ mkSensor "Temperature" "GPU Hot Spot" (Some 77%float) ] [] ] in
  let env := mkEnv "nt" (always OpenFailed) SaveOk (Some hws) false None None
               None None in
  _lhm_gpu_sensors env = mkGpuAcc (Some 40.5%float) None None (Some 35%float) /\
  core_temp (_lhm_gpu_sensors env) =
    first_reading (is_reading "Temperature" "GPU Core") (Sensors g) /\
  hotspot_temp (_lhm_gpu_sensors env) =
    first_reading (is_reading "Temperature" "GPU Hot Spot") (Sensors g) /\
  gpu_fan (_lhm_gpu_sensors env) =
    first_reading (is_typed_reading "Fan") (Sensors g) /\
  fan_pct (_lhm_gpu_sensors env) =
    first_reading (is_typed_reading "Control") (Sensors g).
Proof.
  intros g hws env. split; [vm_compute; reflexivity|].
  apply (gpu_reader_uses_first_gpu_node env hws g); reflexivity.
Defined.

(** X19: the GPU reader reports nothing at all when LibreHardwareMonitor
    is not loaded, when no node is a GPU, or when [Update()] throws on
    the first GPU node; a later GPU node is not tried in its place. *)
Theorem gpu_reader_without_usable_node :
  forall env : Env,
    (forall hws g,
        _LHM_COMPUTER env = Some hws -> find is_gpu_node hws = Some g ->
        Update_raises g = true) ->
    _lhm_gpu_sensors env = no_gpu_readings.
Proof.
  intros env Hraise. unfold _lhm_gpu_sensors.
  destruct (_LHM_COMPUTER env) as [hws|]; [|reflexivity].
  rewrite gpu_hw_loop_first_node.
  destruct (find is_gpu_node hws) as [g|] eqn:Hfind; [|reflexivity].
  rewrite (Hraise hws g eq_refl Hfind). reflexivity.
Qed.

Lemma gpu_reader_without_usable_node_witness :
  let hws :=
    [ mkHardware "GpuAmd" true [] [];
      mkHardware "GpuNvidia" false
        [ mkSensor "Temperature" "GPU Core" (Some 55%float) ] [] ] in
  _lhm_gpu_sensors
    (mkEnv "nt" (always OpenFailed) SaveOk (Some hws) false None None None None)
  = no_gpu_readings.
Proof.
  intros hws.
  apply gpu_reader_without_usable_node.
  intros hws' g [= <-] [= <-]. reflexivity.
Defined.

(* ------------------------------------------------------------------ *)
(** ** The snapshot and the device                                      *)
(* ------------------------------------------------------------------ *)

(** X20: off Windows a thermal snapshot never touches the device or the
    modes: the state is returned as it was.  Core-average, core-max and
    hot-spot temperatures, the CPU fan percent and the GPU fan RPM are
    always absent there, and a GPU fan percent is only ever present
    together with a GPU temperature, both coming from NVML. *)
Theorem snapshot_off_windows :
  forall (env : Env) (st : State),
    os_name env <> "nt" ->
    let t := fst (_get_thermal_stats env st) in
    snd (_get_thermal_stats env st) = st /\
    cpu_core_avg_celsius t = None /\ cpu_core_max_celsius t = None /\
    gpu_hotspot_celsius t = None /\ cpu_fan_percent t = None /\
    gpu_fan_rpm t = None /\
    (gpu_fan_percent t <> None -> gpu_core_temp_celsius t <> None) /\
    (_NVML_AVAILABLE env = false ->
     gpu_core_temp_celsius t = None /\ gpu_fan_percent t = None).
Proof.
  intros env st Hos t. subst t. unfold _get_thermal_stats.
  destruct (String.eqb (os_name env) "nt") eqn:E;
    [apply String.eqb_eq in E; contradiction|].
  unfold ret. cbn [fst snd cpu_core_avg_celsius cpu_core_max_celsius
                     gpu_hotspot_celsius cpu_fan_percent gpu_fan_rpm
                     gpu_fan_percent gpu_core_temp_celsius].
  do 6 (split; [reflexivity|]).
  unfold _gpu_stats_nvidia. split.
  - destruct (_NVML_AVAILABLE env); cbn [negb fst snd]; [|congruence].
    destruct (nvml_temperature env); cbn [fst snd]; congruence.
  - intros ->. split; reflexivity.
Qed.

Lemma snapshot_off_windows_witness :
  let env := mkEnv "posix" (always (TransferOk (reply_with 65570))) SaveOk
               None true (Some 64) None (Some 51.5%float) (Some 2400) in
  let st := boot_state Missing in
  let t := fst (_get_thermal_stats env st) in
  (gpu_core_temp_celsius t = Some 64%float /\ gpu_fan_percent t = None) /\
  snd (_get_thermal_stats env st) = st /\
  cpu_core_avg_celsius t = None /\ cpu_core_max_celsius t = None /\
  gpu_hotspot_celsius t = None /\ cpu_fan_percent t = None /\
  gpu_fan_rpm t = None /\
  (gpu_fan_percent t <> None -> gpu_core_temp_celsius t <> None) /\
  (_NVML_AVAILABLE env = false ->
   gpu_core_temp_celsius t = None /\ gpu_fan_percent t = None).
Proof.
  intros env st t. split; [split; vm_compute; reflexivity|].
  apply (snapshot_off_windows env st). cbn. discriminate.
Defined.

(** X21: on Windows a thermal snapshot makes exactly two device attempts,
    first for the CPU fan and then for the GPU fan; the second is made
    whatever became of the first.  The fan fields are what those two
    exchanges yield and nothing else: the fan and control sensors of
    LibreHardwareMonitor and the NVML fan speed never reach the
    snapshot.  When both exchanges get through, the log grows by exactly
    these two read requests. *)
Theorem snapshot_reads_both_fans :
  forall (env : Env) (st : State),
    os_name env = "nt" ->
    let t := fst (_get_thermal_stats env st) in
    let st' := snd (_get_thermal_stats env st) in
    attempts st' = S (S (attempts st)) /\
    cpu_fan_rpm t = fan_at env (attempts st) _ATK_CPU_FAN_ID /\
    gpu_fan_rpm t = fan_at env (S (attempts st)) _ATK_GPU_FAN_ID /\
    cpu_fan_percent t = percent_if_present (cpu_fan_rpm t) /\
    gpu_fan_percent t = percent_if_present (gpu_fan_rpm t) /\
    sends_only [read_packet _ATK_CPU_FAN_ID; read_packet _ATK_GPU_FAN_ID]
      st st' /\
    (driver env (attempts st) (read_packet _ATK_CPU_FAN_ID) <> OpenFailed ->
     driver env (S (attempts st)) (read_packet _ATK_GPU_FAN_ID)
       <> OpenFailed ->
     transfers st' =
       read_packet _ATK_GPU_FAN_ID :: read_packet _ATK_CPU_FAN_ID
       :: transfers st).
Proof.
  intros env st Hos t st'. subst t st'.
  rewrite (get_thermal_stats_nt env st Hos).
  cbn [cpu_fan_rpm gpu_fan_rpm cpu_fan_percent gpu_fan_percent].
  unfold _get_thermal_stats. rewrite Hos.
  change (String.eqb "nt" "nt") with true. cbv iota.
  unfold _atk_fan_speeds, _atk_read_fan. run_monad.
  fold (read_packet _ATK_CPU_FAN_ID). fold (read_packet _ATK_GPU_FAN_ID).
  destruct (device_io_control_spec env (read_packet _ATK_CPU_FAN_ID) st)
    as [_ [Ha1 [_ Ht1]]].
  pose proof (device_io_control_sends env (read_packet _ATK_CPU_FAN_ID) st)
    as Hs1.
  destruct (device_io_control env (read_packet _ATK_CPU_FAN_ID) st)
    as [o1 st1].
  destruct (device_io_control_spec env (read_packet _ATK_GPU_FAN_ID) st1)
    as [_ [Ha2 [_ Ht2]]].
  pose proof (device_io_control_sends env (read_packet _ATK_GPU_FAN_ID) st1)
    as Hs2.
  destruct (device_io_control env (read_packet _ATK_GPU_FAN_ID) st1)
    as [o2 st2].
  cbn [fst snd] in *. rewrite Ha1 in *.
  split; [congruence|]. do 4 (split; [reflexivity|]).
  split.
  - eapply sends_only_trans.
    + eapply sends_only_weaken; [|exact Hs1].
      intros p [<-|[]]. cbn [In]. auto.
    + eapply sends_only_weaken; [|exact Hs2].
      intros p [<-|[]]. cbn [In]. auto.
  - intros H1 H2. rewrite Ht2, Ht1.
    destruct (driver env (attempts st) (read_packet _ATK_CPU_FAN_ID));
      try congruence;
      destruct (driver env (S (attempts st)) (read_packet _ATK_GPU_FAN_ID));
      congruence.
Qed.

Lemma snapshot_reads_both_fans_witness :
  let env :=
    laptop (scripted [TransferFailed; TransferOk (reply_with 65560)]) true in
  let st := boot_state Missing in
  let t := fst (_get_thermal_stats env st) in
  let st' := snd (_get_thermal_stats env st) in
  (cpu_fan_rpm t = None /\ gpu_fan_rpm t = Some 2400) /\
  attempts st' = S (S (attempts st)) /\
  cpu_fan_rpm t = fan_at env (attempts st) _ATK_CPU_FAN_ID /\
  gpu_fan_rpm t = fan_at env (S (attempts st)) _ATK_GPU_FAN_ID /\
  cpu_fan_percent t = percent_if_present (cpu_fan_rpm t) /\
  gpu_fan_percent t = percent_if_present (gpu_fan_rpm t) /\
  sends_only [read_packet _ATK_CPU_FAN_ID; read_packet _ATK_GPU_FAN_ID]
    st st' /\
  (driver env (attempts st) (read_packet _ATK_CPU_FAN_ID) <> OpenFailed ->
   driver env (S (attempts st)) (read_packet _ATK_GPU_FAN_ID)
     <> OpenFailed ->
   transfers st' =
     read_packet _ATK_GPU_FAN_ID :: read_packet _ATK_CPU_FAN_ID
     :: transfers st).
Proof.
  intros env st t st'. split; [split; vm_compute; reflexivity|].
  apply (snapshot_reads_both_fans env st). reflexivity.
Defined.

(* ------------------------------------------------------------------ *)
(** ** The OS-native readers                                            *)
(* ------------------------------------------------------------------ *)

(** X22: the Linux CPU temperature takes the first of the groups
    coretemp, k10temp, cpu_thermal, acpitz that exists, wherever it
    stands in the dict, and reports the rounded mean of that group alone;
    if that group is empty the result is absent, even when other groups
    have readings.  Only when none of the four names exists does it fall
    back to the first group of the dict, and then it reports that
    group's first reading, not a mean.  An empty dict and a failing
    sensor query give no temperature. *)
Theorem cpu_temp_linux_precedence :
  forall (py_sum : list float -> float) (temps : SensorGroups)
         (readings : list float),
    first_preferred preferred_temp_groups temps = Some readings ->
    _cpu_temp_linux py_sum (Some temps) = group_average py_sum readings /\
    group_average py_sum [] = None /\
    (get String.eqb temps "coretemp" = Some readings \/
     get String.eqb temps "coretemp" = None /\
     (get String.eqb temps "k10temp" = Some readings \/
      get String.eqb temps "k10temp" = None /\
      (get String.eqb temps "cpu_thermal" = Some readings \/
       get String.eqb temps "cpu_thermal" = None /\
       get String.eqb temps "acpitz" = Some readings))) /\
    (forall name first rest,
        first_preferred preferred_temp_groups ((name, first) :: rest)
          = None ->
        _cpu_temp_linux py_sum (Some ((name, first) :: rest)) =
          match first with
          | [] => None
          | reading :: _ => Some (PyFloat.round1 reading)
          end) /\
    _cpu_temp_linux py_sum (Some []) = None /\
    _cpu_temp_linux py_sum None = None.
Proof.
  intros py_sum temps readings Hpref.
  split; [|split; [reflexivity|split; [|split; [|split; reflexivity]]]].
  - destruct temps as [|[name first] rest]; [discriminate Hpref|].
    cbn [_cpu_temp_linux]. rewrite Hpref. reflexivity.
  - unfold preferred_temp_groups in Hpref. cbn [first_preferred] in Hpref.
    destruct (get String.eqb temps "coretemp"); [left; exact Hpref|].
    right. split; [reflexivity|].
    destruct (get String.eqb temps "k10temp"); [left; exact Hpref|].
    right. split; [reflexivity|].
    destruct (get String.eqb temps "cpu_thermal"); [left; exact Hpref|].
    right. split; [reflexivity|].
    destruct (get String.eqb temps "acpitz"); [exact Hpref|discriminate].
  - intros name first rest Hnone. cbn [_cpu_temp_linux].
    rewrite Hnone. reflexivity.
Qed.

Lemma cpu_temp_linux_precedence_witness :
  let temps :=
    [ ("nvme", [33.5%float]); ("acpitz", [48%float; 50%float]);
      ("k10temp", [61.25%float; 63.75%float]) ] in
  _cpu_temp_linux sum_left (Some temps) = Some 62.5%float /\
  _cpu_temp_linux sum_left (Some temps)
    = group_average sum_left [61.25%float; 63.75%float] /\
  _cpu_temp_linux sum_left (Some [("nvme", [33.5%float]); ("coretemp", [])])
    = None /\
  _cpu_temp_linux sum_left (Some [("nvme", [33.5%float; 80%float])])
    = Some 33.5%float.
Proof.
  intros temps.
  destruct (cpu_temp_linux_precedence sum_left temps
              [61.25%float; 63.75%float] eq_refl)
    as [Hres [Hempty [_ [Hfallback _]]]].
  split; [vm_compute; reflexivity|].
  split; [exact Hres|].
  split; [vm_compute; reflexivity|].
  rewrite (Hfallback "nvme" [33.5%float; 80%float] [] eq_refl).
  vm_compute. reflexivity.
Defined.

Lemma first_fan_reading_skips_empty (pre : list (list float))
  (rest : list (list float)) :
  (forall g, In g pre -> g = []) ->
  first_fan_reading (pre ++ rest)%list = first_fan_reading rest.
Proof.
  induction pre as [|g pre IH]; intros Hempty; [reflexivity|].
  cbn [app]. rewrite (Hempty g (or_introl eq_refl)). cbn [first_fan_reading].
  apply IH. intros g' Hin. apply Hempty. right. exact Hin.
Qed.

(** X23: the Linux CPU fan reading is the first entry of the first fan
    group that has any entry, rounded to a whole number; empty groups
    before it are skipped and everything after it is ignored.  When every
    group is empty, the dict is empty or the sensor query fails, there is
    no fan reading. *)
Theorem cpu_fan_linux_first_nonempty_group :
  forall (pre post : SensorGroups) (name : string) (reading : float)
         (others : list float),
    (forall g, In g pre -> snd g = []) ->
    _cpu_fan_linux (Some (pre ++ (name, reading :: others) :: post)%list)
      = Some (py_round0 reading) /\
    _cpu_fan_linux (Some pre) = None /\
    _cpu_fan_linux None = None.
Proof.
  intros pre post name reading others Hempty.
  assert (Hpre : forall g, In g (map snd pre) -> g = []).
  { intros g Hin. apply in_map_iff in Hin.
    destruct Hin as [[n r] [<- Hin]]. apply (Hempty _ Hin). }
  split; [|split; [|reflexivity]].
  - unfold _cpu_fan_linux.
    destruct (pre ++ (name, reading :: others) :: post)%list
      as [|g fans] eqn:E.
    + destruct pre; discriminate E.
    + rewrite <- E, map_app, first_fan_reading_skips_empty by exact Hpre.
      reflexivity.
  - unfold _cpu_fan_linux. destruct pre as [|g fans] eqn:E; [reflexivity|].
    rewrite <- E in *.
    rewrite <- (app_nil_r (map snd pre)).
    rewrite first_fan_reading_skips_empty by exact Hpre. reflexivity.
Qed.

Lemma cpu_fan_linux_first_nonempty_group_witness :
  _cpu_fan_linux
    (Some ([("pump", [])] ++ ("cpu_fan", [2350.5%float; 900%float])
           :: [("case", [1200%float])])%list)
    = Some (py_round0 2350.5) /\
  _cpu_fan_linux (Some [("pump", [])]) = None /\
  _cpu_fan_linux None = None.
Proof.
  apply (cpu_fan_linux_first_nonempty_group [("pump", [])]
           [("case", [1200%float])] "cpu_fan" 2350.5%float [900%float]).
  intros g [<-|[]]. reflexivity.
Defined.
